(** * Verification of the chatbot test harness

    A shallow embedding of the decision logic of the harness: the selector
    fallback chain of [SelectorManager], the classification and prioritisation
    logic of [IssueAnalyzer], the open/closed probes and the message guard of
    [ChatbotHelper], and the weighted scenario draw of the k6 load script.

    Conventions of the embedding.
    - A JavaScript object literal used as a lookup table is a finite map on the
      keys that the literal writes ([gmap string _]); where the code iterates
      over the object ([Object.entries], [Object.keys]) it is an association
      list in the order of the literal. The tables of the analyzer are read
      with [Js.read], which also answers the names that every object literal
      inherits from [Object.prototype] ('constructor', 'toString' and the
      like); the selector tables are read on the keys they write.
    - A JavaScript number is a binary64 float ([PrimFloat.float]) in the
      analyzer; dates in milliseconds and array lengths are integers. In the
      load script a number is the rational value of a double, and every
      product, sum and difference is rounded to the nearest double by
      [Js.binary64].
    - Identifiers, selectors and report texts are [string]s, one character per
      code unit for the ASCII texts that the code measures or cuts; the emoji
      of the literals are carried as their UTF-8 bytes and only concatenated.
      The text of a chat message is a list of UTF-16 code units.
    - Calls into the browser page, the clock and the random generator thread
      an explicit world, whose operations are the fields of a type class; a
      call that may reject returns a [Js.completion]. *)

From Stdlib Require Import ZArith QArith Qround Qabs Qpower Lqa Floats Uint63 Lia.
From stdpp Require Import base option list strings gmap pretty.

Set Warnings "-inexact-float".
Local Open Scope string_scope.

(** ** JavaScript primitives used by the sources *)

Module Js.

(** The integer [z] as a number; exact for [|z| < 2^53]. *)
Definition Z_to_float (z : Z) : float :=
  if (z <? 0)%Z then PrimFloat.opp (PrimFloat.of_uint63 (Uint63.of_Z (- z)))
  else PrimFloat.of_uint63 (Uint63.of_Z z).

(** [Math.round]: the nearest integer, a half rounding towards plus infinity.
    NaN, the infinities, the zeros and numbers with a non-negative binary
    exponent (already integers) are returned as they are. The rounding is done
    on the exact value [±m * 2^e] of the float. *)
Definition Math_round (x : float) : float :=
  match Prim2SF x with
  | S754_finite s m e =>
      if (0 <=? e)%Z then x
      else
        let k := (- e)%Z in
        let n := if s then Z.neg m else Z.pos m in
        let r := ((2 * n + 2 ^ k) / 2 ^ (k + 1))%Z in
        if (r =? 0)%Z then (if s then (-0)%float else 0%float)
        else Z_to_float r
  | _ => x
  end.

(** The rational value of a finite float; 0 for the others. *)
Definition exact (x : float) : Q :=
  match Prim2SF x with
  | S754_finite s m e =>
      ((if s then inject_Z (Z.neg m) else inject_Z (Z.pos m)) * 2 ^ e)%Q
  | _ => 0%Q
  end.

(** Rounding to binary64 on rational values. The nearest integer, a tie
    going to the even one. *)
Definition round_half_even (x : Q) : Z :=
  let n := Qfloor x in
  match (x - inject_Z n ?= 1 # 2)%Q with
  | Lt => n
  | Gt => (n + 1)%Z
  | Eq => if Z.even n then n else (n + 1)%Z
  end.

(** The exponent of the unit in the last place of a number of magnitude
    [magnitude]: the largest [e], from 971 down, with
    [2^(e+52) <= magnitude], and -1074 (the subnormal numbers and zero) when
    there is none. *)
Fixpoint ulp_search (steps : nat) (e : Z) (magnitude : Q) : Z :=
  match steps with
  | O => e
  | S steps' =>
      if Qle_bool (2 ^ (e + 52)) magnitude then e
      else ulp_search steps' (e - 1) magnitude
  end.

Definition ulp_exponent (q : Q) : Z := ulp_search 2045 971 (Qabs q).

(** The double nearest to [q], a tie going to the even significand: [q] is
    rounded to a whole number of units in the last place. The result is the
    value of the double that binary64 arithmetic gives for the exact result
    [q], below the overflow threshold (the numbers of the load script stay
    below 128). A decimal literal of the source is the double nearest to
    it: [binary64 (3 # 10)] for [0.3]. *)
Definition binary64 (q : Q) : Q :=
  let e := ulp_exponent q in
  (inject_Z (round_half_even (q / 2 ^ e)) * 2 ^ e)%Q.

(** Truthiness of a number and of a string. *)
Definition truthy_number (x : float) : bool :=
  negb (PrimFloat.is_nan x) && negb (PrimFloat.is_zero x).

Definition truthy_string (s : string) : bool :=
  negb (String.eqb s "").

(** [v || d] where [v] is the result of a property read: [None] is
    [undefined]. *)
Definition or_string (v : option string) (d : string) : string :=
  match v with
  | Some s => if truthy_string s then s else d
  | None => d
  end.

(** A property key: [undefined] used as a key is the string "undefined". *)
Definition key (k : option string) : string :=
  match k with
  | Some s => s
  | None => "undefined"
  end.

(** The names that every object literal inherits from [Object.prototype]:
    those of ECMAScript and the accessors of its Annex B. Each reads as a
    built-in function, ['__proto__'] as the prototype object itself. *)
Definition Object_prototype : list string :=
  [ "constructor"; "hasOwnProperty"; "isPrototypeOf"; "propertyIsEnumerable";
    "toLocaleString"; "toString"; "valueOf"; "__proto__";
    "__defineGetter__"; "__defineSetter__"; "__lookupGetter__";
    "__lookupSetter__" ].

Definition inherited (k : string) : bool :=
  existsb (String.eqb k) Object_prototype.

(** What a read of an object literal gives when there is something to give:
    a value that the literal writes, or the member of [Object.prototype] of
    the name asked for. *)
Inductive value (V : Type) : Type :=
  | Value (v : V)
  | Member (name : string).
Arguments Value {V} v.
Arguments Member {V} name.

(** [table[k]] on an object literal: its own key first, then the prototype;
    [None] is [undefined]. *)
Definition read {V : Type} (table : gmap string V) (k : string)
    : option (value V) :=
  match table !! k with
  | Some v => Some (Value v)
  | None => if inherited k then Some (Member k) else None
  end.

(** [v || d] for such a read. An inherited member is a function or an
    object, hence truthy. *)
Definition or_value {V : Type} (truthy : V -> bool) (v : option (value V))
    (d : V) : value V :=
  match v with
  | Some (Value x) => if truthy x then Value x else Value d
  | Some (Member name) => Member name
  | None => Value d
  end.

(** The number that arithmetic takes a value for: a built-in function and
    the prototype object convert to NaN. *)
Definition to_number (v : value float) : float :=
  match v with
  | Value x => x
  | Member _ => PrimFloat.nan
  end.

(** Property read on an object whose key order matters. *)
Fixpoint get {V : Type} (o : list (string * V)) (k : string) : option V :=
  match o with
  | [] => None
  | (k', v) :: o' => if String.eqb k' k then Some v else get o' k
  end.

(** [o === s] for a property read [o] and a string literal [s]. *)
Definition strict_eq (o : option string) (s : string) : bool :=
  match o with
  | Some s' => String.eqb s' s
  | None => false
  end.

(** Characters. [\w] of a regular expression without the u flag is
    [A-Za-z0-9_]. *)
Definition code (c : Ascii.ascii) : N := Ascii.N_of_ascii c.

Definition is_lower (c : Ascii.ascii) : bool :=
  ((97 <=? code c) && (code c <=? 122))%N.

Definition is_upper (c : Ascii.ascii) : bool :=
  ((65 <=? code c) && (code c <=? 90))%N.

Definition is_digit (c : Ascii.ascii) : bool :=
  ((48 <=? code c) && (code c <=? 57))%N.

Definition is_word_char (c : Ascii.ascii) : bool :=
  is_lower c || is_upper c || is_digit c || (code c =? 95)%N.

Definition upper_char (c : Ascii.ascii) : Ascii.ascii :=
  if is_lower c then Ascii.ascii_of_N (code c - 32) else c.

Definition lower_char (c : Ascii.ascii) : Ascii.ascii :=
  if is_upper c then Ascii.ascii_of_N (code c + 32) else c.

Fixpoint map_chars (f : Ascii.ascii -> Ascii.ascii) (s : string) : string :=
  match s with
  | EmptyString => EmptyString
  | String c s' => String (f c) (map_chars f s')
  end.

(** [toUpperCase] and [toLowerCase] on the ASCII letters. *)
Definition toUpperCase : string -> string := map_chars upper_char.
Definition toLowerCase : string -> string := map_chars lower_char.

(** [s.replace(/_/g, ' ')]. *)
Definition replace_underscores : string -> string :=
  map_chars (fun c => if (code c =? 95)%N then Ascii.ascii_of_N 32 else c).

(** [s.replace(/\b\w/g, l => l.toUpperCase())]: a word character that
    starts the string or follows a character that is not a word character
    is put in upper case. [prev] tells whether the previous character was a
    word character. *)
Fixpoint capitalize_words (prev : bool) (s : string) : string :=
  match s with
  | EmptyString => EmptyString
  | String c s' =>
      let w := is_word_char c in
      String (if w && negb prev then upper_char c else c)
             (capitalize_words w s')
  end.

(** [s.replace] with the class of the double quote and the comma, replaced
    by nothing. *)
Fixpoint remove_quotes_commas (s : string) : string :=
  match s with
  | EmptyString => EmptyString
  | String c s' =>
      if ((code c =? 34) || (code c =? 44))%N then remove_quotes_commas s'
      else String c (remove_quotes_commas s')
  end.

(** [n.toString(36)] for an integer [n]. *)
Definition digit36 (d : N) : Ascii.ascii :=
  if (d <? 10)%N then Ascii.ascii_of_N (48 + d) else Ascii.ascii_of_N (87 + d).

Fixpoint toString36_digits (fuel : nat) (n : N) (acc : string) : string :=
  match fuel with
  | O => acc
  | S fuel' =>
      let acc' := String (digit36 (n mod 36)) acc in
      if (n / 36 =? 0)%N then acc' else toString36_digits fuel' (n / 36) acc'
  end.

Definition toString36 (z : Z) : string :=
  let n := Z.abs_N z in
  let digits := toString36_digits (S (N.to_nat (N.log2 n))) n EmptyString in
  if (z <? 0)%Z then "-" +:+ digits else digits.

(** [array.join(sep)]. *)
Fixpoint join (sep : string) (l : list string) : string :=
  match l with
  | [] => ""
  | [s] => s
  | s :: l' => s +:+ sep +:+ join sep l'
  end.

Definition newline : string := String (Ascii.ascii_of_N 10) EmptyString.

(** A text between double quotes. *)
Definition quoted (cell : string) : string :=
  let q := String (Ascii.ascii_of_N 34) EmptyString in q +:+ cell +:+ q.

(** The CSS attribute selector [[name="value"]]; [name] carries the
    operator when it is not plain equality, as in [[title*="chat"]]. *)
Definition attr (name value : string) : string :=
  "[" +:+ name +:+ "=" +:+ quoted value +:+ "]".

(** [trim] on a text whose ends are ASCII: the white space and line
    terminators below 128 are the codes 9 to 13 and 32. *)
Definition is_space (c : Ascii.ascii) : bool :=
  ((9 <=? code c) && (code c <=? 13) || (code c =? 32))%N.

Fixpoint trimStart (s : string) : string :=
  match s with
  | EmptyString => EmptyString
  | String c s' => if is_space c then trimStart s' else s
  end.

Definition trimEnd (s : string) : string :=
  String.rev (trimStart (String.rev s)).

Definition trim (s : string) : string := trimEnd (trimStart s).

(** Results of a call: a value, or a thrown error with its message. *)
Inductive error : Type :=
  | Error (message : string)
  | RangeError (message : string).

Definition message (e : error) : string :=
  match e with
  | Error m => m
  | RangeError m => m
  end.

Inductive completion (A : Type) : Type :=
  | Return (a : A)
  | Throw (e : error).
Arguments Return {A} a.
Arguments Throw {A} e.

(** The error of a call that needs a stack frame when none is left. *)
Definition stack_overflow : error :=
  RangeError "Maximum call stack size exceeded".

(** Array sort with a comparator: stable; [after a b] holds when the
    comparator is positive on [(a, b)], that is when [a] goes after [b]. *)
Fixpoint sort_insert {A : Type} (after : A -> A -> bool) (x : A)
    (l : list A) : list A :=
  match l with
  | [] => [x]
  | y :: l' => if after x y then y :: sort_insert after x l' else x :: l
  end.

Definition sort {A : Type} (after : A -> A -> bool) (l : list A) : list A :=
  foldr (sort_insert after) [] l.

(** [!s] for a string. *)
Definition falsy (s : string) : bool := String.eqb s "".

(** [s.includes(part)]: [part] occurs in [s] at some position. *)
Fixpoint includes (s part : string) : bool :=
  String.prefix part s
  || match s with
     | EmptyString => false
     | String _ s' => includes s' part
     end.

(** [s.replace(/[^\w\s]/g, '')]: only the word characters and the white
    space are kept. *)
Fixpoint keep_words_and_spaces (s : string) : string :=
  match s with
  | EmptyString => EmptyString
  | String c s' =>
      if is_word_char c || is_space c
      then String c (keep_words_and_spaces s')
      else keep_words_and_spaces s'
  end.

(** [s.split(/\s+/)]: the pieces between the runs of white space; a run at
    an end of [s] leaves an empty piece there. [piece] is the piece being
    read, backwards, and [in_run] tells whether the last character was white
    space. *)
Fixpoint split_at_spaces (piece : string) (in_run : bool) (s : string)
    : list string :=
  match s with
  | EmptyString => [String.rev piece]
  | String c s' =>
      if is_space c then
        if in_run then split_at_spaces EmptyString true s'
        else String.rev piece :: split_at_spaces EmptyString true s'
      else split_at_spaces (String c piece) false s'
  end.

Definition split_spaces (s : string) : list string :=
  split_at_spaces EmptyString false s.

(** A text of ASCII characters: on these, the case mappings, the classes
    [\w] and [\s] and [trim] of this module are those of JavaScript. *)
Fixpoint ascii_text (s : string) : bool :=
  match s with
  | EmptyString => true
  | String c s' => (code c <? 128)%N && ascii_text s'
  end.

End Js.

(** ** Effects: a state monad over the world *)

Definition State (W A : Type) : Type := W -> A * W.

#[export] Instance State_ret {W} : MRet (State W) := fun A a w => (a, w).

#[export] Instance State_bind {W} : MBind (State W) :=
  fun A B f m w => let '(a, w') := m w in f a w'.

(** What the analyzer asks of its environment. [Math.random().toString(36)]
    is taken as a whole, as the text of a random fraction in base 36;
    [member_toString] is the text that a template string gives for the member
    of [Object.prototype] of a name (the text of a built-in function is the
    engine's). *)
Class Runtime (W : Type) := {
  Date_now : State W Z;
  Date_toISOString : State W string;
  Math_random_toString36 : State W string;
  console_error : string -> State W unit;
  member_toString : string -> string
}.


(** ** IssueAnalyzer (src/utils/issue_analyzer.js) *)

(** The argument of [addIssue]. The fields are strings, as documented and as
    every caller passes them; [severity] may be absent. *)
Module Issue.
Record t := mk {
  category : string;
  severity : option string;
  description : string;
  evidence : string;
  impact : string;
  recommendation : string
}.
End Issue.

Module Category.
Record t := mk {
  description : string;
  businessImpact : string;
  severity : string
}.
End Category.

Module EnrichedIssue.
Record t := mk {
  id : string;
  timestamp : string;
  category : string;
  severity : string;
  title : string;
  description : string;
  evidence : string;
  impact : string;
  recommendation : string;
  businessPriority : float;
  estimatedFixTime : Js.value string;
  affectedUserPercentage : Js.value string
}.
End EnrichedIssue.

Module SeverityBreakdown.
Record t := mk {
  critical : nat;
  high : nat;
  moderate : nat;
  minor : nat
}.
End SeverityBreakdown.

Module Summary.
Record t := mk {
  totalIssues : nat;
  severityBreakdown : SeverityBreakdown.t;
  categoryBreakdown : list (string * nat);
  averageBusinessPriority : float;
  criticalIssueCount : nat;
  needsImmediateAttention : nat;
  overallRiskLevel : string
}.
End Summary.

Module Recommendation.
Record t := mk {
  priority : string;
  action : string;
  description : string;
  issues : list string;
  estimatedTime : string;
  businessImpact : string
}.
End Recommendation.

Module ExportDocument.
Record t := mk {
  summary : Summary.t;
  issues : list EnrichedIssue.t;
  recommendations : list Recommendation.t;
  categories : list (string * Category.t);
  exportTimestamp : string
}.
End ExportDocument.

(** The priority as the documentation words it, in exact arithmetic: the
    score of the severity times the multiplier of the category, rounded to
    the nearest integer (a half rounds up). *)
Module PrioritySpec.

Definition severityScore (severity : option string) : Q :=
  match severity with
  | Some s =>
      if String.eqb s "critical" then 10%Q
      else if String.eqb s "high" then 7%Q
      else if String.eqb s "moderate" then 4%Q
      else if String.eqb s "minor" then 2%Q
      else 4%Q
  | None => 4%Q
  end.

Definition categoryMultipliers : gmap string Q :=
  list_to_map [
    ("core_functionality", 1%Q);
    ("security", 1%Q);
    ("ui_rendering", 9 # 10);
    ("integration", 8 # 10);
    ("mobile_compatibility", 8 # 10);
    ("response_quality", 7 # 10);
    ("performance_consistency", 6 # 10);
    ("accessibility", 5 # 10);
    ("input_validation", 4 # 10);
    ("browser_compatibility", 4 # 10);
    ("conversation_flow", 3 # 10);
    ("error_handling", 3 # 10)
  ].

Definition categoryMultiplier (category : string) : Q :=
  default (5 # 10) (categoryMultipliers !! category).

Definition round (q : Q) : Z := Qfloor (q + (1 # 2))%Q.

End PrioritySpec.

Module IssueAnalyzer.

Record t := mk {
  issues : list EnrichedIssue.t;
  categories : list (string * Category.t)
}.

Definition constructor : t :=
  {| issues := [];
     categories := [
       ("ui_rendering",
        Category.mk "Visual and rendering issues with chatbot interface"
          "High - Users cannot see or interact with chatbot" "critical");
       ("core_functionality",
        Category.mk "Basic chatbot operations not working"
          "Critical - Chatbot completely non-functional" "critical");
       ("performance_consistency",
        Category.mk "Inconsistent response times or performance"
          "Medium - Poor user experience, potential abandonment" "moderate");
       ("response_quality",
        Category.mk "Bot responses are irrelevant or unhelpful"
          "High - Users get poor support, may not convert" "moderate");
       ("conversation_flow",
        Category.mk "Issues with multi-turn conversations"
          "Medium - Users cannot have complex interactions" "moderate");
       ("input_validation",
        Category.mk "Problems handling various input types"
          "Low to Medium - Edge cases may cause issues" "minor");
       ("accessibility",
        Category.mk "Accessibility compliance issues"
          "Medium - Excludes users with disabilities" "moderate");
       ("security",
        Category.mk "Potential security vulnerabilities"
          "Critical - Risk of data breach or exploitation" "critical");
       ("error_handling",
        Category.mk "Poor error handling and recovery"
          "Medium - Users may lose functionality during issues" "moderate");
       ("integration",
        Category.mk "Issues with backend systems or third-party integrations"
          "High - May affect lead capture or data flow" "high");
       ("mobile_compatibility",
        Category.mk "Issues specific to mobile devices"
          "High - Large portion of users on mobile" "high");
       ("browser_compatibility",
        Category.mk "Issues specific to certain browsers"
          "Medium - Affects subset of users" "moderate")
     ] |}.

Definition generateIssueId `{Runtime W} : State W string :=
  now ← Date_now;
  let timestamp := Js.toString36 now in
  fraction ← Math_random_toString36;
  let random := String.substring 2 5 fraction in
  mret (Js.toUpperCase ("ISSUE-" +:+ timestamp +:+ "-" +:+ random)).

Definition generateIssueTitle (issue : Issue.t) : string :=
  let categoryName :=
    Js.capitalize_words false (Js.replace_underscores (Issue.category issue)) in
  let severityPrefix :=
    if Js.strict_eq (Issue.severity issue) "critical" then "🚨"
    else if Js.strict_eq (Issue.severity issue) "high" then "⚠️"
    else if Js.strict_eq (Issue.severity issue) "moderate" then "⚡"
    else "ℹ️" in
  severityPrefix +:+ " " +:+ categoryName +:+ ": "
    +:+ String.substring 0 60 (Issue.description issue)
    +:+ (if Nat.ltb 60 (String.length (Issue.description issue)) then "..."
         else "").

Definition severityScores : gmap string float :=
  list_to_map [
    ("critical", 10%float);
    ("high", 7%float);
    ("moderate", 4%float);
    ("minor", 2%float)
  ].

Definition categoryMultipliers : gmap string float :=
  list_to_map [
    ("core_functionality", 1.0%float);
    ("security", 1.0%float);
    ("ui_rendering", 0.9%float);
    ("integration", 0.8%float);
    ("mobile_compatibility", 0.8%float);
    ("response_quality", 0.7%float);
    ("performance_consistency", 0.6%float);
    ("accessibility", 0.5%float);
    ("input_validation", 0.4%float);
    ("browser_compatibility", 0.4%float);
    ("conversation_flow", 0.3%float);
    ("error_handling", 0.3%float)
  ].

Definition calculateBusinessPriority (issue : Issue.t) : float :=
  let baseScore :=
    Js.or_value Js.truthy_number
      (Js.read severityScores (Js.key (Issue.severity issue))) 4%float in
  let multiplier :=
    Js.or_value Js.truthy_number
      (Js.read categoryMultipliers (Issue.category issue)) 0.5%float in
  Js.Math_round (Js.to_number baseScore * Js.to_number multiplier)%float.

Definition timeEstimates : gmap string string :=
  list_to_map [
    ("ui_rendering", "2-4 hours");
    ("core_functionality", "1-3 days");
    ("performance_consistency", "4-8 hours");
    ("response_quality", "1-2 days");
    ("conversation_flow", "1-2 days");
    ("input_validation", "2-6 hours");
    ("accessibility", "4-12 hours");
    ("security", "1-5 days");
    ("error_handling", "4-8 hours");
    ("integration", "1-3 days");
    ("mobile_compatibility", "4-8 hours");
    ("browser_compatibility", "2-6 hours")
  ].

Definition estimateFixTime (issue : Issue.t) : Js.value string :=
  Js.or_value Js.truthy_string
    (Js.read timeEstimates (Issue.category issue)) "4-8 hours".

Definition affectedPercentages : gmap string string :=
  list_to_map [
    ("core_functionality", "100%");
    ("ui_rendering", "100%");
    ("security", "100%");
    ("mobile_compatibility", "60-70%");
    ("response_quality", "80-90%");
    ("performance_consistency", "50-80%");
    ("integration", "70-90%");
    ("accessibility", "5-15%");
    ("browser_compatibility", "10-30%");
    ("conversation_flow", "30-50%");
    ("input_validation", "5-20%");
    ("error_handling", "20-40%")
  ].

Definition estimateAffectedUsers (issue : Issue.t) : Js.value string :=
  Js.or_value Js.truthy_string
    (Js.read affectedPercentages (Issue.category issue)) "10-30%".

(** The record that [addIssue] builds, given the two values read from the
    environment. *)
Definition enrich (this : t) (issue : Issue.t) (issueId timestamp : string)
    : EnrichedIssue.t :=
  {| EnrichedIssue.id := issueId;
     EnrichedIssue.timestamp := timestamp;
     EnrichedIssue.category := Issue.category issue;
     EnrichedIssue.severity :=
       match Issue.severity issue with
       | Some s =>
           if Js.truthy_string s then s
           else Js.or_string
                  (Category.severity <$> Js.get (categories this) (Issue.category issue))
                  "moderate"
       | None =>
           Js.or_string
             (Category.severity <$> Js.get (categories this) (Issue.category issue))
             "moderate"
       end;
     EnrichedIssue.title := generateIssueTitle issue;
     EnrichedIssue.description := Issue.description issue;
     EnrichedIssue.evidence := Issue.evidence issue;
     EnrichedIssue.impact := Issue.impact issue;
     EnrichedIssue.recommendation := Issue.recommendation issue;
     EnrichedIssue.businessPriority := calculateBusinessPriority issue;
     EnrichedIssue.estimatedFixTime := estimateFixTime issue;
     EnrichedIssue.affectedUserPercentage := estimateAffectedUsers issue |}.

(** [addIssue] returns the identifier and the analyzer with the record
    pushed at the end of [issues]. *)
Definition addIssue `{Runtime W} (this : t) (issue : Issue.t)
    : State W (string * t) :=
  timestamp ← Date_toISOString;
  issueId ← generateIssueId;
  let enrichedIssue := enrich this issue issueId timestamp in
  let this' :=
    {| issues := issues this ++ [enrichedIssue];
       categories := categories this |} in
  _ ← (if String.eqb (EnrichedIssue.severity enrichedIssue) "critical"
       then console_error
              ("🚨 CRITICAL ISSUE: " +:+ EnrichedIssue.title enrichedIssue)
       else mret ());
  mret (issueId, this').

Definition getIssues (this : t) : list EnrichedIssue.t := issues this.

Definition getIssuesBySeverity (this : t) (severity : string)
    : list EnrichedIssue.t :=
  filter (fun issue => EnrichedIssue.severity issue = severity) (issues this).

Definition getIssuesByCategory (this : t) (category : string)
    : list EnrichedIssue.t :=
  filter (fun issue => EnrichedIssue.category issue = category) (issues this).

Definition getCriticalIssues (this : t) : list EnrichedIssue.t :=
  getIssuesBySeverity this "critical".

(** The comparator [(a, b) => b.businessPriority - a.businessPriority] is
    positive when [a] has the smaller priority. *)
Definition getHighPriorityIssues (this : t) : list EnrichedIssue.t :=
  Js.sort
    (fun a b =>
       PrimFloat.ltb (EnrichedIssue.businessPriority a)
                     (EnrichedIssue.businessPriority b))
    (List.filter
       (fun issue => PrimFloat.leb 7%float (EnrichedIssue.businessPriority issue))
       (issues this)).

Definition averagePriority (this : t) : float :=
  if Nat.ltb 0 (length (issues this)) then
    (fold_left (fun sum issue => sum + EnrichedIssue.businessPriority issue)
               (issues this) 0
     / Js.Z_to_float (Z.of_nat (length (issues this))))%float
  else 0%float.

(** [generateSummary] calls [calculateOverallRiskLevel], which calls
    [generateSummary]. [stack] is the number of call frames left for the two
    methods; a call that finds none throws the engine's RangeError. *)
Fixpoint generateSummary (stack : nat) (this : t) : Js.completion Summary.t :=
  match stack with
  | O => Js.Throw Js.stack_overflow
  | S stack' =>
      let total := length (issues this) in
      let bySeverity :=
        {| SeverityBreakdown.critical := length (getIssuesBySeverity this "critical");
           SeverityBreakdown.high := length (getIssuesBySeverity this "high");
           SeverityBreakdown.moderate := length (getIssuesBySeverity this "moderate");
           SeverityBreakdown.minor := length (getIssuesBySeverity this "minor") |} in
      let byCategory :=
        map (fun category => (category, length (getIssuesByCategory this category)))
            (map fst (categories this)) in
      let averagePriority := averagePriority this in
      match calculateOverallRiskLevel stack' this with
      | Js.Throw e => Js.Throw e
      | Js.Return risk =>
          Js.Return
            {| Summary.totalIssues := total;
               Summary.severityBreakdown := bySeverity;
               Summary.categoryBreakdown := byCategory;
               Summary.averageBusinessPriority :=
                 (Js.Math_round (averagePriority * 10) / 10)%float;
               Summary.criticalIssueCount := SeverityBreakdown.critical bySeverity;
               Summary.needsImmediateAttention :=
                 SeverityBreakdown.critical bySeverity
                 + SeverityBreakdown.high bySeverity;
               Summary.overallRiskLevel := risk |}
      end
  end
with calculateOverallRiskLevel (stack : nat) (this : t) : Js.completion string :=
  match stack with
  | O => Js.Throw Js.stack_overflow
  | S stack' =>
      match generateSummary stack' this with
      | Js.Throw e => Js.Throw e
      | Js.Return summary =>
          let breakdown := Summary.severityBreakdown summary in
          if Nat.ltb 0 (SeverityBreakdown.critical breakdown) then
            Js.Return "CRITICAL"
          else if Nat.ltb 2 (SeverityBreakdown.high breakdown)
                  || Nat.ltb 10 (Summary.totalIssues summary) then
            Js.Return "HIGH"
          else if Nat.ltb 0 (SeverityBreakdown.high breakdown)
                  || Nat.ltb 5 (Summary.totalIssues summary) then
            Js.Return "MEDIUM"
          else Js.Return "LOW"
      end
  end.

Definition priorityOrder : gmap string Z :=
  list_to_map [("IMMEDIATE", 3%Z); ("HIGH", 2%Z); ("MEDIUM", 1%Z); ("LOW", 0%Z)].

(** The comparator [priorityOrder[b.priority] - priorityOrder[a.priority]];
    a difference with [undefined] is NaN, which is not positive. *)
Definition lower_priority (a b : Recommendation.t) : bool :=
  match priorityOrder !! Recommendation.priority b,
        priorityOrder !! Recommendation.priority a with
  | Some pb, Some pa => (0 <? pb - pa)%Z
  | _, _ => false
  end.

Definition generateRecommendations (this : t) : list Recommendation.t :=
  let criticalIssues := getCriticalIssues this in
  let highPriorityIssues := getHighPriorityIssues this in
  let immediate :=
    if Nat.ltb 0 (length criticalIssues) then
      [ {| Recommendation.priority := "IMMEDIATE";
           Recommendation.action := "Address Critical Issues";
           Recommendation.description :=
             pretty (length criticalIssues)
             +:+ " critical issues require immediate attention";
           Recommendation.issues := map EnrichedIssue.id criticalIssues;
           Recommendation.estimatedTime := "1-3 days";
           Recommendation.businessImpact :=
             "Prevents major functionality failures and potential security risks" |} ]
    else [] in
  let high :=
    if Nat.ltb 0 (length highPriorityIssues) then
      [ {| Recommendation.priority := "HIGH";
           Recommendation.action := "Resolve High-Priority Issues";
           Recommendation.description :=
             pretty (length highPriorityIssues)
             +:+ " high-priority issues affecting user experience";
           Recommendation.issues := map EnrichedIssue.id highPriorityIssues;
           Recommendation.estimatedTime := "1-2 weeks";
           Recommendation.businessImpact :=
             "Improves user satisfaction and conversion rates" |} ]
    else [] in
  let categoryIssues := getIssuesByCategory this "response_quality" in
  let quality :=
    if Nat.ltb 0 (length categoryIssues) then
      [ {| Recommendation.priority := "MEDIUM";
           Recommendation.action := "Improve Response Quality";
           Recommendation.description :=
             "Enhance chatbot training and response accuracy";
           Recommendation.issues := map EnrichedIssue.id categoryIssues;
           Recommendation.estimatedTime := "2-4 weeks";
           Recommendation.businessImpact :=
             "Better user engagement and lead qualification" |} ]
    else [] in
  let accessibilityIssues := getIssuesByCategory this "accessibility" in
  let accessibility :=
    if Nat.ltb 0 (length accessibilityIssues) then
      [ {| Recommendation.priority := "MEDIUM";
           Recommendation.action := "Enhance Accessibility";
           Recommendation.description :=
             "Implement WCAG compliance improvements";
           Recommendation.issues := map EnrichedIssue.id accessibilityIssues;
           Recommendation.estimatedTime := "1-2 weeks";
           Recommendation.businessImpact :=
             "Ensures compliance and expands user accessibility" |} ]
    else [] in
  Js.sort lower_priority (immediate ++ high ++ quality ++ accessibility).

Section Exporting.

(** Two services of the host that the exports use on numbers and objects:
    the text of a number in a template string, and [JSON.stringify] with an
    indentation of 2. *)
Context (Number_toString : float -> string).
Context (JSON_stringify : ExportDocument.t -> string).
Context `{Runtime W}.

(** The text of an estimate in a template string. *)
Definition estimate_toString (v : Js.value string) : string :=
  match v with
  | Js.Value text => text
  | Js.Member name => member_toString name
  end.

Definition exportToCSV (this : t) : string :=
  let headers :=
    ["ID"; "Timestamp"; "Category"; "Severity"; "Title"; "Description";
     "Evidence"; "Impact"; "Recommendation"; "Business Priority";
     "Estimated Fix Time"; "Affected Users"] in
  let rows :=
    map (fun issue =>
           [ EnrichedIssue.id issue;
             EnrichedIssue.timestamp issue;
             EnrichedIssue.category issue;
             EnrichedIssue.severity issue;
             Js.remove_quotes_commas (EnrichedIssue.title issue);
             Js.remove_quotes_commas (EnrichedIssue.description issue);
             Js.remove_quotes_commas (EnrichedIssue.evidence issue);
             Js.remove_quotes_commas (EnrichedIssue.impact issue);
             Js.remove_quotes_commas (EnrichedIssue.recommendation issue);
             Number_toString (EnrichedIssue.businessPriority issue);
             estimate_toString (EnrichedIssue.estimatedFixTime issue);
             estimate_toString (EnrichedIssue.affectedUserPercentage issue) ])
        (issues this) in
  Js.join Js.newline
    (map (fun row => Js.join "," (map (fun cell => Js.quoted cell) row))
         (headers :: rows)).

Definition exportSummary (stack : nat) (this : t)
    : State W (Js.completion string) :=
  match generateSummary stack this with
  | Js.Throw e => mret (Js.Throw e)
  | Js.Return summary =>
      let recommendations := generateRecommendations this in
      generated ← Date_toISOString;
      let breakdown := Summary.severityBreakdown summary in
      let n := Js.newline in
      mret (Js.Return (Js.trim (
        n +:+ "CHATBOT TESTING EXECUTIVE SUMMARY" +:+ n
        +:+ "Generated: " +:+ generated +:+ n
        +:+ n
        +:+ "OVERALL ASSESSMENT: " +:+ Summary.overallRiskLevel summary
        +:+ " RISK" +:+ n
        +:+ n
        +:+ "ISSUE SUMMARY:" +:+ n
        +:+ "- Total Issues Found: " +:+ pretty (Summary.totalIssues summary) +:+ n
        +:+ "- Critical Issues: " +:+ pretty (SeverityBreakdown.critical breakdown) +:+ n
        +:+ "- High Priority Issues: " +:+ pretty (SeverityBreakdown.high breakdown) +:+ n
        +:+ "- Moderate Issues: " +:+ pretty (SeverityBreakdown.moderate breakdown) +:+ n
        +:+ "- Minor Issues: " +:+ pretty (SeverityBreakdown.minor breakdown) +:+ n
        +:+ n
        +:+ "IMMEDIATE ACTIONS REQUIRED: "
        +:+ pretty (Summary.needsImmediateAttention summary) +:+ n
        +:+ n
        +:+ "TOP RECOMMENDATIONS:" +:+ n
        +:+ Js.join n
              (map (fun rec => "- " +:+ Recommendation.action rec +:+ ": "
                               +:+ Recommendation.description rec)
                   (take 3 recommendations)) +:+ n
        +:+ n
        +:+ "BUSINESS IMPACT:" +:+ n
        +:+ (if Nat.ltb 0 (Summary.criticalIssueCount summary)
             then "🚨 Critical functionality issues may prevent users from using the chatbot"
             else "") +:+ n
        +:+ (if Nat.ltb 0 (SeverityBreakdown.high breakdown)
             then "⚠️ High-priority issues may significantly impact user experience"
             else "") +:+ n
        +:+ (if Nat.eqb (Summary.totalIssues summary) 0
             then "✅ No significant issues found - chatbot appears to be functioning well"
             else "") +:+ n)))
  end.

(** [format] defaults to 'json' at the call. *)
Definition exportIssues (stack : nat) (this : t) (format : string)
    : State W (Js.completion string) :=
  let format := Js.toLowerCase format in
  if String.eqb format "csv" then mret (Js.Return (exportToCSV this))
  else if String.eqb format "summary" then exportSummary stack this
  else
    match generateSummary stack this with
    | Js.Throw e => mret (Js.Throw e)
    | Js.Return summary =>
        let recommendations := generateRecommendations this in
        exportTimestamp ← Date_toISOString;
        mret (Js.Return (JSON_stringify
          {| ExportDocument.summary := summary;
             ExportDocument.issues := issues this;
             ExportDocument.recommendations := recommendations;
             ExportDocument.categories := categories this;
             ExportDocument.exportTimestamp := exportTimestamp |}))
    end.

End Exporting.

(** The object passed to [updateIssue]: some of the fields of a record,
    each with its new value. *)
Module Updates.
Record t := mk {
  id : option string;
  timestamp : option string;
  category : option string;
  severity : option string;
  title : option string;
  description : option string;
  evidence : option string;
  impact : option string;
  recommendation : option string;
  businessPriority : option float;
  estimatedFixTime : option (Js.value string);
  affectedUserPercentage : option (Js.value string)
}.
End Updates.

Definition clearIssues (this : t) : t :=
  {| issues := []; categories := categories this |}.

(** [removeIssue] keeps the records of another id and tells whether the
    array got shorter. *)
Definition removeIssue (this : t) (issueId : string) : bool * t :=
  let initialLength := length (issues this) in
  let this' :=
    {| issues :=
         filter (fun issue => EnrichedIssue.id issue <> issueId) (issues this);
       categories := categories this |} in
  (Nat.ltb (length (issues this')) initialLength, this').

(** [array.findIndex(p)]: the first index whose element satisfies [p];
    [None] stands for -1. *)
Fixpoint findIndex {A : Type} (p : A -> bool) (l : list A) : option nat :=
  match l with
  | [] => None
  | x :: l' => if p x then Some 0 else S <$> findIndex p l'
  end.

(** [{ ...issue, ...updates }]: the fields of [updates] replace those of
    the record. *)
Definition merge (issue : EnrichedIssue.t) (updates : Updates.t)
    : EnrichedIssue.t :=
  {| EnrichedIssue.id := default (EnrichedIssue.id issue) (Updates.id updates);
     EnrichedIssue.timestamp :=
       default (EnrichedIssue.timestamp issue) (Updates.timestamp updates);
     EnrichedIssue.category :=
       default (EnrichedIssue.category issue) (Updates.category updates);
     EnrichedIssue.severity :=
       default (EnrichedIssue.severity issue) (Updates.severity updates);
     EnrichedIssue.title :=
       default (EnrichedIssue.title issue) (Updates.title updates);
     EnrichedIssue.description :=
       default (EnrichedIssue.description issue) (Updates.description updates);
     EnrichedIssue.evidence :=
       default (EnrichedIssue.evidence issue) (Updates.evidence updates);
     EnrichedIssue.impact :=
       default (EnrichedIssue.impact issue) (Updates.impact updates);
     EnrichedIssue.recommendation :=
       default (EnrichedIssue.recommendation issue)
               (Updates.recommendation updates);
     EnrichedIssue.businessPriority :=
       default (EnrichedIssue.businessPriority issue)
               (Updates.businessPriority updates);
     EnrichedIssue.estimatedFixTime :=
       default (EnrichedIssue.estimatedFixTime issue)
               (Updates.estimatedFixTime updates);
     EnrichedIssue.affectedUserPercentage :=
       default (EnrichedIssue.affectedUserPercentage issue)
               (Updates.affectedUserPercentage updates) |}.

Definition updateIssue (this : t) (issueId : string) (updates : Updates.t)
    : bool * t :=
  match findIndex (fun issue => String.eqb (EnrichedIssue.id issue) issueId)
                  (issues this) with
  | Some issueIndex =>
      match issues this !! issueIndex with
      | Some issue =>
          (true,
           {| issues := <[issueIndex := merge issue updates]> (issues this);
              categories := categories this |})
      | None => (true, this)
      end
  | None => (false, this)
  end.

(** The records of an analyzer all carry a whole priority from 1 to 10. *)
Definition scored (this : t) : Prop :=
  Forall (fun issue =>
            exists z : Z,
              EnrichedIssue.businessPriority issue = Js.Z_to_float z
              /\ (1 <= z <= 10)%Z)
         (issues this).

End IssueAnalyzer.

(** ** Selectors (src/config/selectors.js) *)

(** What the page objects ask of the browser page. A locator is named by
    its selector; [first_] operations act on [page.locator(selector).first()],
    the others on [page.locator(selector)]. Every call may resolve or reject,
    and may change the world. The typed [text] is a sequence of UTF-16 code
    units. *)
Class Page (W : Type) := {
  first_isVisible : string -> State W (Js.completion bool);
  locator_isVisible : string -> State W (Js.completion bool);
  locator_click : string -> State W (Js.completion unit);
  first_clear : string -> State W (Js.completion unit);
  first_fill : string -> list N -> State W (Js.completion unit);
  first_press : string -> string -> State W (Js.completion unit)
}.

Module HUBSPOT_SELECTORS.
Import Js.

Definition widget : gmap string string :=
  list_to_map [
    ("container", attr "data-test-id" "chat-widget");
    ("launcher", attr "data-test-id" "chat-launcher");
    ("iframe", "iframe" +:+ attr "title*" "chat");
    ("minimized", attr "data-test-id" "chat-widget-minimized");
    ("expanded", attr "data-test-id" "chat-widget-expanded")
  ].

Definition chat : gmap string string :=
  list_to_map [
    ("container", attr "data-test-id" "chat-container");
    ("header", attr "data-test-id" "chat-header");
    ("messagesArea", attr "data-test-id" "chat-messages");
    ("inputArea", attr "data-test-id" "chat-input-area");
    ("input", attr "data-test-id" "chat-input");
    ("sendButton", attr "data-test-id" "chat-send-button");
    ("closeButton", attr "data-test-id" "chat-close-button");
    ("minimizeButton", attr "data-test-id" "chat-minimize-button")
  ].

Definition messages : gmap string string :=
  list_to_map [
    ("message", attr "data-test-id" "chat-message");
    ("botMessage", attr "data-test-id" "bot-message");
    ("userMessage", attr "data-test-id" "user-message");
    ("timestamp", attr "data-test-id" "message-timestamp");
    ("avatar", attr "data-test-id" "message-avatar");
    ("content", attr "data-test-id" "message-content");
    ("typing", attr "data-test-id" "typing-indicator")
  ].

Definition interactive : gmap string string :=
  list_to_map [
    ("quickReplies", attr "data-test-id" "quick-replies");
    ("quickReply", attr "data-test-id" "quick-reply");
    ("buttons", attr "data-test-id" "chat-button");
    ("links", attr "data-test-id" "chat-link");
    ("forms", attr "data-test-id" "chat-form");
    ("formField", attr "data-test-id" "form-field");
    ("submitButton", attr "data-test-id" "form-submit")
  ].

Definition status : gmap string string :=
  list_to_map [
    ("online", attr "data-test-id" "agent-online");
    ("offline", attr "data-test-id" "agent-offline");
    ("typing", attr "data-test-id" "agent-typing");
    ("connecting", attr "data-test-id" "chat-connecting");
    ("connected", attr "data-test-id" "chat-connected");
    ("error", attr "data-test-id" "chat-error")
  ].

Definition fallback : gmap string string :=
  list_to_map [
    ("widget",
     "#hubspot-messages-iframe-container, .widget-container, "
     +:+ attr "class*" "chat-widget");
    ("iframe",
     "iframe" +:+ attr "src*" "hubspot" +:+ ", iframe" +:+ attr "title*" "chat"
     +:+ ", iframe" +:+ attr "title*" "Chat");
    ("input",
     "input" +:+ attr "placeholder*" "message" +:+ ", textarea"
     +:+ attr "placeholder*" "message" +:+ ", " +:+ attr "contenteditable" "true");
    ("sendButton",
     "button" +:+ attr "type" "submit" +:+ ", button" +:+ attr "aria-label*" "send"
     +:+ ", " +:+ attr "data-testid*" "send");
    ("messages",
     attr "class*" "message" +:+ ", " +:+ attr "class*" "chat-message" +:+ ", "
     +:+ attr "role" "log");
    ("botMessage",
     attr "class*" "bot" +:+ ", " +:+ attr "class*" "agent" +:+ ", "
     +:+ attr "data-from" "bot");
    ("userMessage",
     attr "class*" "user" +:+ ", " +:+ attr "class*" "visitor" +:+ ", "
     +:+ attr "data-from" "user")
  ].

(** The whole object, for the reads [HUBSPOT_SELECTORS[category]]. *)
Definition object : gmap string (gmap string string) :=
  list_to_map [
    ("widget", widget);
    ("chat", chat);
    ("messages", messages);
    ("interactive", interactive);
    ("status", status);
    ("fallback", fallback)
  ].

End HUBSPOT_SELECTORS.

Module ALTERNATIVE_SELECTORS.
Import Js.

Definition intercom : gmap string string :=
  list_to_map [
    ("widget", ".intercom-lightweight-app");
    ("launcher", ".intercom-launcher");
    ("iframe", "#intercom-frame")
  ].

Definition drift : gmap string string :=
  list_to_map [
    ("widget", "#drift-widget");
    ("launcher", ".drift-open-chat");
    ("iframe", "#drift-frame-chat")
  ].

Definition zendesk : gmap string string :=
  list_to_map [
    ("widget", "#webWidget");
    ("launcher", ".zEWidget-launcher");
    ("iframe", "iframe" +:+ attr "title" "Widget chat window")
  ].

Definition generic : gmap string string :=
  list_to_map [
    ("widget",
     attr "id*" "chat" +:+ ", " +:+ attr "class*" "chat" +:+ ", "
     +:+ attr "data-widget" "chat");
    ("iframe",
     "iframe" +:+ attr "src*" "chat" +:+ ", iframe" +:+ attr "title*" "support");
    ("launcher",
     attr "aria-label*" "chat" +:+ ", " +:+ attr "title*" "chat"
     +:+ ", .chat-launcher")
  ].

(** [Object.entries(ALTERNATIVE_SELECTORS)]: the entries in the order of the
    literal. *)
Definition entries : list (string * gmap string string) :=
  [ ("intercom", intercom); ("drift", drift); ("zendesk", zendesk);
    ("generic", generic) ].

End ALTERNATIVE_SELECTORS.

Module SelectorManager.

(** The constructor binds [primarySelectors] to [HUBSPOT_SELECTORS] and
    [fallbackSelectors] to [ALTERNATIVE_SELECTORS] and no method rebinds them;
    the state that changes is the map of discovered selectors. *)
Record t := mk {
  discoveredSelectors : gmap string string
}.

Definition constructor : t := {| discoveredSelectors := ∅ |}.

Section Methods.
Context `{Page W}.

(** A rejected probe counts as not visible. *)
Definition isElementVisible (selector : string) : State W bool :=
  r ← first_isVisible selector;
  mret (match r with
        | Js.Return visible => visible
        | Js.Throw _ => false
        end).

(** The selector of a property read, when the read is truthy. *)
Definition defined (v : option string) : option string :=
  match v with
  | Some selector => if Js.truthy_string selector then Some selector else None
  | None => None
  end.

(** [v && await this.isElementVisible(page, v)]: the page is probed only
    for a truthy [v]; the result is the selector when the probe says
    visible. *)
Definition working (v : option string) : State W (option string) :=
  match defined v with
  | Some selector =>
      visible ← isElementVisible selector;
      mret (if (visible : bool) then Some selector else None)
  | None => mret None
  end.

(** The loop over the framework entries: the first working selector. *)
Fixpoint tryAlternatives (entries : list (string * gmap string string))
    (element : string) : State W (option string) :=
  match entries with
  | [] => mret None
  | (framework, selectors) :: entries' =>
      let altSelector := selectors !! element in
      found ← working altSelector;
      match found with
      | Some selector => mret (Some selector)
      | None => tryAlternatives entries' element
      end
  end.

Definition remember (this : t) (category element selector : string) : t :=
  {| discoveredSelectors :=
       <[category +:+ "." +:+ element := selector]> (discoveredSelectors this) |}.

Definition getSelector (this : t) (category element : string)
    : State W (Js.completion string * t) :=
  let primarySelector :=
    HUBSPOT_SELECTORS.object !! category ≫= (fun selectors => selectors !! element) in
  primary ← working primarySelector;
  match primary with
  | Some selector => mret (Js.Return selector, this)
  | None =>
      let fallbackSelector := HUBSPOT_SELECTORS.fallback !! element in
      fallback ← working fallbackSelector;
      match fallback with
      | Some selector =>
          mret (Js.Return selector, remember this category element selector)
      | None =>
          alternative ← tryAlternatives ALTERNATIVE_SELECTORS.entries element;
          match alternative with
          | Some selector =>
              mret (Js.Return selector,
                    remember this category element selector)
          | None =>
              mret (Js.Throw
                      (Js.Error ("No working selector found for "
                                 +:+ category +:+ "." +:+ element)),
                    this)
          end
      end
  end.

(** Trying a list of candidates in order: the first one that works. *)
Fixpoint firstWorking (candidates : list (option string))
    : State W (option string) :=
  match candidates with
  | [] => mret None
  | v :: rest =>
      found ← working v;
      match found with
      | Some selector => mret (Some selector)
      | None => firstWorking rest
      end
  end.

(** The tiers of the resolution as the documentation lists them: the primary
    selector of the category, the CSS fallback, the three frameworks, the
    generic heuristics. An entry is [None] when the table has no selector
    for the element. *)
Definition tiers (category element : string) : list (option string) :=
  [ HUBSPOT_SELECTORS.object !! category ≫= (fun selectors => selectors !! element);
    HUBSPOT_SELECTORS.fallback !! element;
    ALTERNATIVE_SELECTORS.intercom !! element;
    ALTERNATIVE_SELECTORS.drift !! element;
    ALTERNATIVE_SELECTORS.zendesk !! element;
    ALTERNATIVE_SELECTORS.generic !! element ].

(** [hidden candidates w w']: probing the candidates in order from the world
    [w] finds none of them visible and leads to the world [w']. A candidate
    that the table does not define is passed without a probe. *)
Inductive hidden : list (option string) -> W -> W -> Prop :=
  | hidden_nil (w : W) : hidden [] w w
  | hidden_undefined (v : option string) (rest : list (option string))
      (w w' : W) :
      defined v = None -> hidden rest w w' -> hidden (v :: rest) w w'
  | hidden_probed (v : option string) (selector : string)
      (rest : list (option string)) (w w1 w' : W) :
      defined v = Some selector ->
      isElementVisible selector w = (false, w1) ->
      hidden rest w1 w' ->
      hidden (v :: rest) w w'.

End Methods.

(** [Object.fromEntries(this.discoveredSelectors)]: the object with the
    entries of the map. *)
Definition exportDiscoveredSelectors (this : t) : gmap string string :=
  discoveredSelectors this.

End SelectorManager.

(** The bounding box of an element. *)
Module Box.
Record t := mk {
  x : Q;
  y : Q;
  width : Q;
  height : Q
}.
End Box.

(** Further calls into the page. [locator_all selector] is
    [page.locator(selector).all()], which resolves to the locators of the
    matches, here their number; the match of rank [i] is then named by the
    selector and [i]. [first_boundingBox] resolves to no box for an element
    that is not rendered. *)
Class Browser (W : Type) := {
  first_click : string -> State W (Js.completion unit);
  first_boundingBox : string -> State W (Js.completion (option Box.t));
  locator_all : string -> State W (Js.completion nat);
  nth_getAttribute :
    string -> nat -> string -> State W (Js.completion (option string));
  nth_click : string -> nat -> State W (Js.completion unit);
  waitForTimeout : Z -> State W (Js.completion unit);
  keyboard_press : string -> State W (Js.completion unit)
}.

(** ** ChatbotHelper (src/utils/chatbot-helper.js) *)

(** The text of a chat message is arbitrary: it is kept as its UTF-16 code
    units. *)
Module Text.

Definition t : Type := list N.

(** WhiteSpace and LineTerminator of ECMAScript, which [trim] strips: TAB,
    LF, VT, FF, CR, SP, NBSP, the other space separators of Unicode, LS, PS
    and the byte order mark. *)
Definition isWhiteSpace (c : N) : bool :=
  ((9 <=? c) && (c <=? 13)
   || (c =? 32) || (c =? 160) || (c =? 5760)
   || (8192 <=? c) && (c <=? 8202)
   || (c =? 8232) || (c =? 8233) || (c =? 8239) || (c =? 8287)
   || (c =? 12288) || (c =? 65279))%N.

Fixpoint trimStart (s : t) : t :=
  match s with
  | [] => []
  | c :: s' => if isWhiteSpace c then trimStart s' else s
  end.

Definition trimEnd (s : t) : t := rev (trimStart (rev s)).

Definition trim (s : t) : t := trimEnd (trimStart s).

(** [!s] for a string: only the empty string is falsy. *)
Definition falsy (s : t) : bool :=
  match s with
  | [] => true
  | _ :: _ => false
  end.

End Text.

Module Message.
Record t := mk {
  type : string;
  content : Text.t;
  timestamp : Z
}.
End Message.

Module ChatbotHelper.

Record t := mk {
  selectorManager : SelectorManager.t;
  lastMessageTimestamp : Z;
  messageHistory : list Message.t
}.

Definition constructor : t :=
  {| selectorManager := SelectorManager.constructor;
     lastMessageTimestamp := 0;
     messageHistory := [] |}.

(** What [sendMessage] resolves to: the time taken, or [false]. *)
Inductive sent : Type :=
  | Elapsed (milliseconds : Z)
  | NotSent.

Section Methods.
Context `{Page W} `{Runtime W}.

Definition openIndicators : list string :=
  [ Js.attr "data-test-id*" "chat-container";
    Js.attr "data-test-id*" "chat-input";
    Js.attr "class*" "chat-open";
    Js.attr "class*" "chat-expanded";
    "textarea" +:+ Js.attr "placeholder*" "message";
    "input" +:+ Js.attr "placeholder*" "message";
    Js.attr "contenteditable" "true" ].

(** The loop of [isChatbotOpen]: [true] at the first selector whose locator
    is reported visible; a probe that rejects moves on to the next
    selector. *)
Fixpoint anyVisible (selectors : list string) : State W bool :=
  match selectors with
  | [] => mret false
  | selector :: rest =>
      r ← locator_isVisible selector;
      match r with
      | Js.Return true => mret true
      | Js.Return false => anyVisible rest
      | Js.Throw _ => anyVisible rest
      end
  end.

Definition isChatbotOpen : State W bool := anyVisible openIndicators.

Definition isChatbotClosed : State W bool :=
  open ← isChatbotOpen;
  mret (negb open).

Definition inputSelectors : list string :=
  [ Js.attr "data-test-id*" "chat-input";
    "textarea" +:+ Js.attr "placeholder*" "message";
    "input" +:+ Js.attr "placeholder*" "message";
    Js.attr "contenteditable" "true";
    "textarea";
    "input" +:+ Js.attr "type" "text" ].

Definition sendSelectors : list string :=
  [ Js.attr "data-test-id*" "send";
    Js.attr "aria-label*" "send";
    Js.attr "title*" "send";
    "button" +:+ Js.attr "type" "submit";
    ".send-button";
    Js.attr "class*" "send" ].

(** The search for the input field: the first selector whose first match is
    visible; a probe that rejects moves on. *)
Fixpoint findInputField (selectors : list string) : State W (option string) :=
  match selectors with
  | [] => mret None
  | selector :: rest =>
      r ← first_isVisible selector;
      match r with
      | Js.Return true => mret (Some selector)
      | Js.Return false => findInputField rest
      | Js.Throw _ => findInputField rest
      end
  end.

(** The search for the send button: at the first visible one a click is
    tried; a click that resolves ends the loop with [messageSent] set, a
    probe or a click that rejects moves on. *)
Fixpoint clickSend (selectors : list string) : State W bool :=
  match selectors with
  | [] => mret false
  | selector :: rest =>
      r ← locator_isVisible selector;
      match r with
      | Js.Return true =>
          clicked ← locator_click selector;
          match clicked with
          | Js.Return _ => mret true
          | Js.Throw _ => clickSend rest
          end
      | Js.Return false => clickSend rest
      | Js.Throw _ => clickSend rest
      end
  end.

(** The handler of the outer [try]: the error is wrapped. *)
Definition failed {A : Type} (e : Js.error) : Js.completion A :=
  Js.Throw (Js.Error ("Failed to send message: " +:+ Js.message e)).

Definition sendMessage (this : t) (message : Text.t)
    : State W (Js.completion sent * t) :=
  if Text.falsy message || Nat.eqb (length (Text.trim message)) 0 then
    mret (Js.Return NotSent, this)
  else
    startTime ← Date_now;
    inputField ← findInputField inputSelectors;
    match inputField with
    | None => mret (failed (Js.Error "Could not find input field"), this)
    | Some field =>
        cleared ← first_clear field;
        match cleared with
        | Js.Throw e => mret (failed e, this)
        | Js.Return _ =>
            filled ← first_fill field message;
            match filled with
            | Js.Throw e => mret (failed e, this)
            | Js.Return _ =>
                clicked ← clickSend sendSelectors;
                pressed ← (if (clicked : bool) then mret (Js.Return ())
                           else first_press field "Enter");
                match pressed with
                | Js.Throw e => mret (failed e, this)
                | Js.Return _ =>
                    pushed ← Date_now;
                    last ← Date_now;
                    finish ← Date_now;
                    mret (Js.Return (Elapsed (finish - startTime)),
                          {| selectorManager := selectorManager this;
                             lastMessageTimestamp := last;
                             messageHistory :=
                               messageHistory this
                               ++ [ {| Message.type := "user";
                                       Message.content := message;
                                       Message.timestamp := pushed |} ] |})
                end
            end
        end
    end.

End Methods.

Section Widget.
Context `{Page W} `{Runtime W} `{Browser W}.

Definition launcherSelectors : list string :=
  [ Js.attr "data-test-id*" "chat-launcher";
    Js.attr "class*" "chat-launcher";
    Js.attr "class*" "chat-widget";
    Js.attr "aria-label*" "chat";
    Js.attr "title*" "chat";
    "button" +:+ Js.attr "class*" "chat";
    ".widget-container" ].

Definition closeSelectors : list string :=
  [ Js.attr "data-test-id*" "close";
    Js.attr "aria-label*" "close";
    Js.attr "title*" "close";
    ".close-button";
    Js.attr "class*" "close";
    "button" +:+ Js.attr "aria-label*" "Close" ].

(** After a click: the pause, then the check [check]; the time since
    [startTime] when the check holds. A pause that rejects gives [None], as
    a check that fails does: the loop goes on. *)
Definition settle (pause : Z) (check : State W bool) (startTime : Z)
    : State W (option Z) :=
  paused ← waitForTimeout pause;
  match paused with
  | Js.Throw _ => mret None
  | Js.Return _ =>
      ok ← check;
      if (ok : bool) then
        now ← Date_now;
        mret (Some (now - startTime)%Z)
      else mret None
  end.

(** The loop of [openChatbot] over the launchers. *)
Fixpoint tryLaunchers (startTime : Z) (selectors : list string)
    : State W (option Z) :=
  match selectors with
  | [] => mret None
  | selector :: rest =>
      r ← first_isVisible selector;
      match r with
      | Js.Return true =>
          clicked ← first_click selector;
          match clicked with
          | Js.Return _ =>
              opened ← settle 2000 isChatbotOpen startTime;
              match opened with
              | Some elapsed => mret (Some elapsed)
              | None => tryLaunchers startTime rest
              end
          | Js.Throw _ => tryLaunchers startTime rest
          end
      | Js.Return false => tryLaunchers startTime rest
      | Js.Throw _ => tryLaunchers startTime rest
      end
  end.

(** [(await iframe.getAttribute(name)) || '']. *)
Definition attribute_or_empty (v : option string) : string :=
  Js.or_string v "".

(** The loop of [openChatbot] over the frames of ranks [rank] to
    [rank + count - 1]. A read or a click that rejects moves on to the next
    frame. *)
Fixpoint tryFrames (startTime : Z) (rank count : nat)
    : State W (option Z) :=
  match count with
  | O => mret None
  | S count' =>
      s ← nth_getAttribute "iframe" rank "src";
      match s with
      | Js.Throw _ => tryFrames startTime (S rank) count'
      | Js.Return s =>
          t ← nth_getAttribute "iframe" rank "title";
          match t with
          | Js.Throw _ => tryFrames startTime (S rank) count'
          | Js.Return t =>
              let src := attribute_or_empty s in
              let title := attribute_or_empty t in
              if Js.includes src "chat"
                 || Js.includes (Js.toLowerCase title) "chat"
              then
                clicked ← nth_click "iframe" rank;
                match clicked with
                | Js.Throw _ => tryFrames startTime (S rank) count'
                | Js.Return _ =>
                    opened ← settle 2000 isChatbotOpen startTime;
                    match opened with
                    | Some elapsed => mret (Some elapsed)
                    | None => tryFrames startTime (S rank) count'
                    end
                end
              else tryFrames startTime (S rank) count'
          end
      end
  end.

(** The handler of the outer [try] of [openChatbot]: the clock is read for
    the message. *)
Definition openFailed (startTime : Z) (e : Js.error)
    : State W (Js.completion Z) :=
  now ← Date_now;
  mret (Js.Throw (Js.Error ("Failed to open chatbot after "
                            +:+ pretty (now - startTime)%Z +:+ "ms: "
                            +:+ Js.message e))).

Definition openChatbot : State W (Js.completion Z) :=
  startTime ← Date_now;
  launched ← tryLaunchers startTime launcherSelectors;
  match launched with
  | Some elapsed => mret (Js.Return elapsed)
  | None =>
      iframes ← locator_all "iframe";
      match iframes with
      | Js.Throw e => openFailed startTime e
      | Js.Return count =>
          framed ← tryFrames startTime 0 count;
          match framed with
          | Some elapsed => mret (Js.Return elapsed)
          | None => openFailed startTime (Js.Error "Could not open chatbot")
          end
      end
  end.

(** The loop of [closeChatbot] over the close buttons. *)
Fixpoint tryCloseButtons (startTime : Z) (selectors : list string)
    : State W (option Z) :=
  match selectors with
  | [] => mret None
  | selector :: rest =>
      r ← locator_isVisible selector;
      match r with
      | Js.Return true =>
          clicked ← locator_click selector;
          match clicked with
          | Js.Return _ =>
              closed ← settle 1000 isChatbotClosed startTime;
              match closed with
              | Some elapsed => mret (Some elapsed)
              | None => tryCloseButtons startTime rest
              end
          | Js.Throw _ => tryCloseButtons startTime rest
          end
      | Js.Return false => tryCloseButtons startTime rest
      | Js.Throw _ => tryCloseButtons startTime rest
      end
  end.

(** [checked_at check startTime elapsed w']: the check [check] answered
    [true], the clock was read next, which led to the world [w'], and
    [elapsed] is the time read minus [startTime]. *)
Definition checked_at (check : State W bool) (startTime elapsed : Z) (w' : W)
    : Prop :=
  exists (w1 w2 : W) (now : Z),
    check w1 = (true, w2) /\ Date_now w2 = (now, w')
    /\ elapsed = (now - startTime)%Z.

Definition closeFailed {A : Type} (e : Js.error) : Js.completion A :=
  Js.Throw (Js.Error ("Failed to close chatbot: " +:+ Js.message e)).

Definition closeChatbot : State W (Js.completion Z) :=
  startTime ← Date_now;
  clicked ← tryCloseButtons startTime closeSelectors;
  match clicked with
  | Some elapsed => mret (Js.Return elapsed)
  | None =>
      pressed ← keyboard_press "Escape";
      match pressed with
      | Js.Throw e => mret (closeFailed e)
      | Js.Return _ =>
          paused ← waitForTimeout 1000;
          match paused with
          | Js.Throw e => mret (closeFailed e)
          | Js.Return _ =>
              closed ← isChatbotClosed;
              if (closed : bool) then
                now ← Date_now;
                mret (Js.Return (now - startTime)%Z)
              else mret (closeFailed (Js.Error "Could not close chatbot"))
          end
      end
  end.

End Widget.

Section Input.
Context `{Page W}.

Definition fieldSelectors : list string :=
  [ Js.attr "data-test-id*" "chat-input";
    "textarea" +:+ Js.attr "placeholder*" "message";
    "input" +:+ Js.attr "placeholder*" "message";
    Js.attr "contenteditable" "true";
    "input" +:+ Js.attr "type" "text";
    "textarea" ].

Definition hasInputField : State W bool := anyVisible fieldSelectors.

(** The loop of [isWidgetVisible]: [true] at the first selector whose first
    match is reported visible. *)
Fixpoint anyFirstVisible (selectors : list string) : State W bool :=
  match selectors with
  | [] => mret false
  | selector :: rest =>
      r ← first_isVisible selector;
      match r with
      | Js.Return true => mret true
      | Js.Return false => anyFirstVisible rest
      | Js.Throw _ => anyFirstVisible rest
      end
  end.

Definition widgetSelectors : list string :=
  [ Js.attr "data-test-id*" "chat";
    Js.attr "class*" "chat-widget";
    Js.attr "id*" "chat";
    "iframe" +:+ Js.attr "title*" "chat";
    ".widget-container" ].

Definition isWidgetVisible : State W bool := anyFirstVisible widgetSelectors.

End Input.

Section Bounds.
Context `{Page W} `{Browser W}.

Definition boundsSelectors : list string :=
  [ Js.attr "data-test-id*" "chat";
    Js.attr "class*" "chat-widget";
    Js.attr "id*" "chat";
    "iframe" +:+ Js.attr "title*" "chat" ].

(** The loop of [getWidgetBounds]: the box of the first selector whose
    first match is visible and whose box can be read; [None] when the loop
    runs to its end. *)
Fixpoint measureFirst (selectors : list string)
    : State W (option (option Box.t)) :=
  match selectors with
  | [] => mret None
  | selector :: rest =>
      r ← first_isVisible selector;
      match r with
      | Js.Return true =>
          box ← first_boundingBox selector;
          match box with
          | Js.Return box => mret (Some box)
          | Js.Throw _ => measureFirst rest
          end
      | Js.Return false => measureFirst rest
      | Js.Throw _ => measureFirst rest
      end
  end.

Definition getWidgetBounds : State W (Js.completion (option Box.t)) :=
  measured ← measureFirst boundsSelectors;
  match measured with
  | Some box => mret (Js.Return box)
  | None =>
      mret (Js.Throw (Js.Error "Could not find widget to measure bounds"))
  end.

End Bounds.

Definition getMessageHistory (this : t) : list Message.t :=
  messageHistory this.

Definition clearMessageHistory (this : t) : t :=
  {| selectorManager := selectorManager this;
     lastMessageTimestamp := lastMessageTimestamp this;
     messageHistory := [] |}.

Definition genericResponses : list string :=
  [ "i don't understand";
    "i'm not sure";
    "can you rephrase";
    "sorry, i didn't get that";
    "please try again" ].

(** The words of the lower-case input that count as keywords. *)
Definition inputKeywords (inputLower : string) : list string :=
  List.filter (fun word => Nat.ltb 3 (String.length word))
              (Js.split_spaces (Js.keep_words_and_spaces inputLower)).

Definition isResponseRelevant (input response : string) : bool :=
  if Js.falsy input || Js.falsy response then false
  else
    let inputLower := Js.toLowerCase input in
    let responseLower := Js.toLowerCase response in
    if existsb (fun generic => Js.includes responseLower generic)
               genericResponses
    then false
    else
      let hasKeywordMatch :=
        existsb (fun keyword => Js.includes responseLower keyword)
                (inputKeywords inputLower) in
      if Js.includes inputLower "pric" || Js.includes inputLower "cost"
         || Js.includes inputLower "plan"
      then
        Js.includes responseLower "pric" || Js.includes responseLower "cost"
        || Js.includes responseLower "plan" || Js.includes responseLower "$"
      else if Nat.ltb (String.length (Js.trim response)) 10 then false
      else hasKeywordMatch || Nat.ltb 50 (String.length response).

End ChatbotHelper.

(** ** The k6 load script (tests/k6/load-testing.js) *)

(** [Math.random()] for the load script: a double of the interval from 0
    (included) to 1 (excluded), given by its rational value. *)
Class Random (W : Type) := {
  Math_random : State W Q;
  Math_random_range : forall w : W,
    (0 <= (Math_random w).1)%Q /\ ((Math_random w).1 < 1)%Q;
  Math_random_double : forall w : W,
    (Js.binary64 (Math_random w).1 == (Math_random w).1)%Q
}.

Module Scenario.
Record t := mk {
  category : string;
  messages : list string;
  weight : Z
}.
End Scenario.

Module Selection.
Record t := mk {
  category : string;
  message : option string
}.
End Selection.

Module LoadTest.

Definition TEST_SCENARIOS : list Scenario.t :=
  [ {| Scenario.category := "greeting";
       Scenario.messages := ["Hello"; "Hi there"; "Good morning"; "Hey"];
       Scenario.weight := 30 |};
    {| Scenario.category := "pricing_inquiry";
       Scenario.messages :=
         [ "What are your pricing plans?";
           "How much does it cost?";
           "I want to know about pricing";
           "Can you tell me the price?" ];
       Scenario.weight := 25 |};
    {| Scenario.category := "product_info";
       Scenario.messages :=
         [ "Tell me about your products";
           "What features do you offer?";
           "I need information about your services";
           "What can your platform do?" ];
       Scenario.weight := 20 |};
    {| Scenario.category := "support";
       Scenario.messages :=
         [ "I need help";
           "I have a problem";
           "Can you assist me?";
           "I need support" ];
       Scenario.weight := 15 |};
    {| Scenario.category := "contact";
       Scenario.messages :=
         [ "How can I contact sales?";
           "I want to speak to someone";
           "Can I talk to a human?";
           "Connect me with an agent" ];
       Scenario.weight := 10 |} ].

(** [scenarios.reduce((sum, scenario) => sum + scenario.weight, 0)]. *)
Definition totalWeight (scenarios : list Scenario.t) : Z :=
  fold_left (fun sum scenario => (sum + Scenario.weight scenario)%Z) scenarios 0%Z.

(** The loop of the weighted choice: the weight of each scenario in turn is
    taken off [random], in binary64, and the scenario at which [random] is no
    longer positive is chosen; [None] when the loop runs to its end. *)
Fixpoint choose (scenarios : list Scenario.t) (random : Q)
    : option Scenario.t :=
  match scenarios with
  | [] => None
  | scenario :: rest =>
      let random :=
        Js.binary64 (random - inject_Z (Scenario.weight scenario))%Q in
      if Qle_bool random 0 then Some scenario else choose rest random
  end.

Section Script.
Context `{Random W}.

Definition getRandomScenario : State W Selection.t :=
  draw ← Math_random;
  let random :=
    Js.binary64 (draw * inject_Z (totalWeight TEST_SCENARIOS))%Q in
  match choose TEST_SCENARIOS random with
  | Some scenario =>
      let messages := Scenario.messages scenario in
      index ← Math_random;
      let i :=
        Qfloor
          (Js.binary64 (index * inject_Z (Z.of_nat (length messages)))%Q) in
      mret {| Selection.category := Scenario.category scenario;
              Selection.message :=
                if (i <? 0)%Z then None else messages !! Z.to_nat i |}
  | None =>
      mret {| Selection.category := "greeting";
              Selection.message := Some "Hello" |}
  end.

End Script.

(** The response of [http.post], as far as the script reads it: the status,
    the body ([None] when there is none) and [timings.duration] in
    milliseconds. *)
Module Response.
Record t := mk {
  status : Z;
  body : option string;
  duration : Q
}.
End Response.

(** The four custom metrics of the script: the samples given to the rate
    and to the trend, latest first, and the two counters. *)
Module Metrics.
Record t := mk {
  errorRate : list Z;
  responseTime : list Z;
  chatbotResponses : Z;
  timeouts : Z
}.
End Metrics.

(** What the script asks of k6 and of its host: the request, the pause,
    the log, the identity of the virtual user and of the iteration, the
    environment variable of the endpoint, and [JSON.stringify] on the
    payload, given its message, session and timestamp. *)
Class K6 (W : Type) := {
  http_post : string -> string -> State W Response.t;
  sleep : Q -> State W unit;
  console_log : string -> State W unit;
  VU : Z;
  ITER : Z;
  ENV_CHATBOT_API_URL : option string;
  JSON_stringify_payload : option string -> string -> string -> string
}.

(** The five checks on the response. *)
Definition checks (r : Response.t) : list bool :=
  [ (Response.status r =? 200)%Z || (Response.status r =? 201)%Z;
    match Response.body r with
    | Some text => Js.truthy_string text && Nat.ltb 0 (String.length text)
    | None => false
    end;
    negb (Qle_bool 10000 (Response.duration r));
    negb (Qle_bool 5000 (Response.duration r));
    negb (Qle_bool 3000 (Response.duration r)) ].

(** [check(response, checks)]: whether every check holds. *)
Definition check (r : Response.t) : bool := forallb id (checks r).

Section Requests.
Context `{Random W} `{Runtime W} `{K6 W}.

Definition simulateChatbotAPI (metrics : Metrics.t) (message : option string)
    (sessionId : string) : State W (Response.t * Metrics.t) :=
  timestamp ← Date_toISOString;
  let payload := JSON_stringify_payload message sessionId timestamp in
  let endpoint :=
    Js.or_string ENV_CHATBOT_API_URL
      "https://api.hubspot.com/conversations/v3/conversations/inbound" in
  startTime ← Date_now;
  response ← http_post endpoint payload;
  finish ← Date_now;
  let responseTime_ms := (finish - startTime)%Z in
  let responseOK := check response in
  mret (response,
        {| Metrics.errorRate :=
             (if responseOK then 0%Z else 1%Z) :: Metrics.errorRate metrics;
           Metrics.responseTime :=
             responseTime_ms :: Metrics.responseTime metrics;
           Metrics.chatbotResponses :=
             if responseOK then (Metrics.chatbotResponses metrics + 1)%Z
             else Metrics.chatbotResponses metrics;
           Metrics.timeouts :=
             if negb (Qle_bool (Response.duration response) 10000)
             then (Metrics.timeouts metrics + 1)%Z
             else Metrics.timeouts metrics |}).

Definition followUp : list string :=
  [ "Can you give me more details?";
    "What about discounts?";
    "Is there a free trial?" ].

(** [array[Math.floor(draw * array.length)]]. *)
Definition pick (array : list string) (draw : Q) : option string :=
  let i :=
    Qfloor (Js.binary64 (draw * inject_Z (Z.of_nat (length array)))%Q) in
  if (i <? 0)%Z then None else array !! Z.to_nat i.

(** The text of a value in a template string: [undefined] for none. *)
Definition text_of (v : option string) : string := default "undefined" v.

(** The body of the loop of [simulateConversation] for the rounds [i] to
    [i + rounds - 1]. *)
Fixpoint converse (metrics : Metrics.t) (sessionId : string) (i rounds : nat)
    : State W Metrics.t :=
  match rounds with
  | O => mret metrics
  | S rounds' =>
      scenario ← getRandomScenario;
      _ ← console_log
            ("User " +:+ pretty VU +:+ ", Iteration " +:+ pretty ITER +:+ ": "
             +:+ Selection.category scenario +:+ " - "
             +:+ Js.quoted (text_of (Selection.message scenario)));
      '(_, metrics) ← simulateChatbotAPI metrics (Selection.message scenario)
                        sessionId;
      think ← Math_random;
      _ ← sleep (Js.binary64 (Js.binary64 (think * 3) + 1))%Q;
      if String.eqb (Selection.category scenario) "pricing_inquiry"
         && Nat.eqb i 0
      then
        again ← Math_random;
        if negb (Qle_bool again (Js.binary64 (7 # 10))) then
          index ← Math_random;
          let followUpMessage := pick followUp index in
          _ ← sleep 1;
          '(_, metrics) ← simulateChatbotAPI metrics followUpMessage sessionId;
          converse metrics sessionId (S i) rounds'
        else converse metrics sessionId (S i) rounds'
      else converse metrics sessionId (S i) rounds'
  end.

Definition simulateConversation (metrics : Metrics.t) (sessionId : string)
    : State W Metrics.t :=
  draw ← Math_random;
  let conversationLength := (Qfloor (Js.binary64 (draw * 4)) + 1)%Z in
  converse metrics sessionId 0 (Z.to_nat conversationLength).

(** The default function of the script: one iteration of a virtual user. *)
Definition iteration (metrics : Metrics.t) : State W Metrics.t :=
  now ← Date_now;
  let sessionId :=
    "session_" +:+ pretty VU +:+ "_" +:+ pretty ITER +:+ "_" +:+ pretty now in
  userBehavior ← Math_random;
  if negb (Qle_bool (Js.binary64 (1 # 10)) userBehavior) then
    look ← Math_random;
    _ ← sleep (Js.binary64 (Js.binary64 (look * 5) + 2))%Q;
    mret metrics
  else
    metrics ←
      (if negb (Qle_bool (Js.binary64 (3 # 10)) userBehavior) then
         scenario ← getRandomScenario;
         '(_, metrics) ← simulateChatbotAPI metrics
                           (Selection.message scenario) sessionId;
         mret metrics
       else simulateConversation metrics sessionId);
    browse ← Math_random;
    _ ← sleep (Js.binary64 (Js.binary64 (browse * 10) + 5))%Q;
    mret metrics.

End Requests.

End LoadTest.

(** ** A concrete world

    A page that does not change: [visible] lists the selectors that match a
    visible element. The clock advances by one at each reading, the random
    draws are read from a list of fractions, each taken as the double
    nearest to it. *)
Module Sample.

Record world := mk {
  visible : list string;
  clock : Z;
  draws : list Q;
  errors : list string
}.

Definition probe (selector : string) : State world (Js.completion bool) :=
  fun w => (Js.Return (existsb (String.eqb selector) (visible w)), w).

Definition act : State world (Js.completion unit) :=
  fun w => (Js.Return (), w).

#[global] Instance page : Page world :=
  {| first_isVisible := probe;
     locator_isVisible := probe;
     locator_click := fun _ => act;
     first_clear := fun _ => act;
     first_fill := fun _ _ => act;
     first_press := fun _ _ => act |}.

Definition tick : State world Z :=
  fun w => (clock w,
            {| visible := visible w; clock := clock w + 1;
               draws := draws w; errors := errors w |}).

#[global] Instance runtime : Runtime world :=
  {| Date_now := tick;
     Date_toISOString := fun w => ("2024-01-01T00:00:00.000Z", w);
     Math_random_toString36 := fun w => ("0.4fzyo82mvyr", w);
     console_error := fun text w =>
       ((), {| visible := visible w; clock := clock w; draws := draws w;
               errors := errors w ++ [text] |});
     member_toString := fun name =>
       if String.eqb name "__proto__" then "[object Object]"
       else "function "
            +:+ (if String.eqb name "constructor" then "Object" else name)
            +:+ "() { [native code] }" |}.

(** A double of the unit interval. *)
Definition usable (d : Q) : bool :=
  Qle_bool 0 d && negb (Qle_bool 1 d) && Qeq_bool (Js.binary64 d) d.

(** The next draw: the double nearest to the next fraction of the list,
    when it lies in the unit interval; 0 otherwise. *)
Definition draw : State world Q :=
  fun w =>
    match draws w with
    | q :: rest =>
        (if usable (Js.binary64 q) then Js.binary64 q else 0%Q,
         {| visible := visible w; clock := clock w; draws := rest;
            errors := errors w |})
    | [] => (0%Q, w)
    end.

#[global, refine] Instance random : Random world :=
  {| Math_random := draw |}.
Proof.
  all: intros w;
    assert (usable (draw w).1 = true) as Husable
      by (unfold draw; destruct (draws w) as [| q rest]; cbn [fst];
          [vm_compute; reflexivity |];
          destruct (usable (Js.binary64 q)) eqn:Hq;
          [exact Hq | vm_compute; reflexivity]);
    unfold usable in Husable;
    apply andb_prop in Husable as [Hrange Hdouble];
    apply andb_prop in Hrange as [Hlow Hhigh].
  - split; [by apply Qle_bool_iff |].
    apply Qnot_le_lt. intros Hle. apply Qle_bool_iff in Hle.
    rewrite Hle in Hhigh. discriminate.
  - by apply Qeq_bool_iff.
Defined.

(** The page has no frame; clicks, pauses and keys resolve and change
    nothing. *)
#[global] Instance browser : Browser world :=
  {| first_click := fun _ => act;
     first_boundingBox := fun _ w =>
       (Js.Return (Some (Box.mk 0 0 (376 # 1) (64 # 1))), w);
     locator_all := fun _ w => (Js.Return 0, w);
     nth_getAttribute := fun _ _ _ w => (Js.Return None, w);
     nth_click := fun _ _ => act;
     waitForTimeout := fun _ => act;
     keyboard_press := fun _ => act |}.

(** Every request is answered at once with a short body; the pauses and
    the log change nothing. *)
#[global] Instance k6 : LoadTest.K6 world :=
  {| LoadTest.http_post := fun _ _ w =>
       (LoadTest.Response.mk 200 (Some "ok") 120, w);
     LoadTest.sleep := fun _ w => ((), w);
     LoadTest.console_log := fun _ w => ((), w);
     LoadTest.VU := 1;
     LoadTest.ITER := 0;
     LoadTest.ENV_CHATBOT_API_URL := None;
     LoadTest.JSON_stringify_payload := fun message sessionId timestamp =>
       default "" message +:+ sessionId +:+ timestamp |}.

(** Issues, an analyzer and metrics to run the methods on. *)
Definition w0 : world := mk [] 1700000000000 [] [].

Definition leak : Issue.t :=
  Issue.mk "security" (Some "critical") "Token in URL" "e" "Data leak" "r".

Definition lag : Issue.t :=
  Issue.mk "integration" (Some "high") "Leads arrive late" "e" "i" "r".

Definition blur : Issue.t :=
  Issue.mk "ui_rendering" (Some "critical") "Widget is blurred" "e" "i" "r".

Definition three : IssueAnalyzer.t :=
  IssueAnalyzer.mk
    [ IssueAnalyzer.enrich IssueAnalyzer.constructor lag "ISSUE-A" "t";
      IssueAnalyzer.enrich IssueAnalyzer.constructor blur "ISSUE-B" "t";
      IssueAnalyzer.enrich IssueAnalyzer.constructor leak "ISSUE-C" "t" ]
    (IssueAnalyzer.categories IssueAnalyzer.constructor).

Definition no_metrics : LoadTest.Metrics.t := LoadTest.Metrics.mk [] [] 0 0.

End Sample.

(** * Properties *)

(** ** Lookup tables *)

Section Tables.
Context {V : Type}.

(** A table built from the list of its entries reads like the list: the
    first entry of a key is the one that counts. *)
Lemma lookup_table_get (l : list (string * V)) (k : string) :
  (list_to_map l : gmap string V) !! k = Js.get l k.
Proof.
  induction l as [| [k' v] l IH]; simpl.
  - apply lookup_empty.
  - destruct (String.eqb_spec k' k) as [-> | Hne].
    + apply lookup_insert_eq.
    + rewrite lookup_insert_ne by done. exact IH.
Qed.

End Tables.

(** Case analysis on whether the key [k] is the literal [lit]. *)
Ltac key_case k lit :=
  destruct (decide (k = lit)) as [-> | ?];
  [ | rewrite ?(proj2 (String.eqb_neq k lit)), ?(proj2 (String.eqb_neq lit k))
        by congruence ].

Ltac severity_cases k :=
  key_case k "critical"; [ | key_case k "high"; [ | key_case k "moderate";
    [ | key_case k "minor" ] ] ].

Ltac category_cases k :=
  key_case k "core_functionality"; [ | key_case k "security";
  [ | key_case k "ui_rendering"; [ | key_case k "integration";
  [ | key_case k "mobile_compatibility"; [ | key_case k "response_quality";
  [ | key_case k "performance_consistency"; [ | key_case k "accessibility";
  [ | key_case k "input_validation"; [ | key_case k "browser_compatibility";
  [ | key_case k "conversation_flow"; [ | key_case k "error_handling"
  ] ] ] ] ] ] ] ] ] ] ].

Module IssueAnalyzerFacts.
Import IssueAnalyzer.

(** A read of a table built from the list of its entries. *)
Lemma read_table {V : Type} (l : list (string * V)) (k : string) :
  Js.read (list_to_map l) k
  = match Js.get l k with
    | Some v => Some (Js.Value v)
    | None => if Js.inherited k then Some (Js.Member k) else None
    end.
Proof. unfold Js.read. rewrite lookup_table_get. reflexivity. Qed.

(** The priority computed in binary64 is the exact product rounded half
    up, for every severity (given or not) and every category that is not a
    name inherited from [Object.prototype]. *)
Lemma calculateBusinessPriority_spec (issue : Issue.t) :
  Js.inherited (Js.key (Issue.severity issue)) = false ->
  Js.inherited (Issue.category issue) = false ->
  calculateBusinessPriority issue
  = Js.Z_to_float
      (PrioritySpec.round
         (PrioritySpec.severityScore (Issue.severity issue)
          * PrioritySpec.categoryMultiplier (Issue.category issue))).
Proof.
  destruct issue as [cat sev d e i r].
  cbn [Issue.severity Issue.category]. intros Hsev Hcat.
  unfold calculateBusinessPriority, PrioritySpec.categoryMultiplier,
    PrioritySpec.severityScore, severityScores, categoryMultipliers,
    PrioritySpec.categoryMultipliers.
  cbn [Issue.severity Issue.category].
  rewrite !read_table, lookup_table_get.
  destruct sev as [sev |]; cbn [Js.key Js.get] in *.
  - severity_cases sev; category_cases cat; rewrite ?Hsev, ?Hcat;
      vm_compute; reflexivity.
  - category_cases cat; rewrite ?Hcat; vm_compute; reflexivity.
Qed.

(** The members of [Object.prototype], one by one. *)
Lemma inherited_names (k : string) :
  Js.inherited k = true -> In k Js.Object_prototype.
Proof.
  unfold Js.inherited. intros Hin.
  apply existsb_exists in Hin as (name & Hname & Heq).
  apply String.eqb_eq in Heq. by subst.
Qed.

Ltac inherited_cases H :=
  apply inherited_names in H; cbn [Js.Object_prototype In] in H;
  repeat (destruct H as [<- | H]); [.. | destruct H].

(** A severity or a category that is an inherited name makes the priority
    NaN: the member read from the table is no number. *)
Lemma calculateBusinessPriority_NaN (issue : Issue.t) :
  Js.inherited (Js.key (Issue.severity issue)) = true
  \/ Js.inherited (Issue.category issue) = true ->
  calculateBusinessPriority issue = PrimFloat.nan.
Proof.
  destruct issue as [cat sev d e i r].
  cbn [Issue.severity Issue.category].
  unfold calculateBusinessPriority, severityScores, categoryMultipliers.
  cbn [Issue.severity Issue.category].
  rewrite !read_table.
  intros [Hsev | Hcat].
  - destruct sev as [sev |]; cbn [Js.key] in *; [| discriminate].
    inherited_cases Hsev; cbn [Js.get];
      category_cases cat; try (destruct (Js.inherited cat));
      vm_compute; reflexivity.
  - inherited_cases Hcat; cbn [Js.get];
      (destruct sev as [sev |]; cbn [Js.key Js.get];
       [severity_cases sev; try (destruct (Js.inherited sev)) |]);
      vm_compute; reflexivity.
Qed.

(** The values of the two estimate tables are not empty, so that [||]
    keeps every value that is found; a category that is an inherited name
    is answered by the member of that name. *)
Lemma estimateFixTime_lookup (issue : Issue.t) :
  estimateFixTime issue
  = if Js.inherited (Issue.category issue)
    then Js.Member (Issue.category issue)
    else Js.Value (default "4-8 hours" (timeEstimates !! Issue.category issue)).
Proof.
  destruct issue as [cat sev d e i r].
  unfold estimateFixTime, timeEstimates. cbn [Issue.category].
  rewrite read_table, lookup_table_get. cbn [Js.get].
  category_cases cat; try reflexivity.
  destruct (Js.inherited cat); reflexivity.
Qed.

Lemma estimateAffectedUsers_lookup (issue : Issue.t) :
  estimateAffectedUsers issue
  = if Js.inherited (Issue.category issue)
    then Js.Member (Issue.category issue)
    else Js.Value
           (default "10-30%" (affectedPercentages !! Issue.category issue)).
Proof.
  destruct issue as [cat sev d e i r].
  unfold estimateAffectedUsers, affectedPercentages. cbn [Issue.category].
  rewrite read_table, lookup_table_get. cbn [Js.get].
  category_cases cat; try reflexivity.
  destruct (Js.inherited cat); reflexivity.
Qed.

(** The severity read from the table of categories, with its default. *)
Lemma table_severity_found (this : t) (category : string) (entry : Category.t) :
  Js.get (categories this) category = Some entry ->
  Category.severity entry <> "" ->
  Js.or_string (Category.severity <$> Js.get (categories this) category)
    "moderate"
  = Category.severity entry.
Proof.
  intros Hget Hne. rewrite Hget. cbn [fmap option_fmap option_map].
  unfold Js.or_string, Js.truthy_string.
  apply String.eqb_neq in Hne. rewrite Hne. reflexivity.
Qed.

Lemma table_severity_default (this : t) (category : string) :
  (forall entry : Category.t,
      Js.get (categories this) category = Some entry ->
      Category.severity entry = "") ->
  Js.or_string (Category.severity <$> Js.get (categories this) category)
    "moderate"
  = "moderate".
Proof.
  intros Hempty. destruct (Js.get _ _) as [entry |]; [| reflexivity].
  cbn [fmap option_fmap option_map]. unfold Js.or_string.
  rewrite (Hempty entry eq_refl). reflexivity.
Qed.

(** The severity of the record when the issue gives none. *)
Lemma enrich_severity_absent (this : t) (issue : Issue.t)
    (issueId timestamp : string) :
  Issue.severity issue = None \/ Issue.severity issue = Some "" ->
  EnrichedIssue.severity (enrich this issue issueId timestamp)
  = Js.or_string
      (Category.severity <$> Js.get (categories this) (Issue.category issue))
      "moderate".
Proof.
  intros [Habsent | Habsent]; unfold enrich; cbn [EnrichedIssue.severity];
    rewrite Habsent; reflexivity.
Qed.

Section AddIssue.
Context `{Runtime W}.

(** One call of [addIssue]: the two reads of the environment, then the push
    of the enriched record. *)
Lemma addIssue_pushes (this : t) (issue : Issue.t) (w : W) :
  exists issueId timestamp w',
    addIssue this issue w
    = ((issueId,
        {| issues := issues this ++ [enrich this issue issueId timestamp];
           categories := categories this |}), w').
Proof.
  unfold addIssue, mbind, mret, State_bind, State_ret.
  destruct (Date_toISOString w) as [timestamp w1].
  destruct (generateIssueId w1) as [issueId w2].
  destruct (String.eqb _ "critical").
  - destruct (console_error _ w2) as [[] w3]. eauto.
  - eauto.
Qed.

End AddIssue.

(** C5. [estimateFixTime] and [estimateAffectedUsers] read their table
    through the prototype chain: for a category that is a name inherited
    from [Object.prototype] (which neither table writes) they return the
    inherited member, a built-in function or the prototype object, and not
    the default string '4-8 hours', respectively '10-30%', that the claim
    and the documented return type promise for a category outside the
    table. *)
Theorem estimates_on_inherited_category (issue : Issue.t) :
  Js.inherited (Issue.category issue) = true ->
  timeEstimates !! Issue.category issue = None
  /\ affectedPercentages !! Issue.category issue = None
  /\ estimateFixTime issue = Js.Member (Issue.category issue)
  /\ estimateAffectedUsers issue = Js.Member (Issue.category issue)
  /\ estimateFixTime issue <> Js.Value "4-8 hours"
  /\ estimateAffectedUsers issue <> Js.Value "10-30%".
Proof.
  intros Hcat.
  rewrite estimateFixTime_lookup, estimateAffectedUsers_lookup, Hcat.
  repeat split; try discriminate;
    inherited_cases Hcat; vm_compute; reflexivity.
Qed.

Lemma estimates_on_inherited_category_witness :
  let issue := Issue.mk "constructor" (Some "minor") "d" "e" "i" "r" in
  estimateFixTime issue = Js.Member "constructor"
  /\ estimateAffectedUsers issue = Js.Member "constructor".
Proof.
  intros issue.
  destruct (estimates_on_inherited_category issue) as (_ & _ & Ht & Hu & _).
  - vm_compute. reflexivity.
  - split; [exact Ht | exact Hu].
Defined.

(** C2. The record stored by [addIssue] carries as businessPriority the
    rounded product of the score of the severity that the caller gave (10,
    7, 4, 2, and 4 for any other or no severity, also when the severity of
    the record is then taken from the table of categories) and the
    multiplier of its category (0.5 for a category outside the table), for
    a severity and a category that are not names inherited from
    [Object.prototype]; the binary64 computation of the code agrees with the
    exact one. A severity that the issue gives is also the severity of the
    record, and the recommendation text is the issue's. *)
Theorem addIssue_businessPriority `{Runtime W}
    (this : t) (issue : Issue.t) (w : W) :
  Js.inherited (Js.key (Issue.severity issue)) = false ->
  Js.inherited (Issue.category issue) = false ->
  exists (stored : EnrichedIssue.t) (issueId : string) (w' : W),
    addIssue this issue w
    = ((issueId, {| issues := issues this ++ [stored];
                    categories := categories this |}), w')
    /\ EnrichedIssue.businessPriority stored
       = Js.Z_to_float
           (PrioritySpec.round
              (PrioritySpec.severityScore (Issue.severity issue)
               * PrioritySpec.categoryMultiplier (Issue.category issue)))
    /\ (Issue.severity issue = None ->
        EnrichedIssue.businessPriority stored
        = Js.Z_to_float
            (PrioritySpec.round
               (4 * PrioritySpec.categoryMultiplier (Issue.category issue))))
    /\ (forall given : string,
          Issue.severity issue = Some given -> given <> "" ->
          EnrichedIssue.severity stored = given)
    /\ EnrichedIssue.recommendation stored = Issue.recommendation issue.
Proof.
  intros Hsev Hcat.
  destruct (addIssue_pushes this issue w) as (issueId & timestamp & w' & Heq).
  exists (enrich this issue issueId timestamp), issueId, w'.
  split; [exact Heq |].
  split; [by apply calculateBusinessPriority_spec |].
  split.
  { intros Hnone. cbn [enrich EnrichedIssue.businessPriority].
    rewrite calculateBusinessPriority_spec by done. by rewrite Hnone. }
  split; [| reflexivity].
  intros given Hgiven Hne.
  unfold enrich; cbn [EnrichedIssue.severity]. rewrite Hgiven.
  unfold Js.truthy_string. apply String.eqb_neq in Hne. rewrite Hne.
  reflexivity.
Qed.

Lemma addIssue_businessPriority_witness :
  let w := Sample.mk [] 1700000000000 [] [] in
  let issue :=
    Issue.mk "accessibility" (Some "high") "Focus is lost" "e" "i"
      "Restore the focus ring" in
  exists (stored : EnrichedIssue.t),
    (addIssue IssueAnalyzer.constructor issue w).1.2
    = {| issues := [stored];
         categories := categories IssueAnalyzer.constructor |}
    /\ EnrichedIssue.businessPriority stored = 4%float
    /\ EnrichedIssue.severity stored = "high"
    /\ EnrichedIssue.recommendation stored = "Restore the focus ring".
Proof.
  intros w issue.
  destruct (addIssue_businessPriority IssueAnalyzer.constructor issue w)
    as (stored & issueId & w' & Heq & Hpriority & _ & Hseverity & Hrec).
  - vm_compute. reflexivity.
  - vm_compute. reflexivity.
  - exists stored. rewrite Heq. split; [reflexivity |].
    split; [rewrite Hpriority; vm_compute; reflexivity |].
    split; [apply Hseverity; [reflexivity | discriminate] | exact Hrec].
Defined.

(** The claim C2 as it is worded fails on two inputs. An issue of the
    category 'security' that gives no severity is stored as 'critical', yet
    its priority is 4: the score is that of the absent severity, not the 10
    of the severity that the category gave to the record. And for the
    severity 'constructor', which is none of the four, the priority is NaN
    and not the rounded product of 4 and the multiplier. *)
Lemma addIssue_businessPriority_counterexample :
  let w := Sample.mk [] 1700000000000 [] [] in
  let spec (severity : option string) (category : string) :=
    Js.Z_to_float
      (PrioritySpec.round
         (PrioritySpec.severityScore severity
          * PrioritySpec.categoryMultiplier category)) in
  (exists stored : EnrichedIssue.t,
      (addIssue IssueAnalyzer.constructor
         (Issue.mk "security" None "Token in URL" "e" "Data leak" "r") w).1.2
      = {| issues := [stored];
           categories := categories IssueAnalyzer.constructor |}
      /\ EnrichedIssue.severity stored = "critical"
      /\ EnrichedIssue.businessPriority stored = 4%float
      /\ spec (Some (EnrichedIssue.severity stored))
               (EnrichedIssue.category stored) = 10%float
      /\ EnrichedIssue.businessPriority stored
         <> spec (Some (EnrichedIssue.severity stored))
                 (EnrichedIssue.category stored))
  /\ (exists stored : EnrichedIssue.t,
        (addIssue IssueAnalyzer.constructor
           (Issue.mk "security" (Some "constructor") "d" "e" "i" "r") w).1.2
        = {| issues := [stored];
             categories := categories IssueAnalyzer.constructor |}
        /\ EnrichedIssue.businessPriority stored = PrimFloat.nan
        /\ spec (Some "constructor") "security" = 4%float
        /\ EnrichedIssue.businessPriority stored
           <> spec (Some "constructor") "security").
Proof.
  intros w spec. split.
  - eexists. split; [vm_compute; reflexivity |].
    split; [reflexivity |]. split; [vm_compute; reflexivity |].
    split; [vm_compute; reflexivity |].
    intros Heq. apply (f_equal (fun x => PrimFloat.eqb x 4)) in Heq.
    vm_compute in Heq. discriminate.
  - eexists. split; [vm_compute; reflexivity |].
    split; [vm_compute; reflexivity |]. split; [vm_compute; reflexivity |].
    intros Heq. apply (f_equal PrimFloat.is_nan) in Heq.
    vm_compute in Heq. discriminate.
Qed.

(** C6. [addIssue] appends one record and returns its id. The record has
    the issue's category; its severity is the one the issue gives, and when
    the issue gives none (or the empty string) the severity of the category
    in the analyzer's table, and 'moderate' when the table has none for the
    category; it has the issue's impact text, and the fix time and the
    affected-user percentage estimated for the issue. *)
Theorem addIssue_tags_record `{Runtime W}
    (this : t) (issue : Issue.t) (w : W) :
  let absent :=
    Issue.severity issue = None \/ Issue.severity issue = Some "" in
  exists (stored : EnrichedIssue.t) (w' : W),
    addIssue this issue w
    = ((EnrichedIssue.id stored,
        {| issues := issues this ++ [stored];
           categories := categories this |}), w')
    /\ EnrichedIssue.category stored = Issue.category issue
    /\ (forall given : string,
          Issue.severity issue = Some given -> given <> "" ->
          EnrichedIssue.severity stored = given)
    /\ (forall entry : Category.t,
          absent ->
          Js.get (categories this) (Issue.category issue) = Some entry ->
          Category.severity entry <> "" ->
          EnrichedIssue.severity stored = Category.severity entry)
    /\ (absent ->
        (forall entry : Category.t,
            Js.get (categories this) (Issue.category issue) = Some entry ->
            Category.severity entry = "") ->
        EnrichedIssue.severity stored = "moderate")
    /\ EnrichedIssue.impact stored = Issue.impact issue
    /\ EnrichedIssue.estimatedFixTime stored = estimateFixTime issue
    /\ EnrichedIssue.affectedUserPercentage stored
       = estimateAffectedUsers issue.
Proof.
  intros absent.
  destruct (addIssue_pushes this issue w) as (issueId & timestamp & w' & Heq).
  exists (enrich this issue issueId timestamp), w'.
  split; [exact Heq |]. split; [reflexivity |].
  split; [| split; [| split; [| repeat split]]].
  - intros given Hgiven Hne.
    unfold enrich; cbn [EnrichedIssue.severity]. rewrite Hgiven.
    unfold Js.truthy_string. apply String.eqb_neq in Hne. rewrite Hne.
    reflexivity.
  - intros entry Habsent Hget Hne.
    rewrite (enrich_severity_absent _ _ _ _ Habsent).
    by apply table_severity_found.
  - intros Habsent Hempty.
    rewrite (enrich_severity_absent _ _ _ _ Habsent).
    by apply table_severity_default.
Qed.

Lemma addIssue_tags_record_witness :
  let w := Sample.mk [] 1700000000000 [] [] in
  let issue := Issue.mk "security" None "Token in URL" "e" "Data leak" "r" in
  exists (stored : EnrichedIssue.t),
    (addIssue IssueAnalyzer.constructor issue w).1.2
    = {| issues := [stored];
         categories := categories IssueAnalyzer.constructor |}
    /\ (addIssue IssueAnalyzer.constructor issue w).1.1
       = EnrichedIssue.id stored
    /\ EnrichedIssue.severity stored = "critical"
    /\ EnrichedIssue.impact stored = "Data leak".
Proof.
  intros w issue.
  destruct (addIssue_tags_record IssueAnalyzer.constructor issue w)
    as (stored & w' & Heq & _ & _ & Htable & _ & Himpact & _).
  exists stored. rewrite Heq. split; [reflexivity |]. split; [reflexivity |].
  split; [| exact Himpact].
  apply (Htable (Category.mk "Potential security vulnerabilities"
                   "Critical - Risk of data breach or exploitation"
                   "critical")).
  - left. reflexivity.
  - vm_compute. reflexivity.
  - discriminate.
Defined.

(** C8. For a category that is a name inherited from [Object.prototype]
    the priority is NaN, whatever the severity: it is no number between 1
    and 10, against the claim and against the documented return value
    (1-10). *)
Theorem businessPriority_NaN_on_inherited_category (issue : Issue.t) :
  Js.inherited (Issue.category issue) = true ->
  PrimFloat.is_nan (calculateBusinessPriority issue) = true
  /\ PrimFloat.leb 1 (calculateBusinessPriority issue) = false
  /\ PrimFloat.leb (calculateBusinessPriority issue) 10 = false
  /\ ~ (exists z : Z,
          calculateBusinessPriority issue = Js.Z_to_float z
          /\ (1 <= z <= 10)%Z).
Proof.
  intros Hcat.
  rewrite calculateBusinessPriority_NaN by (by right).
  split; [reflexivity |]. split; [reflexivity |]. split; [reflexivity |].
  intros (z & Heq & Hz).
  apply (f_equal PrimFloat.is_nan) in Heq.
  assert (z = 1 \/ z = 2 \/ z = 3 \/ z = 4 \/ z = 5 \/ z = 6 \/ z = 7
          \/ z = 8 \/ z = 9 \/ z = 10)%Z as Hcases by lia.
  repeat (destruct Hcases as [-> | Hcases]; [vm_compute in Heq; discriminate |]).
  subst z. vm_compute in Heq. discriminate.
Qed.

Lemma businessPriority_NaN_on_inherited_category_witness :
  let issue := Issue.mk "__proto__" (Some "critical") "d" "e" "i" "r" in
  PrimFloat.is_nan (calculateBusinessPriority issue) = true.
Proof.
  intros issue.
  apply (businessPriority_NaN_on_inherited_category issue).
  vm_compute. reflexivity.
Defined.

(** The mutual recursion of [generateSummary] and
    [calculateOverallRiskLevel] uses up every stack. *)
Lemma summary_recursion_overflows (stack : nat) (this : t) :
  generateSummary stack this = Js.Throw Js.stack_overflow
  /\ calculateOverallRiskLevel stack this = Js.Throw Js.stack_overflow.
Proof.
  induction stack as [| stack [IHsummary IHrisk]].
  - split; reflexivity.
  - split.
    + cbn [generateSummary]. rewrite IHrisk. reflexivity.
    + cbn [calculateOverallRiskLevel]. rewrite IHsummary. reflexivity.
Qed.

Section ExportFacts.
Context (Number_toString : float -> string).
Context (JSON_stringify : ExportDocument.t -> string).
Context `{Runtime W}.

(** C3, as the code behaves. Whatever the recorded issues and however deep
    the stack, [generateSummary] does not return a summary: it ends in the
    RangeError of the exhausted stack, and so do [exportSummary] and
    [exportIssues] for every format but 'csv'. *)
Theorem generateSummary_never_returns (stack : nat) (this : t) (w : W) :
  generateSummary stack this = Js.Throw Js.stack_overflow
  /\ exportSummary stack this w = (Js.Throw Js.stack_overflow, w)
  /\ exportIssues Number_toString JSON_stringify stack this "summary" w
     = (Js.Throw Js.stack_overflow, w)
  /\ exportIssues Number_toString JSON_stringify stack this "json" w
     = (Js.Throw Js.stack_overflow, w).
Proof.
  destruct (summary_recursion_overflows stack this) as [Hsummary _].
  split; [exact Hsummary |].
  assert (exportSummary stack this w = (Js.Throw Js.stack_overflow, w)) as Hexport.
  { unfold exportSummary. rewrite Hsummary. reflexivity. }
  split; [exact Hexport |]. split.
  - unfold exportIssues.
    replace (Js.toLowerCase "summary") with "summary" by reflexivity.
    replace (String.eqb "summary" "csv") with false by reflexivity.
    replace (String.eqb "summary" "summary") with true by reflexivity.
    exact Hexport.
  - unfold exportIssues.
    replace (Js.toLowerCase "json") with "json" by reflexivity.
    replace (String.eqb "json" "csv") with false by reflexivity.
    replace (String.eqb "json" "summary") with false by reflexivity.
    rewrite Hsummary. reflexivity.
Qed.

End ExportFacts.

End IssueAnalyzerFacts.

Module SelectorManagerFacts.
Import SelectorManager.

Section Resolution.
Context `{Page W}.

Lemma defined_Some (v : option string) (selector : string) :
  defined v = Some selector -> v = Some selector.
Proof.
  destruct v as [s |]; cbn; [| discriminate].
  destruct (Js.truthy_string s); congruence.
Qed.

(** The loop over the framework entries is the in-order trial of the
    entries' selectors for the element. *)
Lemma tryAlternatives_firstWorking
    (entries : list (string * gmap string string)) (element : string) :
  tryAlternatives entries element
  = firstWorking (map (fun entry => entry.2 !! element) entries).
Proof.
  induction entries as [| [framework selectors] entries IH];
    [reflexivity |].
  cbn [tryAlternatives firstWorking map snd].
  rewrite IH. reflexivity.
Qed.

(** A trial that finds nothing has found every candidate hidden. *)
Lemma firstWorking_None (candidates : list (option string)) (w w' : W) :
  firstWorking candidates w = (None, w') <-> hidden candidates w w'.
Proof.
  revert w. induction candidates as [| v rest IH]; intros w.
  - cbn. split.
    + intros [= <-]. constructor.
    + inversion 1. reflexivity.
  - cbn [firstWorking]. unfold mbind, State_bind, working.
    split.
    + destruct (defined v) as [selector |] eqn:Hdef.
      * unfold mbind, State_bind, mret, State_ret.
        destruct (isElementVisible selector w) as [[|] w1] eqn:Hprobe;
          [discriminate |].
        intros Hrest. eapply hidden_probed; eauto. by apply IH.
      * unfold mret, State_ret. intros Hrest.
        apply hidden_undefined; [done |]. by apply IH.
    + inversion 1 as [| ? ? ? ? Hdef Hrest | ? selector ? ? w1 ? Hdef Hprobe Hrest];
        subst; rewrite Hdef.
      * unfold mret, State_ret. by apply IH.
      * unfold mbind, State_bind, mret, State_ret. rewrite Hprobe.
        by apply IH.
Qed.

(** A trial that finds [selector] has found the candidates before it
    hidden and [selector] visible. *)
Lemma firstWorking_Some (candidates : list (option string))
    (selector : string) (w w' : W) :
  firstWorking candidates w = (Some selector, w')
  <-> exists (earlier later : list (option string)) (w1 : W),
        candidates = (earlier ++ Some selector :: later)%list
        /\ defined (Some selector) = Some selector
        /\ hidden earlier w w1
        /\ isElementVisible selector w1 = (true, w').
Proof.
  revert w. induction candidates as [| v rest IH]; intros w.
  - cbn. split; [discriminate |].
    intros (earlier & later & w1 & Heq & _). by destruct earlier.
  - cbn [firstWorking]. unfold mbind, State_bind.
    split.
    + destruct (working v w) as [[found |] w1] eqn:Hworking.
      * unfold mret, State_ret. intros [= -> ->].
        unfold working in Hworking.
        destruct (defined v) as [s |] eqn:Hdef; [| discriminate].
        unfold mbind, State_bind, mret, State_ret in Hworking.
        destruct (isElementVisible s w) as [[|] w2] eqn:Hprobe;
          [| discriminate].
        injection Hworking as [= -> ->].
        apply defined_Some in Hdef as Hv. subst v.
        exists [], rest, w. repeat split; [done | constructor | done].
      * intros Hrest. apply IH in Hrest
          as (earlier & later & w2 & -> & Hdef & Hhidden & Hprobe).
        exists (v :: earlier), later, w2. repeat split; [done | | done].
        apply firstWorking_None.
        cbn [firstWorking]. unfold mbind, State_bind. rewrite Hworking.
        by apply firstWorking_None.
    + intros (earlier & later & w1 & Heq & Hdef & Hhidden & Hprobe).
      destruct earlier as [| v' earlier]; cbn [app] in Heq;
        injection Heq as [= -> ->].
      * inversion Hhidden; subst. unfold working. rewrite Hdef.
        unfold mbind, State_bind, mret, State_ret. rewrite Hprobe. done.
      * apply firstWorking_None in Hhidden. cbn [firstWorking] in Hhidden.
        unfold mbind, State_bind in Hhidden.
        destruct (working v' w) as [[found |] w2]; [discriminate |].
        apply IH. exists earlier, later, w1. repeat split; [done | | done].
        by apply firstWorking_None.
Qed.

(** The resolution is the in-order trial of the six tiers; the map of
    discovered selectors is touched only when a tier below the primary one
    works. *)
Lemma getSelector_firstWorking (this : t) (category element : string) (w : W) :
  exists this' : t,
    getSelector this category element w
    = (match (firstWorking (tiers category element) w).1 with
       | Some selector => Js.Return selector
       | None =>
           Js.Throw (Js.Error ("No working selector found for "
                               +:+ category +:+ "." +:+ element))
       end,
       this',
       (firstWorking (tiers category element) w).2)
    /\ ((firstWorking (tiers category element) w).1 = None -> this' = this).
Proof.
  unfold getSelector, tiers.
  rewrite tryAlternatives_firstWorking.
  change (map _ ALTERNATIVE_SELECTORS.entries)
    with [ ALTERNATIVE_SELECTORS.intercom !! element;
           ALTERNATIVE_SELECTORS.drift !! element;
           ALTERNATIVE_SELECTORS.zendesk !! element;
           ALTERNATIVE_SELECTORS.generic !! element ].
  cbn [firstWorking].
  generalize (@working W _). intros trial.
  unfold mbind, State_bind, mret, State_ret.
  repeat match goal with
         | |- context [trial ?v ?w0] =>
             destruct (trial v w0) as [[? |] ?]; cbn [fst snd]
         end;
    eexists; (split; [reflexivity | first [discriminate | reflexivity]]).
Qed.

(** C1. [getSelector] returns [selector] exactly when [selector] is the
    first working entry of the tiers taken in the order primary, CSS
    fallback, intercom, drift, zendesk, generic: every tier before it that
    has a selector for the element was probed and found not visible, and
    [selector] was then found visible. *)
Theorem getSelector_first_visible_tier
    (this : t) (category element selector : string) (w : W) :
  (exists (this' : t) (w' : W),
      getSelector this category element w = (Js.Return selector, this', w'))
  <-> (exists (earlier later : list (option string)) (w1 w' : W),
          tiers category element = (earlier ++ Some selector :: later)%list
          /\ selector <> ""
          /\ hidden earlier w w1
          /\ isElementVisible selector w1 = (true, w')).
Proof.
  destruct (getSelector_firstWorking this category element w)
    as (this' & Heq & _).
  rewrite Heq. clear Heq.
  destruct (firstWorking (tiers category element) w) as [found w2] eqn:Hfirst.
  cbn [fst snd]. split.
  - intros (this'' & w' & Hret).
    destruct found as [s |]; [| discriminate].
    injection Hret as [= -> _ ->].
    apply firstWorking_Some in Hfirst
      as (earlier & later & w1 & Htiers & Hdef & Hhidden & Hprobe).
    exists earlier, later, w1, w'. repeat split; try done.
    intros ->. discriminate Hdef.
  - intros (earlier & later & w1 & w' & Htiers & Hne & Hhidden & Hprobe).
    assert (firstWorking (tiers category element) w = (Some selector, w'))
      as Hsome.
    { apply firstWorking_Some. exists earlier, later, w1.
      repeat split; try done.
      unfold defined, Js.truthy_string.
      apply String.eqb_neq in Hne. by rewrite Hne. }
    rewrite Hsome in Hfirst. injection Hfirst as [= <- <-]. eauto.
Qed.

(** C4. When every tier that has a selector for the element is found not
    visible, [getSelector] throws the error that names the category and the
    element, and the manager, with its map of discovered selectors, is as
    before. *)
Theorem getSelector_throws_when_all_hidden
    (this : t) (category element : string) (w w' : W) :
  hidden (tiers category element) w w' ->
  getSelector this category element w
  = (Js.Throw (Js.Error ("No working selector found for "
                         +:+ category +:+ "." +:+ element)),
     this, w').
Proof.
  intros Hhidden. apply firstWorking_None in Hhidden.
  destruct (getSelector_firstWorking this category element w)
    as (this' & Heq & Hsame).
  rewrite Hhidden in Heq, Hsame. cbn [fst snd] in Heq, Hsame.
  rewrite Heq, Hsame; reflexivity.
Qed.

End Resolution.

Lemma getSelector_throws_when_all_hidden_witness :
  let w := Sample.mk [] 0 [] [] in
  getSelector constructor "widget" "launcher" w
  = (Js.Throw (Js.Error "No working selector found for widget.launcher"),
     constructor, w).
Proof.
  intros w.
  apply (getSelector_throws_when_all_hidden constructor "widget" "launcher" w w).
  apply firstWorking_None. vm_compute. reflexivity.
Defined.

End SelectorManagerFacts.

Module ChatbotHelperFacts.
Import ChatbotHelper.

(** A text of white space only is trimmed to nothing. *)
Lemma trimStart_blank (s : Text.t) :
  Forall (fun c => Text.isWhiteSpace c = true) s -> Text.trimStart s = [].
Proof.
  induction 1 as [| c s Hc _ IH]; [reflexivity |].
  cbn [Text.trimStart]. rewrite Hc. exact IH.
Qed.

Lemma trim_blank (s : Text.t) :
  Forall (fun c => Text.isWhiteSpace c = true) s -> Text.trim s = [].
Proof.
  intros Hblank. unfold Text.trim, Text.trimEnd.
  rewrite (trimStart_blank s Hblank). reflexivity.
Qed.

Section Facts.
Context `{Page W} `{Runtime W}.

(** C7. From any state of the page, [isChatbotClosed] answers the negation
    of what [isChatbotOpen] answers, after the same probes: the two answers
    are never both true, and one of them is. *)
Theorem isChatbotClosed_negates_isChatbotOpen (w : W) :
  isChatbotClosed w = (negb (isChatbotOpen w).1, (isChatbotOpen w).2)
  /\ ~ ((isChatbotOpen w).1 = true /\ (isChatbotClosed w).1 = true)
  /\ ((isChatbotOpen w).1 = true \/ (isChatbotClosed w).1 = true).
Proof.
  unfold isChatbotClosed, mbind, State_bind, mret, State_ret.
  destruct (isChatbotOpen w) as [[|] w']; cbn [fst snd negb].
  - split; [reflexivity |]. split; [| by left].
    intros [_ Hclosed]. discriminate Hclosed.
  - split; [reflexivity |]. split; [| by right].
    intros [Hopen _]. discriminate Hopen.
Qed.

(** C9. For a message that is empty or made of white space only,
    [sendMessage] resolves to [false]; the page and the clock are not used
    (the world is the same), and the helper, with its message history and
    its last message timestamp, is the same. *)
Theorem sendMessage_blank (this : t) (message : Text.t) (w : W) :
  Forall (fun c => Text.isWhiteSpace c = true) message ->
  sendMessage this message w = (Js.Return NotSent, this, w).
Proof.
  intros Hblank. unfold sendMessage.
  rewrite (trim_blank message Hblank). cbn [length Nat.eqb].
  rewrite orb_true_r. reflexivity.
Qed.

End Facts.

Lemma sendMessage_blank_witness :
  let w := Sample.mk [ "textarea" ] 5 [] [] in
  sendMessage constructor [32; 9; 160; 8195]%N w
  = (Js.Return NotSent, constructor, w).
Proof.
  intros w. apply (sendMessage_blank constructor [32; 9; 160; 8195]%N w).
  repeat constructor.
Defined.

End ChatbotHelperFacts.

(** ** Rounding to binary64 *)

Module Binary64.

Local Open Scope Q_scope.

Lemma pow2_pos (e : Z) : 0 < 2 ^ e.
Proof. apply Qpower_0_lt. reflexivity. Qed.

Lemma pow2_add (a b : Z) : 2 ^ (a + b) == 2 ^ a * 2 ^ b.
Proof. apply Qpower_plus. discriminate. Qed.

Lemma pow2_lt_inv (a b : Z) : 2 ^ a < 2 ^ b -> (a < b)%Z.
Proof.
  intros Hlt. apply (Qpower_lt_compat_l_inv 2); [exact Hlt | reflexivity].
Qed.

Lemma pow2_Z (k : Z) : (0 <= k)%Z -> inject_Z (2 ^ k) == 2 ^ k.
Proof. intros Hk. apply (Zpower_Qpower 2 k Hk). Qed.

(** Rounding to the nearest integer keeps every integer bound. *)
Lemma round_half_even_le (x : Q) (n : Z) :
  x <= inject_Z n -> (Js.round_half_even x <= n)%Z.
Proof.
  intros Hle. unfold Js.round_half_even.
  pose proof (Qfloor_le x) as Hfloor.
  assert (Qfloor x <= n)%Z as Hn.
  { rewrite Zle_Qle. lra. }
  assert (0 < x - inject_Z (Qfloor x) -> (Qfloor x + 1 <= n)%Z) as Hup.
  { intros Hpos. assert (Qfloor x < n)%Z; [| lia].
    rewrite Zlt_Qlt. lra. }
  destruct (Qcompare_spec (x - inject_Z (Qfloor x)) (1 # 2)) as [Heq | Hlt | Hgt].
  - destruct (Z.even (Qfloor x)); [exact Hn |]. apply Hup. lra.
  - exact Hn.
  - apply Hup. lra.
Qed.

Lemma round_half_even_ge (x : Q) (n : Z) :
  inject_Z n <= x -> (n <= Js.round_half_even x)%Z.
Proof.
  intros Hle. unfold Js.round_half_even.
  assert (n <= Qfloor x)%Z as Hn.
  { rewrite <- (Qfloor_Z n). apply Qfloor_resp_le. exact Hle. }
  destruct (x - inject_Z (Qfloor x) ?= 1 # 2); [destruct (Z.even _) | |]; lia.
Qed.

(** The search of the exponent: its range, what it has found when it stops
    before the end, and what it has passed. *)
Lemma ulp_search_range (steps : nat) (e : Z) (m : Q) :
  (e - Z.of_nat steps <= Js.ulp_search steps e m <= e)%Z.
Proof.
  revert e. induction steps as [| steps IH]; intros e; cbn [Js.ulp_search].
  - lia.
  - destruct (Qle_bool (2 ^ (e + 52)) m); [lia |].
    specialize (IH (e - 1)%Z). lia.
Qed.

Lemma ulp_search_low (steps : nat) (e : Z) (m : Q) :
  Js.ulp_search steps e m = (e - Z.of_nat steps)%Z
  \/ 2 ^ (Js.ulp_search steps e m + 52) <= m.
Proof.
  revert e. induction steps as [| steps IH]; intros e; cbn [Js.ulp_search].
  - left. lia.
  - destruct (Qle_bool (2 ^ (e + 52)) m) eqn:Htest.
    + right. by apply Qle_bool_iff.
    + destruct (IH (e - 1)%Z) as [Hend | Hfound];
        [left; lia | right; exact Hfound].
Qed.

Lemma ulp_search_high (steps : nat) (e : Z) (m : Q) :
  m < 2 ^ (e + 53) -> m < 2 ^ (Js.ulp_search steps e m + 53).
Proof.
  revert e. induction steps as [| steps IH]; intros e Hlt; cbn [Js.ulp_search].
  - exact Hlt.
  - destruct (Qle_bool (2 ^ (e + 52)) m) eqn:Htest; [exact Hlt |].
    apply IH. replace (e - 1 + 53)%Z with (e + 52)%Z by lia.
    apply Qnot_le_lt. intros Hle. apply Qle_bool_iff in Hle. congruence.
Qed.

Lemma ulp_exponent_range (q : Q) : (-1074 <= Js.ulp_exponent q <= 971)%Z.
Proof.
  unfold Js.ulp_exponent.
  pose proof (ulp_search_range 2045 971 (Qabs q)). lia.
Qed.

(** The exponent of a number below [2^(j+53)] is at most [j]. *)
Lemma ulp_exponent_le (q : Q) (j : Z) :
  (-1074 <= j)%Z -> Qabs q < 2 ^ (j + 53) -> (Js.ulp_exponent q <= j)%Z.
Proof.
  intros Hj Hlt. unfold Js.ulp_exponent in *.
  destruct (ulp_search_low 2045 971 (Qabs q)) as [Hend | Hfound]; [lia |].
  assert (2 ^ (Js.ulp_search 2045 971 (Qabs q) + 52) < 2 ^ (j + 53)) as Hpow.
  { eapply Qle_lt_trans; eassumption. }
  apply pow2_lt_inv in Hpow. lia.
Qed.

(** A number below the overflow threshold is less than [2^53] of its
    units. *)
Lemma ulp_exponent_lt (q : Q) :
  Qabs q < 2 ^ 1024 -> Qabs q < 2 ^ (Js.ulp_exponent q + 53).
Proof.
  intros Hlt. unfold Js.ulp_exponent. apply ulp_search_high. exact Hlt.
Qed.

#[local] Opaque Js.ulp_exponent.

Lemma pow2_grid (e k : Z) :
  (e <= k)%Z -> 2 ^ k == inject_Z (2 ^ (k - e)) * 2 ^ e.
Proof.
  intros Hle. rewrite pow2_Z by lia. rewrite <- pow2_add.
  by replace (k - e + e)%Z with k by lia.
Qed.

(** A bound that lies on the grid of [q] is kept by the rounding. *)
Lemma binary64_le (q : Q) (n k : Z) :
  (Js.ulp_exponent q <= k)%Z ->
  q <= inject_Z n * 2 ^ k -> Js.binary64 q <= inject_Z n * 2 ^ k.
Proof.
  intros Hk Hle. unfold Js.binary64.
  set (e := Js.ulp_exponent q) in *.
  pose proof (pow2_pos e) as He. pose proof (pow2_grid e k Hk) as Hgrid.
  assert (Js.round_half_even (q / 2 ^ e) <= n * 2 ^ (k - e))%Z as Hround.
  { apply round_half_even_le. rewrite inject_Z_mult.
    apply Qle_shift_div_r; [exact He |]. rewrite Hgrid in Hle. lra. }
  rewrite Hgrid, Qmult_assoc, <- inject_Z_mult.
  apply Qmult_le_r; [exact He |]. by rewrite <- Zle_Qle.
Qed.

Lemma binary64_ge (q : Q) (n k : Z) :
  (Js.ulp_exponent q <= k)%Z ->
  inject_Z n * 2 ^ k <= q -> inject_Z n * 2 ^ k <= Js.binary64 q.
Proof.
  intros Hk Hle. unfold Js.binary64.
  set (e := Js.ulp_exponent q) in *.
  pose proof (pow2_pos e) as He. pose proof (pow2_grid e k Hk) as Hgrid.
  assert (n * 2 ^ (k - e) <= Js.round_half_even (q / 2 ^ e))%Z as Hround.
  { apply round_half_even_ge. rewrite inject_Z_mult.
    apply Qle_shift_div_l; [exact He |]. rewrite Hgrid in Hle. lra. }
  rewrite Hgrid, Qmult_assoc, <- inject_Z_mult.
  apply Qmult_le_r; [exact He |]. by rewrite <- Zle_Qle.
Qed.

(** A number on its own grid is a double: the rounding returns it. *)
Lemma binary64_exact (q : Q) (n k : Z) :
  (Js.ulp_exponent q <= k)%Z ->
  q == inject_Z n * 2 ^ k -> Js.binary64 q == q.
Proof.
  intros Hk Heq. apply Qle_antisym.
  - rewrite Heq at 2. apply binary64_le; [exact Hk | rewrite Heq; apply Qle_refl].
  - rewrite Heq at 1. apply binary64_ge; [exact Hk | rewrite Heq; apply Qle_refl].
Qed.

(** Below [2^53] the grid is at least as fine as the integers. *)
Lemma ulp_exponent_small (q : Q) :
  Qabs q < 2 ^ 53 -> (Js.ulp_exponent q <= 0)%Z.
Proof. intros Hlt. apply ulp_exponent_le; [lia | exact Hlt]. Qed.

Lemma binary64_le_Z (q : Q) (n : Z) :
  Qabs q < 2 ^ 53 -> q <= inject_Z n -> Js.binary64 q <= inject_Z n.
Proof.
  intros Hsmall Hle.
  assert (inject_Z n * 2 ^ 0 == inject_Z n) as Hone by (cbn; ring).
  rewrite <- Hone.
  apply binary64_le; [by apply ulp_exponent_small | by rewrite Hone].
Qed.

Lemma binary64_ge_Z (q : Q) (n : Z) :
  Qabs q < 2 ^ 53 -> inject_Z n <= q -> inject_Z n <= Js.binary64 q.
Proof.
  intros Hsmall Hle.
  assert (inject_Z n * 2 ^ 0 == inject_Z n) as Hone by (cbn; ring).
  rewrite <- Hone.
  apply binary64_ge; [by apply ulp_exponent_small | by rewrite Hone].
Qed.

(** The magnitude of a number between two bounds. *)
Lemma Qabs_lt (q bound : Q) : - bound < q -> q < bound -> Qabs q < bound.
Proof. intros Hlow Hhigh. apply Qabs_Qlt_condition. by split. Qed.

(** Four times a double is a double: the product by 4 is exact. *)
Lemma binary64_times_4 (d : Q) :
  Js.binary64 d == d -> Qabs d < 2 ^ 1022 ->
  Js.binary64 (d * 4) == d * 4.
Proof.
  intros Hdouble Hsmall. unfold Js.binary64 in Hdouble.
  set (e := Js.ulp_exponent d) in *.
  set (n := Js.round_half_even (d / 2 ^ e)) in *.
  assert (Qabs d < 2 ^ (e + 53)) as Hunits.
  { apply ulp_exponent_lt. eapply Qlt_trans; [exact Hsmall | reflexivity]. }
  apply (binary64_exact _ n (e + 2)).
  - pose proof (ulp_exponent_range d). apply ulp_exponent_le; [lia |].
    rewrite Qabs_Qmult. replace (e + 2 + 53)%Z with (e + 53 + 2)%Z by lia.
    rewrite pow2_add. change (Qabs 4) with 4. change (2 ^ 2) with 4. lra.
  - rewrite pow2_add, <- Hdouble at 1. change (2 ^ 2) with 4.
    generalize (2 ^ e) (inject_Z n). intros u m. ring.
Qed.

(** The result of the rounding is a double. *)
Lemma binary64_idempotent (q : Q) :
  Qabs q < 2 ^ 1024 -> Js.binary64 (Js.binary64 q) == Js.binary64 q.
Proof.
  intros Hsmall. unfold Js.binary64 at 2 3.
  set (e := Js.ulp_exponent q). set (n := Js.round_half_even (q / 2 ^ e)).
  pose proof (pow2_pos e) as He.
  pose proof (ulp_exponent_range q) as Hrange. fold e in Hrange.
  pose proof (ulp_exponent_lt q Hsmall) as Hunits. fold e in Hunits.
  apply Qabs_Qlt_condition in Hunits as [Hlow Hhigh].
  rewrite pow2_add in Hlow, Hhigh.
  assert (2 ^ 53 == inject_Z (2 ^ 53)) as H53 by reflexivity.
  assert (- 2 ^ 53 <= n <= 2 ^ 53)%Z as Hn.
  { split.
    - replace (- 2 ^ 53)%Z with (- (2 ^ 53))%Z by lia.
      apply round_half_even_ge. rewrite inject_Z_opp, <- H53.
      apply Qle_shift_div_l; [exact He | lra].
    - apply round_half_even_le. rewrite <- H53.
      apply Qle_shift_div_r; [exact He | lra]. }
  assert (Qabs (inject_Z n * 2 ^ e) == inject_Z (Z.abs n) * 2 ^ e) as Habs.
  { rewrite Qabs_Qmult, (Qabs_pos (2 ^ e)) by lra.
    unfold Qabs, inject_Z. reflexivity. }
  destruct (Z.eq_dec (Z.abs n) (2 ^ 53)%Z) as [Htop | Hbelow].
  - apply (binary64_exact _ (n / 2) (e + 1)).
    + apply ulp_exponent_le; [lia |]. rewrite Habs, Htop, <- H53.
      replace (e + 1 + 53)%Z with (e + (53 + 1))%Z by lia.
      rewrite !pow2_add. change (2 ^ 1) with 2. lra.
    + rewrite pow2_add. change (2 ^ 1) with 2.
      assert (n = 2 * (n / 2))%Z as Heven.
      { destruct (Z.abs_spec n) as [[_ Hpos] | [_ Hneg]].
        - rewrite Hpos in Htop. rewrite Htop. reflexivity.
        - assert (n = - 2 ^ 53)%Z as -> by lia. reflexivity. }
      rewrite Heven at 1. rewrite inject_Z_mult.
      generalize (2 ^ e) (inject_Z (n / 2)). intros u m. ring.
  - apply (binary64_exact _ n e); [| reflexivity].
    apply ulp_exponent_le; [lia |]. rewrite Habs, pow2_add.
    rewrite (Qmult_comm (2 ^ e)). apply Qmult_lt_r; [exact He |].
    rewrite H53, <- Zlt_Qlt. lia.
Qed.

(** Taking a whole number off a larger double is exact. *)
Lemma binary64_minus_Z (r : Q) (w : Z) :
  Js.binary64 r == r -> 0 <= inject_Z w -> inject_Z w <= r -> r < 2 ^ 53 ->
  Js.binary64 (r - inject_Z w) == r - inject_Z w.
Proof.
  intros Hdouble Hw Hle Hsmall. unfold Js.binary64 in Hdouble.
  set (e := Js.ulp_exponent r) in *.
  set (n := Js.round_half_even (r / 2 ^ e)) in *.
  assert (Qabs r == r) as Habs by (apply Qabs_pos; lra).
  assert (e <= 0)%Z as He.
  { apply ulp_exponent_small. by rewrite Habs. }
  pose proof (ulp_exponent_range r) as Hrange. fold e in Hrange.
  assert (Qabs r < 2 ^ (e + 53)) as Hunits.
  { apply ulp_exponent_lt. rewrite Habs.
    eapply Qlt_trans; [exact Hsmall | reflexivity]. }
  pose proof (pow2_grid e 0 He) as Hgrid. change (2 ^ 0) with 1 in Hgrid.
  apply (binary64_exact _ (n - w * 2 ^ (0 - e)) e).
  - apply ulp_exponent_le; [lia |].
    rewrite Qabs_pos by lra. rewrite Habs in Hunits. lra.
  - unfold Zminus at 1. rewrite inject_Z_plus, inject_Z_opp, inject_Z_mult.
    assert (inject_Z w == inject_Z w * (inject_Z (2 ^ (0 - e)) * 2 ^ e))
      as Hweight by (rewrite <- Hgrid; ring).
    rewrite <- Hdouble at 1. rewrite Hweight at 1.
    generalize (2 ^ e) (inject_Z (2 ^ (0 - e))) (inject_Z n) (inject_Z w).
    intros u v m x. ring.
Qed.

End Binary64.

Module LoadTestFacts.
Import LoadTest.

Local Open Scope Q_scope.

(** The total weight of a table, scenario by scenario. *)
Lemma totalWeight_from (scenarios : list Scenario.t) (sum : Z) :
  fold_left (fun sum scenario => (sum + Scenario.weight scenario)%Z)
    scenarios sum
  = (sum + totalWeight scenarios)%Z.
Proof.
  unfold totalWeight. revert sum.
  induction scenarios as [| scenario rest IH]; intros sum; cbn [fold_left];
    [lia |].
  rewrite (IH (sum + Scenario.weight scenario)%Z),
    (IH (0 + Scenario.weight scenario)%Z). lia.
Qed.

Lemma totalWeight_cons (scenario : Scenario.t) (rest : list Scenario.t) :
  totalWeight (scenario :: rest)
  = (Scenario.weight scenario + totalWeight rest)%Z.
Proof.
  unfold totalWeight at 1. cbn [fold_left]. rewrite totalWeight_from. lia.
Qed.

Lemma totalWeight_nonnegative (scenarios : list Scenario.t) :
  Forall (fun scenario => (0 <= Scenario.weight scenario)%Z) scenarios ->
  (0 <= totalWeight scenarios)%Z.
Proof.
  induction 1 as [| scenario rest Hw _ IH]; [done |].
  rewrite totalWeight_cons. lia.
Qed.

(** The loop of the weighted choice selects a scenario for every number
    from 0 to the total weight, in binary64 as in exact arithmetic: the
    rounded remainder never exceeds the weight that is left. *)
Lemma choose_Some (scenarios : list Scenario.t) (random : Q) :
  Forall (fun scenario => (0 <= Scenario.weight scenario)%Z) scenarios ->
  (totalWeight scenarios < 2 ^ 53)%Z ->
  scenarios <> [] ->
  0 <= random -> random <= inject_Z (totalWeight scenarios) ->
  exists scenario : Scenario.t,
    choose scenarios random = Some scenario /\ In scenario scenarios.
Proof.
  intros Hweights. revert random.
  induction Hweights as [| scenario rest Hw Hrest IH];
    intros random Htotal Hne Hlow Hhigh; [done |].
  rewrite totalWeight_cons in Htotal, Hhigh. rewrite inject_Z_plus in Hhigh.
  pose proof (totalWeight_nonnegative rest Hrest) as Hleft.
  assert (inject_Z (totalWeight rest + Scenario.weight scenario) < 2 ^ 53)
    as Hbound.
  { change (2 ^ 53) with (inject_Z (2 ^ 53)). rewrite <- Zlt_Qlt. lia. }
  rewrite inject_Z_plus in Hbound.
  assert (0 <= inject_Z (Scenario.weight scenario)) as Hw'.
  { change 0 with (inject_Z 0). by rewrite <- Zle_Qle. }
  assert (0 <= inject_Z (totalWeight rest)) as Hleft'.
  { change 0 with (inject_Z 0). by rewrite <- Zle_Qle. }
  cbn [choose].
  set (remainder := Js.binary64 (random - inject_Z (Scenario.weight scenario))).
  assert (remainder <= inject_Z (totalWeight rest)) as Hremainder.
  { apply Binary64.binary64_le_Z; [apply Binary64.Qabs_lt |]; lra. }
  destruct (Qle_bool remainder 0) eqn:Htest.
  - exists scenario. split; [reflexivity | by left].
  - assert (0 < remainder) as Hpositive.
    { apply Qnot_le_lt. intros Hle. apply Qle_bool_iff in Hle. congruence. }
    destruct (IH remainder) as (chosen & Hchosen & Hin).
    + lia.
    + intros ->. change (inject_Z (totalWeight [])) with 0 in Hremainder. lra.
    + lra.
    + exact Hremainder.
    + exists chosen. split; [exact Hchosen | by right].
Qed.

(** The product of a draw and the total weight of the table, rounded, lies
    between 0 and the total weight. *)
Lemma scaled_draw (draw : Q) :
  0 <= draw -> draw < 1 ->
  let random := Js.binary64 (draw * inject_Z (totalWeight TEST_SCENARIOS)) in
  0 <= random /\ random <= inject_Z (totalWeight TEST_SCENARIOS).
Proof.
  intros Hlow Hhigh. change (totalWeight TEST_SCENARIOS) with 100%Z.
  change (inject_Z 100) with 100. cbn zeta.
  assert (Qabs (draw * 100) < 2 ^ 53) as Hsmall.
  { apply Binary64.Qabs_lt.
    - eapply Qlt_le_trans with 0; [reflexivity | lra].
    - eapply Qlt_trans with 100; [lra | reflexivity]. }
  split.
  - change 0 with (inject_Z 0). apply Binary64.binary64_ge_Z; [exact Hsmall |].
    change (inject_Z 0) with 0. lra.
  - change 100 with (inject_Z 100) at 2.
    apply Binary64.binary64_le_Z; [exact Hsmall |].
    change (inject_Z 100) with 100. lra.
Qed.

(** The index drawn for a list of four messages is an index of the list:
    four times a double below 1 is exact, hence below 4. *)
Lemma drawn_message (messages : list string) (draw : Q) :
  length messages = 4%nat ->
  Js.binary64 draw == draw -> 0 <= draw -> draw < 1 ->
  let i :=
    Qfloor (Js.binary64 (draw * inject_Z (Z.of_nat (length messages)))) in
  exists text : string,
    (if (i <? 0)%Z then None else messages !! Z.to_nat i) = Some text
    /\ In text messages.
Proof.
  intros Hlength Hdouble Hlow Hhigh. rewrite Hlength.
  change (inject_Z (Z.of_nat 4)) with 4.
  assert (Qfloor (Js.binary64 (draw * 4)) = Qfloor (draw * 4)) as ->.
  { apply Qfloor_comp, Binary64.binary64_times_4; [exact Hdouble |].
    apply Binary64.Qabs_lt.
    - eapply Qlt_le_trans with 0; [reflexivity | exact Hlow].
    - eapply Qlt_trans with 1; [exact Hhigh | reflexivity]. }
  cbn zeta.
  assert (0 <= Qfloor (draw * 4) < 4)%Z as Hindex.
  { split.
    - change 0%Z with (Qfloor 0). apply Qfloor_resp_le. lra.
    - rewrite Zlt_Qlt. eapply Qle_lt_trans; [apply Qfloor_le |].
      change (inject_Z 4) with 4. lra. }
  destruct (Z.ltb_spec (Qfloor (draw * 4)) 0) as [? | _]; [lia |].
  destruct (lookup_lt_is_Some_2 messages (Z.to_nat (Qfloor (draw * 4))))
    as [text Htext]; [lia |].
  exists text. split; [exact Htext |].
  apply list_elem_of_In, list_elem_of_lookup. eauto.
Qed.

Section Facts.
Context `{Random W}.

(** C10. [getRandomScenario] returns a scenario of the table with one of
    its messages: the loop of the weighted choice, computed in binary64,
    selects a scenario for every draw, so that the return after the loop is
    not reached. *)
Theorem getRandomScenario_from_table (w : W) :
  exists (scenario : Scenario.t) (text : string),
    choose TEST_SCENARIOS
      (Js.binary64
         ((Math_random w).1 * inject_Z (totalWeight TEST_SCENARIOS)))
    = Some scenario
    /\ In scenario TEST_SCENARIOS
    /\ In text (Scenario.messages scenario)
    /\ (getRandomScenario w).1
       = {| Selection.category := Scenario.category scenario;
            Selection.message := Some text |}.
Proof.
  destruct (Math_random_range w) as [Hlo Hhi].
  destruct (scaled_draw (Math_random w).1 Hlo Hhi) as [Hlow Hhigh].
  destruct (choose_Some TEST_SCENARIOS _ ltac:(repeat constructor; done)
              ltac:(done) ltac:(done) Hlow Hhigh)
    as (scenario & Hchoose & Hin).
  unfold getRandomScenario, mbind, State_bind, mret, State_ret.
  destruct (Math_random w) as [draw w1]. cbn [fst] in *.
  rewrite Hchoose.
  destruct (Math_random_range w1) as [Hlo1 Hhi1].
  pose proof (Math_random_double w1) as Hdouble.
  destruct (Math_random w1) as [index w2]. cbn [fst] in *.
  destruct (drawn_message (Scenario.messages scenario) index)
    as (text & Htext & Hmember); [| exact Hdouble | exact Hlo1 | exact Hhi1 |].
  { cbn [In] in Hin.
    destruct Hin as [<- | [<- | [<- | [<- | [<- | []]]]]]; reflexivity. }
  exists scenario, text. repeat split; try done.
  cbn [fst]. rewrite Htext. reflexivity.
Qed.

End Facts.

End LoadTestFacts.

(** ** Runs on the sample world *)

Module Runs.

Example Math_round_half_up :
  Js.Math_round 3.5%float = 4%float
  /\ Js.Math_round (-2.5)%float = (-2)%float
  /\ Js.Math_round (2 * 0.3)%float = 1%float
  /\ Js.Math_round (10 * 0.3)%float = 3%float.
Proof. repeat split; vm_compute; reflexivity. Qed.

(** An issue without severity in a category of severity 'high': the record
    is tagged 'high', the priority is computed from the default score 4. *)
Example addIssue_without_severity :
  let issue := Issue.mk "mobile_compatibility" None "Menu overlaps" "e" "i" "r" in
  let stored :=
    IssueAnalyzer.enrich IssueAnalyzer.constructor issue "ISSUE-1" "t" in
  EnrichedIssue.severity stored = "high"
  /\ EnrichedIssue.businessPriority stored = 3%float
  /\ EnrichedIssue.title stored = "ℹ️ Mobile Compatibility: Menu overlaps".
Proof. repeat split; vm_compute; reflexivity. Qed.

Example generateIssueId_run :
  (IssueAnalyzer.generateIssueId (Sample.mk [] 1730000000000 [] [])).1
  = "ISSUE-M2R1BZ7K-4FZYO".
Proof. vm_compute. reflexivity. Qed.

(** Only the launcher of the drift framework is on the page. *)
Example getSelector_drift :
  let w := Sample.mk [".drift-open-chat"] 0 [] [] in
  let '(result, this, _) :=
    SelectorManager.getSelector SelectorManager.constructor "widget" "launcher" w in
  result = Js.Return ".drift-open-chat"
  /\ SelectorManager.discoveredSelectors this !! "widget.launcher"
     = Some ".drift-open-chat".
Proof. vm_compute. split; reflexivity. Qed.

(** The primary selector is on the page together with a later tier. *)
Example getSelector_primary :
  let w := Sample.mk [".chat-launcher"; Js.attr "data-test-id" "chat-launcher";
                      ".intercom-launcher"] 0 [] [] in
  let '(result, this, _) :=
    SelectorManager.getSelector SelectorManager.constructor "widget" "launcher" w in
  result = Js.Return (Js.attr "data-test-id" "chat-launcher")
  /\ SelectorManager.discoveredSelectors this !! "widget.launcher" = None.
Proof. vm_compute. split; reflexivity. Qed.

Example isChatbotOpen_run :
  (ChatbotHelper.isChatbotOpen
     (Sample.mk [Js.attr "contenteditable" "true"] 0 [] [])).1 = true
  /\ (ChatbotHelper.isChatbotOpen (Sample.mk ["textarea"] 0 [] [])).1 = false.
Proof. vm_compute. split; reflexivity. Qed.

(** A message typed in a page with a text area and no send button: Enter is
    pressed, the message is recorded and the three readings of the clock
    follow the first one. *)
Example sendMessage_run :
  let w := Sample.mk ["textarea"] 5 [] [] in
  let '(result, this, w') :=
    ChatbotHelper.sendMessage ChatbotHelper.constructor [72; 105]%N w in
  result = Js.Return (ChatbotHelper.Elapsed 3)
  /\ ChatbotHelper.messageHistory this = [Message.mk "user" [72; 105]%N 6]
  /\ ChatbotHelper.lastMessageTimestamp this = 7%Z
  /\ Sample.clock w' = 9%Z.
Proof. vm_compute. repeat split; reflexivity. Qed.

Example sendMessage_no_input_field :
  (ChatbotHelper.sendMessage ChatbotHelper.constructor [72; 105]%N
     (Sample.mk [] 5 [] [])).1.1
  = Js.Throw (Js.Error "Failed to send message: Could not find input field").
Proof. vm_compute. reflexivity. Qed.

(** The rounding on rational values gives what the binary64 arithmetic of
    [PrimFloat] gives, here on the literals and on a product, a sum and a
    difference of the kind the load script computes. *)
Example binary64_as_PrimFloat :
  Qeq_bool (Js.binary64 (9 # 10)) (Js.exact 0.9) = true
  /\ Qeq_bool (Js.binary64 (3 # 10)) (Js.exact 0.3) = true
  /\ Qeq_bool (Js.binary64 (Js.exact 0.9 * 100)) (Js.exact (0.9 * 100)) = true
  /\ Qeq_bool (Js.exact (0.9 * 100)) 90 = true
  /\ Qeq_bool (Js.binary64 (Js.exact 0.3333333333333333 * 3))
              (Js.exact (0.3333333333333333 * 3)) = true
  /\ Qeq_bool (Js.binary64 (Js.exact 0.1 + Js.exact 0.2))
              (Js.exact (0.1 + 0.2)) = true
  /\ Qeq_bool (Js.binary64 (Js.exact 10.000000000000002 - 30))
              (Js.exact (10.000000000000002 - 30)) = true
  /\ Qeq_bool (Js.binary64 (Js.exact 5e-324 * (1 # 2)))
              (Js.exact (5e-324 * 0.5)) = true.
Proof. repeat split; vm_compute; reflexivity. Qed.

Example getRandomScenario_run :
  (LoadTest.getRandomScenario (Sample.mk [] 0 [31 # 100; 1 # 2] [])).1
  = Selection.mk "pricing_inquiry" (Some "I want to know about pricing")
  /\ (LoadTest.getRandomScenario (Sample.mk [] 0 [3 # 10; 99 # 100] [])).1
     = Selection.mk "greeting" (Some "Hey").
Proof. vm_compute. split; reflexivity. Qed.

End Runs.

(** * Further properties of the code *)

From Stdlib Require Import Sorted.

Local Open Scope list_scope.

(** ** [Array.prototype.sort] as modelled by [Js.sort] *)

Section Sort.
Context {A : Type} (after : A -> A -> bool).

Lemma sort_insert_perm (x : A) (l : list A) :
  Js.sort_insert after x l ≡ₚ x :: l.
Proof.
  induction l as [| y l IH]; cbn [Js.sort_insert]; [reflexivity |].
  destruct (after x y); [| reflexivity].
  rewrite IH. apply Permutation_swap.
Qed.

Lemma sort_perm (l : list A) : Js.sort after l ≡ₚ l.
Proof.
  induction l as [| x l IH]; [reflexivity |].
  unfold Js.sort in *. cbn [foldr].
  rewrite sort_insert_perm. by rewrite IH.
Qed.

(** Insertion keeps a list sorted for a relation [R] that the comparator
    decides on the elements that satisfy [P]. *)
Context (P : A -> Prop) (R : A -> A -> Prop).
Hypothesis before : forall a b, P a -> P b -> after a b = false -> R a b.
Hypothesis behind : forall a b, P a -> P b -> after a b = true -> R b a.
Hypothesis chain :
  forall a b c, P a -> P b -> P c -> R a b -> R b c -> R a c.

Lemma sort_insert_sorted (x : A) (l : list A) :
  P x -> Forall P l ->
  StronglySorted R l -> StronglySorted R (Js.sort_insert after x l).
Proof.
  intros Hx Hl Hsorted.
  induction Hsorted as [| y l Hsorted IH Hy]; cbn [Js.sort_insert].
  - repeat constructor.
  - apply Forall_cons in Hl as [HPy HPl].
    destruct (after x y) eqn:Hafter.
    + constructor; [by apply IH |].
      rewrite (sort_insert_perm x l). constructor; [by apply behind | done].
    + constructor; [by constructor |].
      constructor; [by apply before |].
      rewrite Forall_forall in Hy, HPl. apply Forall_forall.
      intros z Hz. apply (chain x y z); auto.
Qed.

Lemma sort_sorted (l : list A) :
  Forall P l -> StronglySorted R (Js.sort after l).
Proof.
  induction 1 as [| x l Hx Hl IH]; [constructor |].
  unfold Js.sort in *. cbn [foldr].
  apply sort_insert_sorted; [done | | done].
  fold (Js.sort after l). by rewrite sort_perm.
Qed.

(** A list that the comparator finds in order is left as it is. *)
Lemma sort_in_order (l : list A) :
  StronglySorted (fun a b => after a b = false) l -> Js.sort after l = l.
Proof.
  induction 1 as [| x l Hsorted IH Hx]; [reflexivity |].
  unfold Js.sort in *. cbn [foldr]. rewrite IH.
  destruct Hx as [| y l' Hxy _]; [reflexivity |].
  cbn [Js.sort_insert]. by rewrite Hxy.
Qed.

End Sort.

Module IssueAnalyzerMore.
Import IssueAnalyzer.

Ltac enum10 z :=
  let H := fresh in
  assert (z = 1 \/ z = 2 \/ z = 3 \/ z = 4 \/ z = 5 \/ z = 6 \/ z = 7
          \/ z = 8 \/ z = 9 \/ z = 10)%Z as H by lia;
  destruct H as [-> | [-> | [-> | [-> | [-> | [-> | [-> | [-> | [-> | ->]]]]]]]]].

(** On the whole numbers from 1 to 10 the comparisons of binary64 are those
    of the integers. *)
Lemma ltb_Z_to_float (a b : Z) :
  (1 <= a <= 10)%Z -> (1 <= b <= 10)%Z ->
  PrimFloat.ltb (Js.Z_to_float a) (Js.Z_to_float b) = (a <? b)%Z.
Proof. intros Ha Hb. enum10 a; enum10 b; vm_compute; reflexivity. Qed.

Lemma leb_Z_to_float (a b : Z) :
  (1 <= a <= 10)%Z -> (1 <= b <= 10)%Z ->
  PrimFloat.leb (Js.Z_to_float a) (Js.Z_to_float b) = (a <=? b)%Z.
Proof. intros Ha Hb. enum10 a; enum10 b; vm_compute; reflexivity. Qed.

(** The priority is a whole number from 1 to 10 for every issue whose
    severity and category are no names inherited from [Object.prototype]. *)
Lemma priority_whole (issue : Issue.t) :
  Js.inherited (Js.key (Issue.severity issue)) = false ->
  Js.inherited (Issue.category issue) = false ->
  exists z : Z,
    calculateBusinessPriority issue = Js.Z_to_float z /\ (1 <= z <= 10)%Z.
Proof.
  intros Hsev Hcat. eexists.
  split; [by apply IssueAnalyzerFacts.calculateBusinessPriority_spec |].
  destruct issue as [cat sev d e i r]. cbn [Issue.severity Issue.category].
  unfold PrioritySpec.categoryMultiplier, PrioritySpec.categoryMultipliers,
    PrioritySpec.severityScore.
  rewrite lookup_table_get. cbn [Js.get].
  destruct sev as [sev |].
  - severity_cases sev; category_cases cat; vm_compute; split; discriminate.
  - category_cases cat; vm_compute; split; discriminate.
Qed.

(** NaN is none of the whole numbers from 1 to 10. *)
Lemma NaN_not_whole (z : Z) :
  (1 <= z <= 10)%Z -> PrimFloat.nan <> Js.Z_to_float z.
Proof.
  intros Hz Heq. apply (f_equal PrimFloat.is_nan) in Heq.
  enum10 z; vm_compute in Heq; discriminate.
Qed.

(** X1. [calculateBusinessPriority] gives a whole number from 1 to 10,
    never 0 or a fraction, for every severity (also none or an unknown one)
    and every category that are not names inherited from
    [Object.prototype], so that the priority compares with 7 as the integer
    does; for an inherited name as severity or category it gives NaN. A
    critical issue of the categories 'core_functionality' and 'security'
    gets 10. *)
Theorem businessPriority_whole_or_NaN (issue : Issue.t) :
  (if Js.inherited (Js.key (Issue.severity issue))
      || Js.inherited (Issue.category issue)
   then calculateBusinessPriority issue = PrimFloat.nan
   else exists z : Z,
          calculateBusinessPriority issue = Js.Z_to_float z
          /\ (1 <= z <= 10)%Z
          /\ PrimFloat.leb 7 (calculateBusinessPriority issue) = (7 <=? z)%Z)
  /\ (Issue.severity issue = Some "critical" ->
      Issue.category issue = "core_functionality"
      \/ Issue.category issue = "security" ->
      calculateBusinessPriority issue = 10%float).
Proof.
  split.
  - destruct (Js.inherited (Js.key (Issue.severity issue))) eqn:Hsev;
      [apply IssueAnalyzerFacts.calculateBusinessPriority_NaN; by left |].
    destruct (Js.inherited (Issue.category issue)) eqn:Hcat;
      [apply IssueAnalyzerFacts.calculateBusinessPriority_NaN; by right |].
    cbn [orb].
    destruct (priority_whole issue Hsev Hcat) as (z & Hz & Hrange).
    exists z. split; [exact Hz |]. split; [exact Hrange |].
    rewrite Hz. change 7%float with (Js.Z_to_float 7).
    apply leb_Z_to_float; lia.
  - intros Hcritical Hcat.
    rewrite IssueAnalyzerFacts.calculateBusinessPriority_spec.
    + rewrite Hcritical. destruct Hcat as [-> | ->]; vm_compute; reflexivity.
    + rewrite Hcritical. reflexivity.
    + destruct Hcat as [-> | ->]; reflexivity.
Qed.

(** X24. For a category that is no name inherited from [Object.prototype],
    [estimateFixTime] and [estimateAffectedUsers] are pure lookups: the
    result is the entry of the category in the fixed table, or the default
    '4-8 hours', respectively '10-30%', when the table has no entry for it.
    Two issues of the same category, whatever it is, get the same
    estimates. *)
Theorem estimates_are_category_lookups (issue : Issue.t) :
  Js.inherited (Issue.category issue) = false ->
  estimateFixTime issue
  = Js.Value (default "4-8 hours" (timeEstimates !! Issue.category issue))
  /\ estimateAffectedUsers issue
     = Js.Value
         (default "10-30%" (affectedPercentages !! Issue.category issue))
  /\ (forall first second : Issue.t,
        Issue.category first = Issue.category second ->
        estimateFixTime first = estimateFixTime second
        /\ estimateAffectedUsers first = estimateAffectedUsers second).
Proof.
  intros Hcat.
  rewrite IssueAnalyzerFacts.estimateFixTime_lookup,
    IssueAnalyzerFacts.estimateAffectedUsers_lookup, Hcat.
  split; [reflexivity |]. split; [reflexivity |].
  intros first second Hsame.
  rewrite !IssueAnalyzerFacts.estimateFixTime_lookup,
    !IssueAnalyzerFacts.estimateAffectedUsers_lookup, Hsame.
  split; reflexivity.
Qed.

(** ** The list of issues *)

Lemma filter_shorter {A : Type} (P : A -> Prop) `{forall x, Decision (P x)}
    (l : list A) :
  length (filter P l) < length l <-> Exists (fun x => ~ P x) l.
Proof.
  induction l as [| x l IH].
  - cbn. split; [lia | by inversion 1].
  - rewrite filter_cons. destruct (decide (P x)) as [HP | HP].
    + cbn [length]. rewrite Exists_cons. split.
      * intros Hlt. right. apply IH. lia.
      * intros [Hx | Hl]; [done |]. apply IH in Hl. lia.
    + rewrite Exists_cons. split; [by left |].
      intros _. pose proof (length_filter P l). cbn [length]. lia.
Qed.

Lemma filter_same_length {A : Type} (P : A -> Prop)
    `{forall x, Decision (P x)} (l : list A) :
  length l <= length (filter P l) -> filter P l = l.
Proof.
  induction l as [| x l IH]; [reflexivity |].
  rewrite filter_cons. pose proof (length_filter P l).
  destruct (decide (P x)); cbn [length]; intros Hlen.
  - f_equal. apply IH. lia.
  - lia.
Qed.

(** X2. [removeIssue] answers [true] exactly when a record has the id; it
    keeps the records of every other id, in their order, removes every
    record of the id, and leaves the analyzer as it is when it answers
    [false]. *)
Theorem removeIssue_removes (this : t) (issueId : string) :
  let removed := (removeIssue this issueId).1 in
  let this' := (removeIssue this issueId).2 in
  (removed = true
   <-> Exists (fun issue => EnrichedIssue.id issue = issueId) (issues this))
  /\ Forall (fun issue => EnrichedIssue.id issue <> issueId) (issues this')
  /\ issues this' `sublist_of` issues this
  /\ (forall issue : EnrichedIssue.t,
        issue ∈ issues this -> EnrichedIssue.id issue <> issueId ->
        issue ∈ issues this')
  /\ categories this' = categories this
  /\ (removed = false -> this' = this).
Proof.
  intros removed this'. subst removed this'. unfold removeIssue.
  cbn [fst snd issues categories].
  assert (length (filter (fun issue => EnrichedIssue.id issue <> issueId)
                         (issues this)) < length (issues this)
          <-> Exists (fun issue => EnrichedIssue.id issue = issueId)
                     (issues this)) as Hshorter.
  { rewrite filter_shorter. split; intros Hex.
    - eapply Exists_impl; [exact Hex |]. intros issue Hnn. cbn in Hnn.
      by destruct (decide (EnrichedIssue.id issue = issueId)).
    - eapply Exists_impl; [exact Hex |]. intros issue Hid. cbn. by auto. }
  split; [| split; [| split; [| split; [| split]]]].
  - rewrite <- Hshorter. apply Nat.ltb_lt.
  - apply Forall_forall. intros issue Hin.
    by apply list_elem_of_filter in Hin as [Hne _].
  - apply sublist_filter.
  - intros issue Hin Hne. by apply list_elem_of_filter.
  - reflexivity.
  - intros Hkept. apply Nat.ltb_ge in Hkept.
    destruct this as [records cats]. cbn [issues categories] in *.
    f_equal. by apply filter_same_length.
Qed.

Section AddIssueMore.
Context `{Runtime W}.

(** X3. Adding an issue and removing the id that [addIssue] returned gives
    back the analyzer, when no earlier record carries that id. *)
Theorem addIssue_then_removeIssue (this : t) (issue : Issue.t) (w : W) :
  let issueId := (addIssue this issue w).1.1 in
  let this' := (addIssue this issue w).1.2 in
  Forall (fun earlier => EnrichedIssue.id earlier <> issueId) (issues this) ->
  removeIssue this' issueId = (true, this).
Proof.
  destruct (IssueAnalyzerFacts.addIssue_pushes this issue w)
    as (issueId & timestamp & w' & Heq).
  rewrite Heq. cbn [fst snd]. intros Hfresh.
  unfold removeIssue. cbn [issues categories].
  rewrite filter_app, filter_cons, filter_nil.
  destruct (decide (EnrichedIssue.id (enrich this issue issueId timestamp)
                    <> issueId)) as [Hne | _]; [by destruct Hne |].
  rewrite app_nil_r.
  assert (filter (fun issue0 => EnrichedIssue.id issue0 <> issueId) (issues this)
          = issues this) as Hkeep.
  { clear Heq. induction Hfresh as [| r l Hr _ IH]; [reflexivity |].
    rewrite filter_cons. destruct (decide _); [by rewrite IH | done]. }
  rewrite Hkeep. destruct this as [records cats]. cbn [issues categories].
  f_equal. apply Nat.ltb_lt. rewrite length_app. cbn [length]. lia.
Qed.

(** X4. After [addIssue] the new record is the last answer of
    [getIssuesByCategory] for its category and of [getIssuesBySeverity] for
    its severity; the answers for every other category and severity are as
    before. *)
Theorem addIssue_then_queries (this : t) (issue : Issue.t) (w : W) :
  let this' := (addIssue this issue w).1.2 in
  exists stored : EnrichedIssue.t,
    issues this' = issues this ++ [stored]
    /\ getIssuesByCategory this' (Issue.category issue)
       = getIssuesByCategory this (Issue.category issue) ++ [stored]
    /\ getIssuesBySeverity this' (EnrichedIssue.severity stored)
       = getIssuesBySeverity this (EnrichedIssue.severity stored) ++ [stored]
    /\ (forall category : string,
          category <> Issue.category issue ->
          getIssuesByCategory this' category = getIssuesByCategory this category)
    /\ (forall severity : string,
          severity <> EnrichedIssue.severity stored ->
          getIssuesBySeverity this' severity = getIssuesBySeverity this severity).
Proof.
  destruct (IssueAnalyzerFacts.addIssue_pushes this issue w)
    as (issueId & timestamp & w' & Heq).
  rewrite Heq. cbn [fst snd].
  exists (enrich this issue issueId timestamp).
  unfold getIssuesByCategory, getIssuesBySeverity. cbn [issues].
  split; [reflexivity |].
  repeat split; intros; rewrite filter_app, filter_cons, filter_nil;
    destruct (decide _) as [Heq' | Hne']; try reflexivity;
    try (by rewrite app_nil_r); try done.
Qed.

(** X5. The priorities stay whole numbers from 1 to 10: the new analyzer
    has only such records; [removeIssue] and [clearIssues] keep it so, and
    [addIssue] does for an issue whose severity and category are no names
    inherited from [Object.prototype]. An issue whose category or severity
    is such a name is recorded with the priority NaN. *)
Theorem scored_is_kept (this : t) (issue : Issue.t) (issueId : string) (w : W) :
  scored IssueAnalyzer.constructor
  /\ (scored this ->
      (Js.inherited (Js.key (Issue.severity issue)) = false ->
       Js.inherited (Issue.category issue) = false ->
       scored (addIssue this issue w).1.2)
      /\ (Js.inherited (Js.key (Issue.severity issue)) = true
          \/ Js.inherited (Issue.category issue) = true ->
          ~ scored (addIssue this issue w).1.2)
      /\ scored (removeIssue this issueId).2
      /\ scored (clearIssues this)).
Proof.
  split; [constructor |]. intros Hscored.
  destruct (IssueAnalyzerFacts.addIssue_pushes this issue w)
    as (newId & timestamp & w' & Heq).
  rewrite Heq. unfold scored at 2 3. cbn [fst snd issues].
  split; [| split; [| split]].
  - intros Hsev Hcat. apply Forall_app. split; [exact Hscored |].
    constructor; [| constructor].
    destruct (priority_whole issue Hsev Hcat) as (z & Hz & Hrange).
    by exists z.
  - intros Hinherited Hall. apply Forall_app in Hall as [_ Hlast].
    apply Forall_cons in Hlast as [(z & Hz & Hrange) _].
    cbn [enrich EnrichedIssue.businessPriority] in Hz.
    rewrite IssueAnalyzerFacts.calculateBusinessPriority_NaN in Hz
      by exact Hinherited.
    by apply (NaN_not_whole z).
  - unfold scored, removeIssue in *. cbn [snd issues].
    rewrite Forall_forall in Hscored. apply Forall_forall.
    intros record Hin. apply list_elem_of_filter in Hin as [_ Hin]. auto.
  - constructor.
Qed.

End AddIssueMore.

Lemma findIndex_none {A : Type} (p : A -> bool) (l : list A) :
  Forall (fun x => p x = false) l -> findIndex p l = None.
Proof.
  induction 1 as [| x l Hx _ IH]; [reflexivity |].
  cbn [findIndex]. by rewrite Hx, IH.
Qed.

Lemma findIndex_first {A : Type} (p : A -> bool) (before after : list A) (x : A) :
  Forall (fun y => p y = false) before -> p x = true ->
  findIndex p (before ++ x :: after) = Some (length before).
Proof.
  induction 1 as [| y before Hy _ IH]; intros Hx; cbn [findIndex app length].
  - by rewrite Hx.
  - by rewrite Hy, IH.
Qed.

(** X6. [updateIssue] changes the first record of the id and no other:
    without such a record it answers [false] and the analyzer is as before;
    otherwise it answers [true] and that record alone is replaced by its
    merge with the updates. Updates without a field change nothing. *)
Theorem updateIssue_first_record (this : t) (issueId : string)
    (updates : Updates.t) :
  (Forall (fun issue => EnrichedIssue.id issue <> issueId) (issues this) ->
   updateIssue this issueId updates = (false, this))
  /\ (forall (before after : list EnrichedIssue.t) (record : EnrichedIssue.t),
        issues this = before ++ record :: after ->
        Forall (fun issue => EnrichedIssue.id issue <> issueId) before ->
        EnrichedIssue.id record = issueId ->
        updateIssue this issueId updates
        = (true, {| issues := before ++ merge record updates :: after;
                    categories := categories this |}))
  /\ (forall record : EnrichedIssue.t,
        merge record
          (Updates.mk None None None None None None None None None None None None)
        = record).
Proof.
  split; [| split].
  - intros Habsent. unfold updateIssue. rewrite findIndex_none; [done |].
    eapply Forall_impl; [exact Habsent |].
    intros issue Hne. by apply String.eqb_neq.
  - intros before after record Hissues Hbefore Hid.
    unfold updateIssue. rewrite Hissues.
    rewrite (findIndex_first _ before after record).
    + rewrite list_lookup_middle by done.
      f_equal. f_equal. rewrite insert_app_r_alt by lia.
      by rewrite Nat.sub_diag.
    + eapply Forall_impl; [exact Hbefore |].
      intros issue Hne. by apply String.eqb_neq.
    + by apply String.eqb_eq.
  - by intros [].
Qed.

(** X7. In an analyzer whose priorities are whole numbers from 1 to 10,
    [getHighPriorityIssues] answers the records of priority 7 or more, each
    as often as it is recorded, from the highest priority to the lowest. *)
Theorem getHighPriorityIssues_sorted (this : t) :
  scored this ->
  let result := getHighPriorityIssues this in
  StronglySorted
    (fun a b =>
       PrimFloat.leb (EnrichedIssue.businessPriority b)
                     (EnrichedIssue.businessPriority a) = true)
    result
  /\ result
     ≡ₚ List.filter
          (fun issue => PrimFloat.leb 7 (EnrichedIssue.businessPriority issue))
          (issues this)
  /\ (forall issue : EnrichedIssue.t,
        In issue result
        <-> In issue (issues this)
            /\ PrimFloat.leb 7 (EnrichedIssue.businessPriority issue) = true).
Proof.
  intros Hscored result. subst result. unfold getHighPriorityIssues.
  set (high := List.filter _ (issues this)).
  assert (Forall (fun issue =>
                    exists z : Z,
                      EnrichedIssue.businessPriority issue = Js.Z_to_float z
                      /\ (1 <= z <= 10)%Z) high) as Hhigh.
  { unfold scored in Hscored. rewrite Forall_forall in Hscored.
    apply Forall_forall. intros issue Hin.
    apply list_elem_of_In, filter_In in Hin as [Hin _].
    by apply Hscored, list_elem_of_In. }
  split; [| split].
  - eapply sort_sorted; [| | | exact Hhigh].
    + intros a b (za & Ha & Hza) (zb & Hb & Hzb) Hlt.
      rewrite Ha, Hb in *. rewrite ltb_Z_to_float in Hlt by done.
      rewrite leb_Z_to_float by done. lia.
    + intros a b (za & Ha & Hza) (zb & Hb & Hzb) Hlt.
      rewrite Ha, Hb in *. rewrite ltb_Z_to_float in Hlt by done.
      rewrite leb_Z_to_float by done. lia.
    + intros a b c (za & Ha & Hza) (zb & Hb & Hzb) (zc & Hc & Hzc).
      rewrite Ha, Hb, Hc. rewrite !leb_Z_to_float by done. lia.
  - apply sort_perm.
  - intros issue. split.
    + intros Hin. apply (Permutation_in _ (sort_perm _ high)) in Hin.
      by apply filter_In in Hin.
    + intros Hin. apply (Permutation_in _ (Permutation_sym (sort_perm _ high))).
      by apply filter_In.
Qed.

Lemma lower_priority_ranks (a b : Recommendation.t) (ra rb : Z) :
  priorityOrder !! Recommendation.priority a = Some ra ->
  priorityOrder !! Recommendation.priority b = Some rb ->
  lower_priority a b = (0 <? rb - ra)%Z.
Proof. intros Ha Hb. unfold lower_priority. by rewrite Ha, Hb. Qed.

(** X8. [generateRecommendations] gives at most four recommendations, in
    the order IMMEDIATE, HIGH, MEDIUM, MEDIUM, which its final sort leaves
    as they were pushed; the IMMEDIATE one is there exactly when a record is
    critical, and an analyzer without issues gets none. *)
Theorem generateRecommendations_order (this : t) :
  let priorities :=
    map Recommendation.priority (generateRecommendations this) in
  priorities `sublist_of` ["IMMEDIATE"; "HIGH"; "MEDIUM"; "MEDIUM"]
  /\ (In "IMMEDIATE" priorities <-> getCriticalIssues this <> [])
  /\ (In "HIGH" priorities <-> getHighPriorityIssues this <> [])
  /\ (issues this = [] -> generateRecommendations this = []).
Proof.
  intros priorities. subst priorities. unfold generateRecommendations.
  assert (forall l : list EnrichedIssue.t,
             Nat.ltb 0 (length l) = true <-> l <> []) as Hnonempty.
  { intros [| x l]; cbn; split; try done. }
  assert (issues this = [] ->
          getCriticalIssues this = [] /\ getHighPriorityIssues this = []
          /\ getIssuesByCategory this "response_quality" = []
          /\ getIssuesByCategory this "accessibility" = []) as Hempty.
  { unfold getCriticalIssues, getIssuesBySeverity, getHighPriorityIssues,
      getIssuesByCategory. intros ->. done. }
  pose proof (Hnonempty (getCriticalIssues this)) as Hcritical.
  pose proof (Hnonempty (getHighPriorityIssues this)) as Hhigh.
  rewrite <- Hcritical, <- Hhigh.
  set (critical := getCriticalIssues this) in *.
  set (high := getHighPriorityIssues this) in *.
  set (quality := getIssuesByCategory this "response_quality") in *.
  set (accessibility := getIssuesByCategory this "accessibility") in *.
  assert (priorityOrder !! "IMMEDIATE" = Some 3%Z) as Himmediate by reflexivity.
  assert (priorityOrder !! "HIGH" = Some 2%Z) as Hhighrank by reflexivity.
  assert (priorityOrder !! "MEDIUM" = Some 1%Z) as Hmedium by reflexivity.
  rewrite sort_in_order.
  - destruct (Nat.ltb 0 (length critical)) eqn:H1;
      destruct (Nat.ltb 0 (length high)) eqn:H2;
      destruct (Nat.ltb 0 (length quality)) eqn:H3;
      destruct (Nat.ltb 0 (length accessibility)) eqn:H4;
      cbn [app map Recommendation.priority In];
      (split; [repeat first [apply sublist_nil | apply sublist_skip
                             | apply sublist_cons] |]); (split; [intuition congruence |]);
      (split; [intuition congruence |]);
      intros Hnone; destruct (Hempty Hnone) as (E1 & E2 & E3 & E4);
      rewrite ?E1, ?E2, ?E3, ?E4 in *; cbn in *; congruence.
  - destruct (Nat.ltb 0 (length critical));
      destruct (Nat.ltb 0 (length high));
      destruct (Nat.ltb 0 (length quality));
      destruct (Nat.ltb 0 (length accessibility));
      cbn [app];
      repeat (constructor;
              [| repeat (constructor;
                         [eapply eq_trans;
                          [eapply lower_priority_ranks; cbn [Recommendation.priority];
                           eassumption | reflexivity] |])]);
      try constructor.
Qed.

Lemma upper_char_twice (c : Ascii.ascii) :
  Js.upper_char (Js.upper_char c) = Js.upper_char c.
Proof. destruct c as [[] [] [] [] [] [] [] []]; reflexivity. Qed.

Lemma toUpperCase_twice (s : string) :
  Js.toUpperCase (Js.toUpperCase s) = Js.toUpperCase s.
Proof.
  unfold Js.toUpperCase. induction s as [| c s IH]; [reflexivity |].
  cbn [Js.map_chars]. by rewrite upper_char_twice, IH.
Qed.

Lemma map_chars_app (f : Ascii.ascii -> Ascii.ascii) (s1 s2 : string) :
  Js.map_chars f (s1 +:+ s2) = Js.map_chars f s1 +:+ Js.map_chars f s2.
Proof.
  induction s1 as [| c s1 IH]; [reflexivity |].
  change (Js.map_chars f (String c (s1 +:+ s2))
          = String (f c) (Js.map_chars f s1 +:+ Js.map_chars f s2)).
  cbn [Js.map_chars]. by rewrite IH.
Qed.

Lemma map_chars_length (f : Ascii.ascii -> Ascii.ascii) (s : string) :
  String.length (Js.map_chars f s) = String.length s.
Proof. induction s as [| c s IH]; [reflexivity |]. cbn. by rewrite IH. Qed.

Lemma substring_length_le (n m : nat) (s : string) :
  String.length (String.substring n m s) <= m.
Proof.
  revert n m. induction s as [| c s IH]; intros [| n] [| m]; cbn; try lia.
  - specialize (IH 0 m). lia.
  - apply (IH n 0).
  - apply (IH n (S m)).
Qed.

(** X9. An identifier made by [generateIssueId] is 'ISSUE-', the reading
    of the clock in base 36, a dash and the characters 2 to 6 (five at most)
    of the random text read after it, all in upper case; the clock is read
    once and then the random text once. *)
Theorem generateIssueId_format `{Runtime W} (w : W) :
  let now := Date_now w in
  let fraction := Math_random_toString36 now.2 in
  let timestamp := Js.toUpperCase (Js.toString36 now.1) in
  let random := Js.toUpperCase (String.substring 2 5 fraction.1) in
  generateIssueId w = ("ISSUE-" +:+ timestamp +:+ "-" +:+ random, fraction.2)
  /\ String.length random <= 5
  /\ Js.toUpperCase (generateIssueId w).1 = (generateIssueId w).1.
Proof.
  unfold generateIssueId, mbind, State_bind, mret, State_ret.
  destruct (Date_now w) as [now w1]. cbn [fst snd].
  destruct (Math_random_toString36 w1) as [fraction w2]. cbn [fst snd].
  split; [| split].
  - unfold Js.toUpperCase. rewrite !map_chars_app. reflexivity.
  - unfold Js.toUpperCase. rewrite map_chars_length.
    apply substring_length_le.
  - apply toUpperCase_twice.
Qed.

End IssueAnalyzerMore.

Module SelectorManagerMore.
Import SelectorManager.

Section Resolution.
Context `{Page W}.

(** The resolution in two steps: the primary selector, then the in-order
    trial of the five other tiers, whose success is recorded. *)
Lemma getSelector_steps (this : t) (category element : string) (w : W) :
  getSelector this category element w
  = match working (HUBSPOT_SELECTORS.object !! category
                   ≫= (fun selectors => selectors !! element)) w with
    | (Some selector, w1) => (Js.Return selector, this, w1)
    | (None, w1) =>
        match firstWorking (tail (tiers category element)) w1 with
        | (Some selector, w2) =>
            (Js.Return selector, remember this category element selector, w2)
        | (None, w2) =>
            (Js.Throw (Js.Error ("No working selector found for "
                                 +:+ category +:+ "." +:+ element)),
             this, w2)
        end
    end.
Proof.
  unfold getSelector, tiers. cbn [tail].
  rewrite SelectorManagerFacts.tryAlternatives_firstWorking.
  change (map _ ALTERNATIVE_SELECTORS.entries)
    with [ ALTERNATIVE_SELECTORS.intercom !! element;
           ALTERNATIVE_SELECTORS.drift !! element;
           ALTERNATIVE_SELECTORS.zendesk !! element;
           ALTERNATIVE_SELECTORS.generic !! element ].
  cbn [firstWorking].
  generalize (@working W _). intros trial.
  unfold mbind, State_bind, mret, State_ret.
  repeat match goal with
         | |- context [trial ?v ?w0] =>
             destruct (trial v w0) as [[? |] ?]; cbn [fst snd]
         end; reflexivity.
Qed.

Lemma working_Some (v : option string) (selector : string) (w w' : W) :
  working v w = (Some selector, w') -> v = Some selector.
Proof.
  unfold working. destruct (defined v) as [s |] eqn:Hdef; [| discriminate].
  unfold mbind, State_bind, mret, State_ret.
  destruct (isElementVisible s w) as [[|] w1]; [| discriminate].
  intros [= -> ->]. by apply SelectorManagerFacts.defined_Some.
Qed.

(** X10. What [getSelector] records: when it returns a selector, either
    this is the primary selector of the category and the map of discovered
    selectors is as before, or the selector is recorded under the key
    'category.element' and nothing else changes in the export; when it
    throws, the map is as before. *)
Theorem getSelector_records (this : t) (category element : string) (w : W) :
  match (getSelector this category element w).1 with
  | (Js.Return selector, this') =>
      (this' = this
       /\ HUBSPOT_SELECTORS.object !! category
          ≫= (fun selectors => selectors !! element) = Some selector)
      \/ exportDiscoveredSelectors this'
         = <[category +:+ "." +:+ element := selector]>
             (exportDiscoveredSelectors this)
  | (Js.Throw _, this') => this' = this
  end.
Proof.
  rewrite getSelector_steps.
  destruct (working _ w) as [[selector |] w1] eqn:Hprimary; cbn [fst].
  - left. split; [reflexivity |]. by apply working_Some in Hprimary.
  - destruct (firstWorking _ w1) as [[selector |] w2]; cbn [fst].
    + right. reflexivity.
    + reflexivity.
Qed.

(** On a page whose probes leave the world as it is, so does the trial. *)
Section Still.
Hypothesis still : forall (selector : string) (w : W),
  (first_isVisible selector w).2 = w.

Lemma working_still (v : option string) (w : W) : (working v w).2 = w.
Proof.
  unfold working. destruct (defined v) as [s |]; [| reflexivity].
  unfold isElementVisible, mbind, State_bind, mret, State_ret.
  pose proof (still s w) as Hs.
  destruct (first_isVisible s w) as [r w1]. cbn [snd] in *. by subst.
Qed.

Lemma firstWorking_still (candidates : list (option string)) (w : W) :
  (firstWorking candidates w).2 = w.
Proof.
  induction candidates as [| v rest IH]; [reflexivity |].
  cbn [firstWorking]. unfold mbind, State_bind.
  pose proof (working_still v w) as Hv.
  destruct (working v w) as [[s |] w1]; cbn [snd] in *; subst; [reflexivity |].
  apply IH.
Qed.

(** X11. On a page whose visibility probes leave the world as it is,
    [getSelector] does so too, and asking again, with the manager that the
    first call left, gives the same answer and the same manager. *)
Theorem getSelector_repeatable (this : t) (category element : string) (w : W) :
  (getSelector this category element w).2 = w
  /\ getSelector (getSelector this category element w).1.2 category element w
     = getSelector this category element w.
Proof.
  pose proof (getSelector_steps this category element w) as Hfirst.
  pose proof (working_still
                (HUBSPOT_SELECTORS.object !! category
                 ≫= (fun selectors => selectors !! element)) w) as Hp.
  destruct (working _ w) as [[selector |] w1] eqn:Hprimary;
    cbn [fst snd] in Hp; subst w1.
  - rewrite Hfirst. cbn [fst snd]. split; [reflexivity |].
    by rewrite getSelector_steps, Hprimary.
  - pose proof (firstWorking_still (tail (tiers category element)) w) as Hf.
    destruct (firstWorking _ w) as [[selector |] w2] eqn:Hrest;
      cbn [fst snd] in Hf; subst w2; rewrite Hfirst; cbn [fst snd];
      (split; [reflexivity |]); rewrite getSelector_steps, Hprimary, Hrest.
    + unfold remember. cbn [discoveredSelectors].
      by rewrite insert_insert_eq.
    + reflexivity.
Qed.

End Still.

End Resolution.

Lemma getSelector_repeatable_witness :
  let w := Sample.mk [".zEWidget-launcher"] 0 [] [] in
  let first := getSelector constructor "widget" "launcher" w in
  first.1.1 = Js.Return ".zEWidget-launcher"
  /\ getSelector first.1.2 "widget" "launcher" w = first.
Proof.
  intros w first. split; [vm_compute; reflexivity |].
  apply (getSelector_repeatable (W := Sample.world)).
  reflexivity.
Defined.

End SelectorManagerMore.

Module ChatbotHelperMore.
Import ChatbotHelper.

Section Sending.
Context `{Page W} `{Runtime W}.

(** X12. What [sendMessage] can do to the helper. It resolves to [false]
    only for a message that trims to nothing, and every error it throws is
    'Failed to send message: ' followed by a cause; in both cases the helper
    is as before. When it resolves to a time, the history has grown by
    exactly one entry, of type 'user', with the message as content, and the
    selector manager is as before. *)
Theorem sendMessage_outcomes (this : t) (message : Text.t) (w : W) :
  match (sendMessage this message w).1 with
  | (Js.Return NotSent, this') => this' = this /\ Text.trim message = []
  | (Js.Return (Elapsed _), this') =>
      selectorManager this' = selectorManager this
      /\ exists timestamp : Z,
           messageHistory this'
           = messageHistory this ++ [Message.mk "user" message timestamp]
  | (Js.Throw e, this') =>
      this' = this
      /\ exists cause : string,
           e = Js.Error ("Failed to send message: " +:+ cause)
  end.
Proof.
  unfold sendMessage.
  destruct (Text.falsy message || Nat.eqb (length (Text.trim message)) 0)
    eqn:Hblank.
  - cbn. split; [reflexivity |].
    apply orb_true_iff in Hblank as [Hempty | Hlen].
    + by destruct message.
    + apply Nat.eqb_eq in Hlen. by destruct (Text.trim message).
  - unfold mbind, State_bind, mret, State_ret, failed.
    destruct (Date_now w) as [startTime w1].
    destruct (findInputField inputSelectors w1) as [[field |] w2];
      [| cbn; eauto].
    destruct (first_clear field w2) as [[[] | e] w3]; [| cbn; eauto].
    destruct (first_fill field message w3) as [[[] | e] w4]; [| cbn; eauto].
    destruct (clickSend sendSelectors w4) as [[|] w5].
    + destruct (Date_now w5) as [pushed w6].
      destruct (Date_now w6) as [last w7].
      destruct (Date_now w7) as [finish w8]. cbn. eauto.
    + destruct (first_press field "Enter" w5) as [[[] | e] w6];
        [| cbn; eauto].
      destruct (Date_now w6) as [pushed w7].
      destruct (Date_now w7) as [last w8].
      destruct (Date_now w8) as [finish w9]. cbn. eauto.
Qed.

End Sending.

Section Widget.
Context `{Page W} `{Runtime W} `{Browser W}.

Lemma settle_Some (pause : Z) (check : State W bool) (startTime elapsed : Z)
    (w w' : W) :
  settle pause check startTime w = (Some elapsed, w') ->
  checked_at check startTime elapsed w'.
Proof.
  unfold settle, mbind, State_bind, mret, State_ret.
  destruct (waitForTimeout pause w) as [[[] | e] w1]; [| discriminate].
  destruct (check w1) as [[|] w2] eqn:Hcheck; [| discriminate].
  destruct (Date_now w2) as [now w3] eqn:Hnow.
  intros [= <- <-]. by exists w1, w2, now.
Qed.

Lemma tryLaunchers_Some (startTime elapsed : Z) (selectors : list string)
    (w w' : W) :
  tryLaunchers startTime selectors w = (Some elapsed, w') ->
  checked_at isChatbotOpen startTime elapsed w'.
Proof.
  revert w. induction selectors as [| selector rest IH]; intros w;
    [discriminate |].
  cbn [tryLaunchers]. unfold mbind, State_bind, mret, State_ret.
  destruct (first_isVisible selector w) as [[[|] | e] w1]; try apply IH.
  destruct (first_click selector w1) as [[[] | e] w2]; try apply IH.
  destruct (settle 2000 isChatbotOpen startTime w2) as [[t |] w3] eqn:Hsettle;
    try apply IH.
  intros [= <- <-]. by eapply settle_Some.
Qed.

Lemma tryFrames_Some (startTime elapsed : Z) (rank count : nat) (w w' : W) :
  tryFrames startTime rank count w = (Some elapsed, w') ->
  checked_at isChatbotOpen startTime elapsed w'.
Proof.
  revert rank w. induction count as [| count IH]; intros rank w;
    [discriminate |].
  cbn [tryFrames]. unfold mbind, State_bind, mret, State_ret.
  destruct (nth_getAttribute "iframe" rank "src" w) as [[s | e] w1];
    try apply IH.
  destruct (nth_getAttribute "iframe" rank "title" w1) as [[t | e] w2];
    try apply IH.
  destruct (_ || _); try apply IH.
  destruct (nth_click "iframe" rank w2) as [[[] | e] w3]; try apply IH.
  destruct (settle 2000 isChatbotOpen startTime w3) as [[t' |] w4] eqn:Hsettle;
    try apply IH.
  intros [= <- <-]. by eapply settle_Some.
Qed.

(** X13. [openChatbot] resolves only after [isChatbotOpen] has answered
    [true]: the time it resolves to is the reading of the clock that follows
    that answer, minus the reading at the start. Every error it throws is
    'Failed to open chatbot after', a number of milliseconds, and a
    cause. *)
Theorem openChatbot_checked (w : W) :
  match openChatbot w with
  | (Js.Return elapsed, w') =>
      checked_at isChatbotOpen (Date_now w).1 elapsed w'
  | (Js.Throw e, _) =>
      exists (milliseconds : Z) (cause : string),
        e = Js.Error ("Failed to open chatbot after "
                      +:+ pretty milliseconds +:+ "ms: " +:+ cause)
  end.
Proof.
  unfold openChatbot, openFailed, mbind, State_bind, mret, State_ret.
  destruct (Date_now w) as [startTime w1]. cbn [fst].
  destruct (tryLaunchers startTime launcherSelectors w1) as [[t |] w2]
    eqn:Hlaunch.
  { by eapply tryLaunchers_Some. }
  destruct (locator_all "iframe" w2) as [[count | e] w3].
  - destruct (tryFrames startTime 0 count w3) as [[t |] w4] eqn:Hframes.
    + by eapply tryFrames_Some.
    + destruct (Date_now w4) as [now w5]. eauto.
  - destruct (Date_now w3) as [now w4]. eauto.
Qed.

Lemma tryCloseButtons_Some (startTime elapsed : Z) (selectors : list string)
    (w w' : W) :
  tryCloseButtons startTime selectors w = (Some elapsed, w') ->
  checked_at isChatbotClosed startTime elapsed w'.
Proof.
  revert w. induction selectors as [| selector rest IH]; intros w;
    [discriminate |].
  cbn [tryCloseButtons]. unfold mbind, State_bind, mret, State_ret.
  destruct (locator_isVisible selector w) as [[[|] | e] w1]; try apply IH.
  destruct (locator_click selector w1) as [[[] | e] w2]; try apply IH.
  destruct (settle 1000 isChatbotClosed startTime w2) as [[t |] w3]
    eqn:Hsettle; try apply IH.
  intros [= <- <-]. by eapply settle_Some.
Qed.

(** X14. [closeChatbot] resolves only after [isChatbotClosed] has answered
    [true], that is after [isChatbotOpen] has answered [false], and to the
    time read next minus the time read at the start. Every error it throws
    is 'Failed to close chatbot: ' followed by a cause. *)
Theorem closeChatbot_checked (w : W) :
  match closeChatbot w with
  | (Js.Return elapsed, w') =>
      checked_at isChatbotClosed (Date_now w).1 elapsed w'
      /\ exists (w1 w2 : W), isChatbotOpen w1 = (false, w2)
  | (Js.Throw e, _) =>
      exists cause : string,
        e = Js.Error ("Failed to close chatbot: " +:+ cause)
  end.
Proof.
  assert (forall startTime elapsed w',
             checked_at isChatbotClosed startTime elapsed w' ->
             exists w1 w2 : W, isChatbotOpen w1 = (false, w2)) as Hopen.
  { intros startTime elapsed w' (w1 & w2 & now & Hclosed & _).
    exists w1, w2. revert Hclosed.
    unfold isChatbotClosed, mbind, State_bind, mret, State_ret.
    destruct (isChatbotOpen w1) as [[|] w3]; cbn; congruence. }
  unfold closeChatbot, closeFailed, mbind, State_bind, mret, State_ret.
  destruct (Date_now w) as [startTime w1]. cbn [fst].
  destruct (tryCloseButtons startTime closeSelectors w1) as [[t |] w2]
    eqn:Hbuttons.
  { apply tryCloseButtons_Some in Hbuttons. eauto. }
  destruct (keyboard_press "Escape" w2) as [[[] | e] w3]; [| eauto].
  destruct (waitForTimeout 1000 w3) as [[[] | e] w4]; [| eauto].
  destruct (isChatbotClosed w4) as [[|] w5] eqn:Hclosed; [| eauto].
  destruct (Date_now w5) as [now w6] eqn:Hnow.
  assert (checked_at isChatbotClosed startTime (now - startTime) w6) as Hchecked
    by (by exists w4, w5, now).
  eauto.
Qed.

End Widget.

(** ** The input field *)

Section Input.
Context `{Page W} `{Runtime W}.

Lemma anyVisible_false (selectors : list string) (w : W) :
  (forall (s : string) (w0 : W), (locator_isVisible s w0).2 = w0) ->
  (anyVisible selectors w).1 = false ->
  Forall (fun s => (locator_isVisible s w).1 <> Js.Return true) selectors.
Proof.
  intros Hstill. induction selectors as [| s rest IH]; [constructor |].
  cbn [anyVisible]. unfold mbind, State_bind, mret, State_ret.
  pose proof (Hstill s w) as Hs.
  destruct (locator_isVisible s w) as [[[|] | e] w1] eqn:Hprobe;
    cbn [fst snd] in *; subst w1; try discriminate;
    intros Hrest; (constructor; [by rewrite Hprobe | by apply IH]).
Qed.

Lemma findInputField_None (selectors : list string) (w : W) :
  (forall (s : string) (w0 : W), (first_isVisible s w0).2 = w0) ->
  Forall (fun s => (first_isVisible s w).1 <> Js.Return true) selectors ->
  findInputField selectors w = (None, w).
Proof.
  intros Hstill. induction 1 as [| s rest Hs _ IH]; [reflexivity |].
  cbn [findInputField]. unfold mbind, State_bind, mret, State_ret.
  pose proof (Hstill s w) as Hw.
  destruct (first_isVisible s w) as [[[|] | e] w1];
    cbn [fst snd] in *; subst w1; try done.
Qed.

(** X22. On a page whose visibility probes leave the world as it is, where
    the first match of each field selector is as visible after the reading
    of the clock as the selector was before: when [hasInputField] answers
    [false], [sendMessage] fails, for a message that is not blank, with
    'Failed to send message: Could not find input field', and the helper is
    as before. *)
Theorem hasInputField_false_sendMessage (this : t) (message : Text.t) (w : W) :
  (forall (s : string) (w0 : W),
      (first_isVisible s w0).2 = w0 /\ (locator_isVisible s w0).2 = w0) ->
  Forall (fun s => (first_isVisible s (Date_now w).2).1
                   = (locator_isVisible s w).1) fieldSelectors ->
  Text.trim message <> [] ->
  (hasInputField w).1 = false ->
  (sendMessage this message w).1
  = (Js.Throw (Js.Error "Failed to send message: Could not find input field"),
     this).
Proof.
  intros Hstill Hsame Hmessage Hnone.
  apply anyVisible_false in Hnone; [| intros; apply Hstill].
  assert (Forall (fun s => (first_isVisible s (Date_now w).2).1
                           <> Js.Return true) inputSelectors) as Hhidden.
  { rewrite Forall_forall in Hnone, Hsame. apply Forall_forall.
    intros s Hin.
    assert (s ∈ fieldSelectors) as Hfield.
    { unfold inputSelectors in Hin. unfold fieldSelectors.
      repeat (apply elem_of_cons in Hin as [-> | Hin];
              [apply list_elem_of_In; cbn [In]; auto 10 |]).
      by apply elem_of_nil in Hin. }
    rewrite (Hsame s Hfield). by apply Hnone. }
  unfold sendMessage.
  assert (Text.falsy message || Nat.eqb (length (Text.trim message)) 0 = false)
    as ->.
  { apply orb_false_iff. split.
    - by destruct message.
    - apply Nat.eqb_neq. by destruct (Text.trim message). }
  unfold mbind, State_bind, mret, State_ret.
  destruct (Date_now w) as [startTime w1]. cbn [snd] in Hhidden.
  rewrite (findInputField_None inputSelectors w1);
    [reflexivity | intros; apply Hstill | exact Hhidden].
Qed.

End Input.

Lemma hasInputField_false_sendMessage_witness :
  let w := Sample.mk [Js.attr "class*" "chat-open"] 0 [] [] in
  (sendMessage constructor [72; 105]%N w).1
  = (Js.Throw (Js.Error "Failed to send message: Could not find input field"),
     constructor).
Proof.
  intros w.
  apply (hasInputField_false_sendMessage constructor [72; 105]%N w).
  - intros s w0. split; reflexivity.
  - repeat constructor.
  - discriminate.
  - vm_compute. reflexivity.
Defined.

(** ** The widget and its bounds *)

Section Bounds.
Context `{Page W} `{Browser W}.
Hypothesis still : forall (s : string) (w : W), (first_isVisible s w).2 = w.

Lemma anyFirstVisible_spec (selectors : list string) (w : W) :
  (anyFirstVisible selectors w).1 = true
  <-> Exists (fun s => (first_isVisible s w).1 = Js.Return true) selectors.
Proof.
  induction selectors as [| s rest IH].
  - cbn. split; [discriminate | by inversion 1].
  - cbn [anyFirstVisible]. unfold mbind, State_bind, mret, State_ret.
    rewrite Exists_cons. pose proof (still s w) as Hs.
    destruct (first_isVisible s w) as [[[|] | e] w1];
      cbn [fst snd] in *; subst w1.
    + split; [by left | done].
    + rewrite IH. split; [by right | by intros [? | ?]].
    + rewrite IH. split; [by right | by intros [? | ?]].
Qed.

Lemma measureFirst_Some (selectors : list string) (box : option Box.t) (w : W) :
  (measureFirst selectors w).1 = Some box ->
  Exists (fun s => (first_isVisible s w).1 = Js.Return true) selectors.
Proof.
  induction selectors as [| s rest IH]; [discriminate |].
  cbn [measureFirst]. unfold mbind, State_bind, mret, State_ret.
  pose proof (still s w) as Hs.
  destruct (first_isVisible s w) as [[[|] | e] w1] eqn:Hprobe;
    cbn [fst snd] in *; subst w1.
  - intros _. left. by rewrite Hprobe.
  - intros Hrest. right. by apply IH.
  - intros Hrest. right. by apply IH.
Qed.

Lemma measureFirst_None (selectors : list string) (w : W) :
  Forall (fun s => (first_isVisible s w).1 <> Js.Return true) selectors ->
  measureFirst selectors w = (None, w).
Proof.
  induction 1 as [| s rest Hs _ IH]; [reflexivity |].
  cbn [measureFirst]. unfold mbind, State_bind, mret, State_ret.
  pose proof (still s w) as Hw.
  destruct (first_isVisible s w) as [[[|] | e] w1];
    cbn [fst snd] in *; subst w1; done.
Qed.

(** X23. On a page whose visibility probes leave the world as it is: when
    [getWidgetBounds] resolves, [isWidgetVisible] answers [true]; but not
    the other way round, for a widget that only the selector
    '.widget-container' finds is visible for [isWidgetVisible] while
    [getWidgetBounds] throws 'Could not find widget to measure bounds'. *)
Theorem getWidgetBounds_and_isWidgetVisible (w : W) :
  (forall box : option Box.t,
      (getWidgetBounds w).1 = Js.Return box -> (isWidgetVisible w).1 = true)
  /\ (Forall (fun s => (first_isVisible s w).1 <> Js.Return true)
             boundsSelectors ->
      (first_isVisible ".widget-container" w).1 = Js.Return true ->
      (isWidgetVisible w).1 = true
      /\ (getWidgetBounds w).1
         = Js.Throw (Js.Error "Could not find widget to measure bounds")).
Proof.
  split.
  - intros box. unfold getWidgetBounds, mbind, State_bind, mret, State_ret.
    destruct (measureFirst boundsSelectors w) as [[measured |] w1] eqn:Hmeasure;
      [| discriminate].
    intros _. apply anyFirstVisible_spec.
    assert ((measureFirst boundsSelectors w).1 = Some measured) as Hsome
      by (by rewrite Hmeasure).
    apply measureFirst_Some in Hsome.
    unfold widgetSelectors, boundsSelectors in *.
    rewrite !Exists_cons in *. rewrite Exists_nil in Hsome. tauto.
  - intros Hhidden Hcontainer. split.
    + apply anyFirstVisible_spec. unfold widgetSelectors.
      rewrite !Exists_cons. tauto.
    + unfold getWidgetBounds, mbind, State_bind, mret, State_ret.
      by rewrite measureFirst_None.
Qed.

End Bounds.

(** ** The relevance of a response *)

Lemma lower_char_space (c : Ascii.ascii) :
  Js.is_space (Js.lower_char c) = Js.is_space c.
Proof. destruct c as [[] [] [] [] [] [] [] []]; reflexivity. Qed.

Lemma trimStart_map_chars (f : Ascii.ascii -> Ascii.ascii) (s : string) :
  (forall c, Js.is_space (f c) = Js.is_space c) ->
  Js.trimStart (Js.map_chars f s) = Js.map_chars f (Js.trimStart s).
Proof.
  intros Hf. induction s as [| c s IH]; [reflexivity |].
  cbn [Js.map_chars Js.trimStart]. rewrite Hf.
  destruct (Js.is_space c); [exact IH | reflexivity].
Qed.

Lemma rev_app_map_chars (f : Ascii.ascii -> Ascii.ascii) (s acc : string) :
  String.rev_app (Js.map_chars f s) (Js.map_chars f acc)
  = Js.map_chars f (String.rev_app s acc).
Proof.
  revert acc. induction s as [| c s IH]; intros acc; [reflexivity |].
  cbn [Js.map_chars String.rev_app]. apply (IH (String c acc)).
Qed.

Lemma rev_map_chars (f : Ascii.ascii -> Ascii.ascii) (s : string) :
  String.rev (Js.map_chars f s) = Js.map_chars f (String.rev s).
Proof. apply (rev_app_map_chars f s EmptyString). Qed.

Lemma trim_map_chars (f : Ascii.ascii -> Ascii.ascii) (s : string) :
  (forall c, Js.is_space (f c) = Js.is_space c) ->
  Js.trim (Js.map_chars f s) = Js.map_chars f (Js.trim s).
Proof.
  intros Hf. unfold Js.trim, Js.trimEnd.
  by rewrite trimStart_map_chars, rev_map_chars, trimStart_map_chars,
    rev_map_chars.
Qed.

Lemma toLowerCase_falsy (s : string) :
  Js.falsy (Js.toLowerCase s) = Js.falsy s.
Proof. by destruct s. Qed.

(** X15. A response that contains one of the five stock phrases, in any
    case of letters, is never found relevant, whatever the input (for texts
    of ASCII characters, on which the case mapping is the one modelled). *)
Theorem isResponseRelevant_generic (input response generic : string) :
  Js.ascii_text input = true -> Js.ascii_text response = true ->
  In generic genericResponses ->
  Js.includes (Js.toLowerCase response) generic = true ->
  isResponseRelevant input response = false.
Proof.
  intros _ _ Hin Hincludes. unfold isResponseRelevant.
  destruct (Js.falsy input || Js.falsy response); [reflexivity |].
  assert (existsb (fun g => Js.includes (Js.toLowerCase response) g)
                  genericResponses = true) as ->; [| reflexivity].
  apply existsb_exists. by exists generic.
Qed.

(** X16. For an input that mentions 'pric', 'cost' or 'plan', a response
    without stock phrase is relevant exactly when it mentions 'pric',
    'cost', 'plan' or '$': neither its length nor the other words of the
    input count (for texts of ASCII characters). *)
Theorem isResponseRelevant_pricing (input response : string) :
  Js.ascii_text input = true -> Js.ascii_text response = true ->
  input <> "" -> response <> "" ->
  Forall (fun generic => Js.includes (Js.toLowerCase response) generic = false)
         genericResponses ->
  Js.includes (Js.toLowerCase input) "pric"
  || Js.includes (Js.toLowerCase input) "cost"
  || Js.includes (Js.toLowerCase input) "plan" = true ->
  isResponseRelevant input response
  = Js.includes (Js.toLowerCase response) "pric"
    || Js.includes (Js.toLowerCase response) "cost"
    || Js.includes (Js.toLowerCase response) "plan"
    || Js.includes (Js.toLowerCase response) "$".
Proof.
  intros _ _ Hinput Hresponse Hgeneric Hpricing. unfold isResponseRelevant.
  apply String.eqb_neq in Hinput, Hresponse.
  unfold Js.falsy. rewrite Hinput, Hresponse. cbn [orb].
  assert (existsb (fun g => Js.includes (Js.toLowerCase response) g)
                  genericResponses = false) as ->.
  { apply not_true_is_false. intros Hex.
    apply existsb_exists in Hex as (g & Hg & Hinc).
    rewrite Forall_forall in Hgeneric.
    apply list_elem_of_In in Hg. rewrite (Hgeneric g Hg) in Hinc. discriminate. }
  by rewrite Hpricing.
Qed.

(** X17. The answer does not depend on the case of the letters: two inputs
    with the same lower-case form and two responses with the same
    lower-case form get the same answer (for texts of ASCII characters, on
    which the case mapping is the one modelled). *)
Theorem isResponseRelevant_ignores_case
    (input input' response response' : string) :
  Js.ascii_text input = true -> Js.ascii_text input' = true ->
  Js.ascii_text response = true -> Js.ascii_text response' = true ->
  Js.toLowerCase input = Js.toLowerCase input' ->
  Js.toLowerCase response = Js.toLowerCase response' ->
  isResponseRelevant input response = isResponseRelevant input' response'.
Proof.
  intros _ _ _ _ Hinput Hresponse. unfold isResponseRelevant.
  rewrite <- (toLowerCase_falsy input), <- (toLowerCase_falsy response),
    <- (toLowerCase_falsy input'), <- (toLowerCase_falsy response').
  rewrite <- Hinput, <- Hresponse.
  assert (String.length (Js.trim response)
          = String.length (Js.trim response')) as ->.
  { rewrite <- (IssueAnalyzerMore.map_chars_length Js.lower_char (Js.trim response)),
      <- (IssueAnalyzerMore.map_chars_length Js.lower_char (Js.trim response')).
    rewrite <- !trim_map_chars by apply lower_char_space.
    fold (Js.toLowerCase response) (Js.toLowerCase response').
    by rewrite Hresponse. }
  assert (String.length response = String.length response') as ->.
  { rewrite <- (IssueAnalyzerMore.map_chars_length Js.lower_char response),
      <- (IssueAnalyzerMore.map_chars_length Js.lower_char response').
    fold (Js.toLowerCase response) (Js.toLowerCase response').
    by rewrite Hresponse. }
  reflexivity.
Qed.

End ChatbotHelperMore.

Module LoadTestMore.
Import LoadTest.

(** The five checks hold together exactly for an answer of status 200 or
    201, with a body that is not empty, in less than 3000 milliseconds. *)
Lemma check_true (r : Response.t) :
  check r = true
  <-> (Response.status r = 200 \/ Response.status r = 201)%Z
      /\ (exists text : string, Response.body r = Some text /\ text <> "")
      /\ (Response.duration r < 3000)%Q.
Proof.
  unfold check, checks. cbn [forallb id].
  rewrite !andb_true_iff, orb_true_iff, !Z.eqb_eq, !negb_true_iff.
  split.
  - intros (Hstatus & Hbody & _ & _ & Hfast & _).
    split; [exact Hstatus |]. split.
    + destruct (Response.body r) as [text |]; [| discriminate].
      exists text. split; [reflexivity |].
      apply andb_true_iff in Hbody as [Htruthy _].
      unfold Js.truthy_string in Htruthy. apply negb_true_iff in Htruthy.
      by apply String.eqb_neq.
    + apply Qnot_le_lt. intros Hle. apply Qle_bool_iff in Hle. congruence.
  - intros (Hstatus & (text & Hbody & Hne) & Hfast).
    assert (forall bound : Q, (3000 <= bound)%Q ->
                              Qle_bool bound (Response.duration r) = false)
      as Hbelow.
    { intros bound Hbound. apply not_true_is_false. intros Hle.
      apply Qle_bool_iff in Hle. lra. }
    split; [exact Hstatus |]. rewrite Hbody. split.
    + apply andb_true_iff. split.
      * unfold Js.truthy_string. apply negb_true_iff. by apply String.eqb_neq.
      * apply Nat.ltb_lt. destruct text; [done | cbn; lia].
    + repeat split; apply Hbelow; lra.
Qed.

(** The loop of the weighted choice on a double picks the scenario in
    whose interval of cumulative weights the number falls: as long as the
    number exceeds the weight taken off, the difference is exact in
    binary64. *)
Lemma choose_interval (before : list Scenario.t) (scenario : Scenario.t)
    (after : list Scenario.t) (random : Q) :
  Forall (fun scenario => (0 <= Scenario.weight scenario)%Z)
    (before ++ [scenario]) ->
  (totalWeight (before ++ [scenario]) < 2 ^ 53)%Z ->
  (Js.binary64 random == random)%Q ->
  (0 <= random)%Q ->
  before = [] \/ (inject_Z (totalWeight before) < random)%Q ->
  (random <= inject_Z (totalWeight (before ++ [scenario])))%Q ->
  choose (before ++ scenario :: after) random = Some scenario.
Proof.
  revert random.
  induction before as [| first before IH];
    intros random Hweights Htotal Hdouble Hlow Habove Hbelow.
  - cbn [app] in *. rewrite LoadTestFacts.totalWeight_cons in Htotal, Hbelow.
    change (totalWeight []) with 0%Z in *. rewrite Z.add_0_r in *.
    apply Forall_cons in Hweights as [Hweight _]. rewrite Zle_Qle in Hweight.
    change (inject_Z 0) with 0%Q in Hweight.
    assert (inject_Z (Scenario.weight scenario) < 2 ^ 53)%Q as Hsmall.
    { change (2 ^ 53)%Q with (inject_Z (2 ^ 53)). by rewrite <- Zlt_Qlt. }
    cbn [choose].
    assert (Js.binary64 (random - inject_Z (Scenario.weight scenario)) <= 0)%Q
      as Hremainder.
    { change 0%Q with (inject_Z 0).
      apply Binary64.binary64_le_Z; [apply Binary64.Qabs_lt |];
        change (inject_Z 0) with 0%Q; lra. }
    apply Qle_bool_iff in Hremainder. by rewrite Hremainder.
  - destruct Habove as [? | Habove]; [done |].
    cbn [app] in *.
    rewrite LoadTestFacts.totalWeight_cons in Htotal, Habove, Hbelow.
    rewrite inject_Z_plus in Habove, Hbelow.
    apply Forall_cons in Hweights as [Hweight Hweights].
    pose proof (LoadTestFacts.totalWeight_nonnegative _ Hweights) as Hrest.
    assert (0 <= totalWeight before)%Z as Hbefore.
    { apply LoadTestFacts.totalWeight_nonnegative.
      by apply Forall_app in Hweights as [? _]. }
    pose proof Hweight as Hfirst.
    rewrite Zle_Qle in Hweight, Hbefore.
    change (inject_Z 0) with 0%Q in Hweight, Hbefore.
    assert (random < 2 ^ 53)%Q as Hsmall.
    { eapply Qle_lt_trans; [exact Hbelow |]. rewrite <- inject_Z_plus.
      change (2 ^ 53)%Q with (inject_Z (2 ^ 53)). by rewrite <- Zlt_Qlt. }
    cbn [choose].
    pose proof (Binary64.binary64_minus_Z random (Scenario.weight first)
                  Hdouble Hweight ltac:(lra) Hsmall) as Hexact.
    assert (Js.binary64 (Js.binary64 (random - inject_Z (Scenario.weight first)))
            == Js.binary64 (random - inject_Z (Scenario.weight first)))%Q
      as Hdouble'.
    { apply Binary64.binary64_idempotent, Binary64.Qabs_lt.
      - eapply Qlt_le_trans with 0%Q; [reflexivity | lra].
      - eapply Qlt_trans with (2 ^ 53)%Q; [lra | reflexivity]. }
    set (remainder := Js.binary64 (random - inject_Z (Scenario.weight first)))
      in *.
    assert (Qle_bool remainder 0 = false) as ->.
    { apply not_true_is_false. intros Hle. apply Qle_bool_iff in Hle. lra. }
    apply IH; try done.
    + lia.
    + lra.
    + destruct before as [| second before]; [by left | right]. lra.
    + lra.
Qed.

Section Requests.
Context `{Random W} `{Runtime W} `{K6 W}.

(** X18. The accounting of one request. [simulateChatbotAPI] gives one
    sample to the response-time trend and one to the error rate. The
    request counts as a chatbot response, with the error sample 0, exactly
    when the status is 200 or 201, the body is not empty and the answer took
    less than 3000 ms; otherwise the error sample is 1. It counts as a
    timeout exactly when the answer took more than 10000 ms, and then never
    as a chatbot response. *)
Theorem simulateChatbotAPI_accounting (metrics : Metrics.t)
    (message : option string) (sessionId : string) (w : W) :
  let response := (simulateChatbotAPI metrics message sessionId w).1.1 in
  let metrics' := (simulateChatbotAPI metrics message sessionId w).1.2 in
  let answered :=
    (Response.status response = 200 \/ Response.status response = 201)%Z
    /\ (exists text : string, Response.body response = Some text /\ text <> "")
    /\ (Response.duration response < 3000)%Q in
  (exists milliseconds : Z,
      Metrics.responseTime metrics'
      = milliseconds :: Metrics.responseTime metrics)
  /\ (answered ->
      Metrics.errorRate metrics' = 0%Z :: Metrics.errorRate metrics
      /\ Metrics.chatbotResponses metrics'
         = (Metrics.chatbotResponses metrics + 1)%Z
      /\ Metrics.timeouts metrics' = Metrics.timeouts metrics)
  /\ (~ answered ->
      Metrics.errorRate metrics' = 1%Z :: Metrics.errorRate metrics
      /\ Metrics.chatbotResponses metrics' = Metrics.chatbotResponses metrics)
  /\ ((10000 < Response.duration response)%Q ->
      Metrics.timeouts metrics' = (Metrics.timeouts metrics + 1)%Z)
  /\ ((Response.duration response <= 10000)%Q ->
      Metrics.timeouts metrics' = Metrics.timeouts metrics).
Proof.
  unfold simulateChatbotAPI, mbind, State_bind, mret, State_ret.
  destruct (Date_toISOString w) as [timestamp w1].
  destruct (Date_now w1) as [startTime w2].
  destruct (http_post _ _ w2) as [response w3].
  destruct (Date_now w3) as [finish w4].
  cbn [fst snd Metrics.errorRate Metrics.responseTime
       Metrics.chatbotResponses Metrics.timeouts].
  pose proof (check_true response) as Hcheck.
  assert (forall bound : Q,
             Qle_bool (Response.duration response) bound = true
             <-> (Response.duration response <= bound)%Q) as Hle
    by (intros; apply Qle_bool_iff).
  split; [eauto |]. split; [| split; [| split]].
  - intros Hanswered. apply Hcheck in Hanswered as Hok. rewrite Hok.
    repeat split. destruct Hanswered as (_ & _ & Hfast).
    assert (Qle_bool (Response.duration response) 10000 = true) as ->
      by (apply Hle; lra).
    reflexivity.
  - intros Hnot. destruct (check response) eqn:Hok; [| by split].
    destruct Hnot. by apply Hcheck.
  - intros Hslow.
    destruct (Qle_bool (Response.duration response) 10000) eqn:Hq;
      [| reflexivity].
    apply Hle in Hq. lra.
  - intros Hquick. apply Hle in Hquick. by rewrite Hquick.
Qed.

Lemma totalWeight_app (l1 l2 : list Scenario.t) :
  totalWeight (l1 ++ l2) = (totalWeight l1 + totalWeight l2)%Z.
Proof.
  induction l1 as [| scenario l1 IH];
    [cbn [app]; change (totalWeight []) with 0%Z; lia |].
  cbn [app]. rewrite !LoadTestFacts.totalWeight_cons, IH. lia.
Qed.

(** X21. The weights of the table are the bounds of its categories on
    the product of the draw and 100, as binary64 rounds it: the category
    that [getRandomScenario] returns is 'greeting' for a product up to 30,
    'pricing_inquiry' above that up to 55, 'product_info' up to 75,
    'support' up to 90 and 'contact' above. The product is at most 30 for
    every draw up to 3/10. *)
Theorem getRandomScenario_weights (w : W) :
  let draw := (Math_random w).1 in
  let product := Js.binary64 (draw * 100)%Q in
  let category := Selection.category (getRandomScenario w).1 in
  ((product <= 30)%Q -> category = "greeting")
  /\ ((30 < product)%Q -> (product <= 55)%Q -> category = "pricing_inquiry")
  /\ ((55 < product)%Q -> (product <= 75)%Q -> category = "product_info")
  /\ ((75 < product)%Q -> (product <= 90)%Q -> category = "support")
  /\ ((90 < product)%Q -> category = "contact")
  /\ ((draw <= 3 # 10)%Q -> (product <= 30)%Q).
Proof.
  cbn zeta. unfold getRandomScenario, mbind, State_bind, mret, State_ret.
  destruct (Math_random_range w) as [Hlo Hhi].
  destruct (LoadTestFacts.scaled_draw _ Hlo Hhi) as [Hlow Hhigh].
  destruct (Math_random w) as [draw w1]. cbn [fst] in *.
  change (totalWeight TEST_SCENARIOS) with 100%Z in *.
  change (inject_Z 100) with 100%Q in *.
  assert (Qabs (draw * 100) < 2 ^ 53)%Q as Hsmall.
  { apply Binary64.Qabs_lt.
    - eapply Qlt_le_trans with 0%Q; [reflexivity | lra].
    - eapply Qlt_trans with 100%Q; [lra | reflexivity]. }
  assert (Js.binary64 (Js.binary64 (draw * 100)) == Js.binary64 (draw * 100))%Q
    as Hdouble.
  { apply Binary64.binary64_idempotent.
    eapply Qlt_trans; [exact Hsmall | reflexivity]. }
  set (product := Js.binary64 (draw * 100)%Q) in *.
  assert (forall before scenario after,
             TEST_SCENARIOS = before ++ scenario :: after ->
             before = [] \/ (inject_Z (totalWeight before) < product)%Q ->
             (product <= inject_Z (totalWeight (before ++ [scenario])))%Q ->
             choose TEST_SCENARIOS product = Some scenario) as Hinterval.
  { intros before scenario after Htable Habove Hbelow.
    assert (Forall (fun s => 0 <= Scenario.weight s)%Z TEST_SCENARIOS)
      as Hweights by (repeat constructor; done).
    assert (totalWeight TEST_SCENARIOS = 100%Z) as Htotal by reflexivity.
    rewrite Htable in Hweights.
    apply Forall_app in Hweights as [Hbefore Hweights].
    apply Forall_cons in Hweights as [Hscenario Hafter].
    rewrite Htable at 1.
    apply choose_interval; try done.
    - apply Forall_app. split; [exact Hbefore | by constructor].
    - rewrite Htable in Htotal.
      rewrite totalWeight_app, LoadTestFacts.totalWeight_cons in Htotal.
      rewrite totalWeight_app. change (totalWeight [scenario])
        with (0 + Scenario.weight scenario)%Z.
      pose proof (LoadTestFacts.totalWeight_nonnegative after Hafter). lia. }
  repeat split.
  - intros Hbelow.
    erewrite (Hinterval [] _ (drop 1 TEST_SCENARIOS) eq_refl);
      [by destruct (Math_random w1) | by left | exact Hbelow].
  - intros Habove Hbelow.
    erewrite (Hinterval (take 1 TEST_SCENARIOS) _ (drop 2 TEST_SCENARIOS)
                eq_refl);
      [by destruct (Math_random w1) | right; exact Habove | exact Hbelow].
  - intros Habove Hbelow.
    erewrite (Hinterval (take 2 TEST_SCENARIOS) _ (drop 3 TEST_SCENARIOS)
                eq_refl);
      [by destruct (Math_random w1) | right; exact Habove | exact Hbelow].
  - intros Habove Hbelow.
    erewrite (Hinterval (take 3 TEST_SCENARIOS) _ (drop 4 TEST_SCENARIOS)
                eq_refl);
      [by destruct (Math_random w1) | right; exact Habove | exact Hbelow].
  - intros Habove.
    erewrite (Hinterval (take 4 TEST_SCENARIOS) _ (drop 5 TEST_SCENARIOS)
                eq_refl);
      [by destruct (Math_random w1) | right; exact Habove | exact Hhigh].
  - intros Hdraw. change 30%Q with (inject_Z 30).
    apply Binary64.binary64_le_Z; [exact Hsmall |].
    change (inject_Z 30) with 30%Q. lra.
Qed.

(** One request adds one sample to the response-time trend. *)
Lemma simulateChatbotAPI_one_sample (metrics : Metrics.t)
    (message : option string) (sessionId : string) (w : W) :
  length (Metrics.responseTime
            (simulateChatbotAPI metrics message sessionId w).1.2)
  = S (length (Metrics.responseTime metrics)).
Proof.
  unfold simulateChatbotAPI, mbind, State_bind, mret, State_ret.
  destruct (Date_toISOString w) as [timestamp w1].
  destruct (Date_now w1) as [startTime w2].
  destruct (http_post _ _ w2) as [response w3].
  destruct (Date_now w3) as [finish w4]. reflexivity.
Qed.

(** The rounds [i] to [i + rounds - 1] of a conversation send [rounds]
    requests, and one more at most, which only the round 0 can add. *)
Lemma converse_requests (metrics : Metrics.t) (sessionId : string)
    (i rounds : nat) (w : W) :
  let sent :=
    length (Metrics.responseTime (converse metrics sessionId i rounds w).1)
    - length (Metrics.responseTime metrics) in
  length (Metrics.responseTime metrics)
  <= length (Metrics.responseTime (converse metrics sessionId i rounds w).1)
  /\ rounds <= sent
  /\ sent <= rounds + (if Nat.eqb i 0 then Nat.min 1 rounds else 0).
Proof.
  revert metrics i w. induction rounds as [| rounds IH]; intros metrics i w.
  - cbn. destruct (Nat.eqb i 0); lia.
  - cbn [converse]. unfold mbind, State_bind, mret, State_ret.
    destruct (getRandomScenario w) as [scenario w1].
    destruct (console_log _ w1) as [[] w2].
    pose proof (simulateChatbotAPI_one_sample metrics
                  (Selection.message scenario) sessionId w2) as Hone.
    destruct (simulateChatbotAPI metrics _ sessionId w2) as [[r m1] w3].
    cbn [fst snd] in Hone.
    destruct (Math_random w3) as [think w4].
    destruct (sleep _ w4) as [[] w5].
    destruct (String.eqb _ "pricing_inquiry" && Nat.eqb i 0) eqn:Hfirst.
    + apply andb_true_iff in Hfirst as [_ Hi]. rewrite Hi.
      destruct (Math_random w5) as [again w6].
      destruct (negb (Qle_bool again (Js.binary64 (7 # 10)))).
      * destruct (Math_random w6) as [index w7].
        destruct (sleep 1 w7) as [[] w8].
        pose proof (simulateChatbotAPI_one_sample m1
                      (pick followUp index) sessionId w8) as Htwo.
        destruct (simulateChatbotAPI m1 _ sessionId w8) as [[r2 m2] w9].
        cbn [fst snd] in Htwo.
        specialize (IH m2 (S i) w9). cbn [Nat.eqb] in IH. cbn zeta in *. lia.
      * specialize (IH m1 (S i) w6). cbn [Nat.eqb] in IH. cbn zeta in *. lia.
    + specialize (IH m1 (S i) w5). cbn [Nat.eqb] in IH. cbn zeta in *.
      destruct (Nat.eqb i 0); lia.
Qed.

Lemma simulateConversation_sends (metrics : Metrics.t)
    (sessionId : string) (w : W) :
  let before := length (Metrics.responseTime metrics) in
  let after :=
    length (Metrics.responseTime (simulateConversation metrics sessionId w).1) in
  before + 1 <= after <= before + 5.
Proof.
  unfold simulateConversation, mbind, State_bind.
  destruct (Math_random_range w) as [Hlo Hhi].
  pose proof (Math_random_double w) as Hdouble.
  destruct (Math_random w) as [draw w1]. cbn [fst] in *.
  assert (Qfloor (Js.binary64 (draw * 4)) = Qfloor (draw * 4)) as Hexact.
  { apply Qfloor_comp, Binary64.binary64_times_4; [exact Hdouble |].
    apply Binary64.Qabs_lt.
    - eapply Qlt_le_trans with 0%Q; [reflexivity | exact Hlo].
    - eapply Qlt_trans with 1%Q; [exact Hhi | reflexivity]. }
  assert (0 <= Qfloor (Js.binary64 (draw * 4)) <= 3)%Z as Hfloor.
  { rewrite Hexact. split.
    - change 0%Z with (Qfloor 0). apply Qfloor_resp_le. lra.
    - apply Z.lt_succ_r. rewrite Zlt_Qlt.
      eapply Qle_lt_trans; [apply Qfloor_le |].
      change (inject_Z (Z.succ 3)) with 4%Q. lra. }
  pose proof (converse_requests metrics sessionId 0
                (Z.to_nat (Qfloor (Js.binary64 (draw * 4)) + 1)) w1) as Hsent.
  cbn zeta in *. cbn [Nat.eqb] in Hsent. lia.
Qed.

(** X19. A conversation sends between one and five requests: one for each
    of its one to four rounds, and at most one follow-up. *)
Theorem simulateConversation_requests (metrics : Metrics.t)
    (sessionId : string) (w : W) :
  exists sent : nat,
    length (Metrics.responseTime (simulateConversation metrics sessionId w).1)
    = length (Metrics.responseTime metrics) + sent
    /\ 1 <= sent <= 5.
Proof.
  pose proof (simulateConversation_sends metrics sessionId w) as Hsends.
  cbn zeta in Hsends.
  exists (length (Metrics.responseTime
                    (simulateConversation metrics sessionId w).1)
          - length (Metrics.responseTime metrics)).
  lia.
Qed.

(** X20. One iteration of a virtual user sends no request when the
    behaviour draw is below the double 0.1, one request when it is from the
    double 0.1 and below the double 0.3, and otherwise the one to five
    requests of a conversation. The double 0.3 lies below 3/10: the draw
    that equals it starts a conversation. *)
Theorem iteration_requests (metrics : Metrics.t) (w : W) :
  let userBehavior := (Math_random (Date_now w).2).1 in
  let before := length (Metrics.responseTime metrics) in
  let after := length (Metrics.responseTime (iteration metrics w).1) in
  ((userBehavior < Js.binary64 (1 # 10))%Q -> (iteration metrics w).1 = metrics)
  /\ ((Js.binary64 (1 # 10) <= userBehavior)%Q ->
      (userBehavior < Js.binary64 (3 # 10))%Q ->
      after = before + 1)
  /\ ((Js.binary64 (3 # 10) <= userBehavior)%Q ->
      before + 1 <= after <= before + 5)
  /\ (1 # 10 < Js.binary64 (1 # 10))%Q
  /\ (Js.binary64 (3 # 10) < 3 # 10)%Q.
Proof.
  assert (1 # 10 < Js.binary64 (1 # 10))%Q as Htenth
    by (vm_compute; reflexivity).
  assert (Js.binary64 (3 # 10) < 3 # 10)%Q as Hthree
    by (vm_compute; reflexivity).
  assert (Js.binary64 (1 # 10) < Js.binary64 (3 # 10))%Q as Horder
    by (vm_compute; reflexivity).
  unfold iteration, mbind, State_bind, mret, State_ret.
  destruct (Date_now w) as [now w1]. cbn [snd].
  destruct (Math_random w1) as [userBehavior w2]. cbn [fst].
  set (tenth := Js.binary64 (1 # 10)) in *.
  set (three_tenths := Js.binary64 (3 # 10)) in *.
  clearbody tenth three_tenths.
  assert (forall bound : Q,
             Qle_bool bound userBehavior = true <-> (bound <= userBehavior)%Q)
    as Hle by (intros; apply Qle_bool_iff).
  destruct (Qle_bool tenth userBehavior) eqn:H10; cbn [negb].
  - apply Hle in H10.
    destruct (Qle_bool three_tenths userBehavior) eqn:H30; cbn [negb].
    + apply Hle in H30.
      pose proof (simulateConversation_sends metrics
                    ("session_" +:+ pretty VU +:+ "_" +:+ pretty ITER +:+ "_"
                     +:+ pretty now) w2) as Hconversation.
      destruct (simulateConversation metrics _ w2) as [m1 w3].
      destruct (Math_random w3) as [browse w4].
      destruct (sleep _ w4) as [[] w5]. cbn [fst] in *.
      split; [intros; lra |]. split; [intros; lra |].
      split; [intros _; lia |]. by split.
    + assert (~ (three_tenths <= userBehavior)%Q) as Hnot
        by (intros Hc; apply Hle in Hc; congruence).
      destruct (getRandomScenario w2) as [scenario w3].
      pose proof (simulateChatbotAPI_one_sample metrics
                    (Selection.message scenario)
                    ("session_" +:+ pretty VU +:+ "_" +:+ pretty ITER +:+ "_"
                     +:+ pretty now) w3) as Hone.
      destruct (simulateChatbotAPI metrics _ _ w3) as [[r m1] w4].
      destruct (Math_random w4) as [browse w5].
      destruct (sleep _ w5) as [[] w6]. cbn [fst snd] in *.
      split; [intros; lra |]. split; [intros; lia |].
      split; [intros; lra |]. by split.
  - assert (~ (tenth <= userBehavior)%Q) as Hnot
      by (intros Hc; apply Hle in Hc; congruence).
    destruct (Math_random w2) as [look w3].
    destruct (sleep _ w3) as [[] w4]. cbn [fst].
    split; [reflexivity |]. split; [intros; lra |].
    split; [intros; lra |]. by split.
Qed.

End Requests.

End LoadTestMore.

(** ** The further properties on the sample world *)

Module MoreRuns.

Lemma addIssue_then_removeIssue_witness :
  IssueAnalyzer.removeIssue
    (IssueAnalyzer.addIssue IssueAnalyzer.constructor Sample.leak Sample.w0).1.2
    (IssueAnalyzer.addIssue IssueAnalyzer.constructor Sample.leak Sample.w0).1.1
  = (true, IssueAnalyzer.constructor).
Proof.
  apply (IssueAnalyzerMore.addIssue_then_removeIssue
           IssueAnalyzer.constructor Sample.leak Sample.w0).
  constructor.
Defined.

Lemma scored_is_kept_witness :
  IssueAnalyzer.scored
    (IssueAnalyzer.addIssue IssueAnalyzer.constructor Sample.leak Sample.w0).1.2
  /\ ~ IssueAnalyzer.scored
        (IssueAnalyzer.addIssue IssueAnalyzer.constructor
           (Issue.mk "constructor" (Some "high") "d" "e" "i" "r")
           Sample.w0).1.2.
Proof.
  split.
  - destruct (IssueAnalyzerMore.scored_is_kept IssueAnalyzer.constructor
                Sample.leak "ISSUE-A" Sample.w0) as [Hnew Hkept].
    apply Hkept; [exact Hnew | vm_compute; reflexivity
                  | vm_compute; reflexivity].
  - destruct (IssueAnalyzerMore.scored_is_kept IssueAnalyzer.constructor
                (Issue.mk "constructor" (Some "high") "d" "e" "i" "r")
                "ISSUE-A" Sample.w0) as [Hnew Hkept].
    apply Hkept; [exact Hnew | right; vm_compute; reflexivity].
Defined.

Lemma estimates_are_category_lookups_witness :
  let issue := Issue.mk "security" (Some "minor") "d" "e" "i" "r" in
  let other := Issue.mk "telemetry" None "x" "y" "z" "t" in
  IssueAnalyzer.estimateFixTime issue = Js.Value "1-5 days"
  /\ IssueAnalyzer.estimateAffectedUsers issue = Js.Value "100%"
  /\ IssueAnalyzer.estimateFixTime other = Js.Value "4-8 hours"
  /\ IssueAnalyzer.estimateAffectedUsers other = Js.Value "10-30%".
Proof.
  intros issue other.
  destruct (IssueAnalyzerMore.estimates_are_category_lookups issue)
    as (Htime & Husers & _); [vm_compute; reflexivity |].
  destruct (IssueAnalyzerMore.estimates_are_category_lookups other)
    as (Htime' & Husers' & _); [vm_compute; reflexivity |].
  rewrite Htime, Husers, Htime', Husers'.
  repeat split; vm_compute; reflexivity.
Defined.

Lemma three_scored : IssueAnalyzer.scored Sample.three.
Proof.
  unfold IssueAnalyzer.scored, Sample.three. cbn [IssueAnalyzer.issues].
  repeat constructor.
  - exists 6%Z. split; [vm_compute; reflexivity | lia].
  - exists 9%Z. split; [vm_compute; reflexivity | lia].
  - exists 10%Z. split; [vm_compute; reflexivity | lia].
Defined.

Lemma getHighPriorityIssues_sorted_witness :
  map EnrichedIssue.id (IssueAnalyzer.getHighPriorityIssues Sample.three)
  = ["ISSUE-C"; "ISSUE-B"]
  /\ StronglySorted
       (fun a b =>
          PrimFloat.leb (EnrichedIssue.businessPriority b)
                        (EnrichedIssue.businessPriority a) = true)
       (IssueAnalyzer.getHighPriorityIssues Sample.three).
Proof.
  split; [vm_compute; reflexivity |].
  apply (IssueAnalyzerMore.getHighPriorityIssues_sorted Sample.three three_scored).
Defined.

Lemma updateIssue_first_record_witness :
  let changes :=
    IssueAnalyzer.Updates.mk None None None (Some "minor") None None None None None None
      None None in
  (IssueAnalyzer.updateIssue Sample.three "ISSUE-B" changes).1 = true
  /\ map EnrichedIssue.severity
         (IssueAnalyzer.issues
            (IssueAnalyzer.updateIssue Sample.three "ISSUE-B" changes).2)
     = ["high"; "minor"; "critical"]
  /\ IssueAnalyzer.updateIssue Sample.three "ISSUE-Z" changes = (false, Sample.three).
Proof.
  intros changes.
  destruct (IssueAnalyzerMore.updateIssue_first_record Sample.three "ISSUE-B" changes)
    as (_ & Hfound & _).
  destruct (IssueAnalyzerMore.updateIssue_first_record Sample.three "ISSUE-Z" changes)
    as (Habsent & _ & _).
  rewrite (Hfound
             [IssueAnalyzer.enrich IssueAnalyzer.constructor Sample.lag "ISSUE-A" "t"]
             [IssueAnalyzer.enrich IssueAnalyzer.constructor Sample.leak "ISSUE-C" "t"]
             (IssueAnalyzer.enrich IssueAnalyzer.constructor Sample.blur "ISSUE-B" "t")).
  - split; [reflexivity |]. split; [vm_compute; reflexivity |].
    apply Habsent. repeat constructor; discriminate.
  - reflexivity.
  - repeat constructor. discriminate.
  - reflexivity.
Defined.

Lemma getWidgetBounds_and_isWidgetVisible_witness :
  let w := Sample.mk [".widget-container"] 0 [] [] in
  (ChatbotHelper.isWidgetVisible w).1 = true
  /\ (ChatbotHelper.getWidgetBounds w).1
     = Js.Throw (Js.Error "Could not find widget to measure bounds").
Proof.
  intros w.
  assert (forall (s : string) (w1 : Sample.world),
             (first_isVisible s w1).2 = w1) as still by reflexivity.
  destruct (ChatbotHelperMore.getWidgetBounds_and_isWidgetVisible still w)
    as [_ Honly].
  apply Honly.
  - repeat constructor; vm_compute; discriminate.
  - vm_compute. reflexivity.
Defined.

Lemma isResponseRelevant_generic_witness :
  ChatbotHelper.isResponseRelevant "What is the price?"
    "Sorry, I didn't get that. The price is $5." = false.
Proof.
  apply (ChatbotHelperMore.isResponseRelevant_generic _ _
           "sorry, i didn't get that").
  - vm_compute. reflexivity.
  - vm_compute. reflexivity.
  - cbn [ChatbotHelper.genericResponses In]. auto 10.
  - vm_compute. reflexivity.
Defined.

Lemma isResponseRelevant_pricing_witness :
  ChatbotHelper.isResponseRelevant "How much does it cost?" "$5" = true.
Proof.
  rewrite (ChatbotHelperMore.isResponseRelevant_pricing
             "How much does it cost?" "$5").
  - vm_compute. reflexivity.
  - vm_compute. reflexivity.
  - vm_compute. reflexivity.
  - discriminate.
  - discriminate.
  - repeat constructor.
  - vm_compute. reflexivity.
Defined.

Lemma isResponseRelevant_ignores_case_witness :
  ChatbotHelper.isResponseRelevant "Where is my ORDER"
    "Your Order ships tomorrow morning"
  = ChatbotHelper.isResponseRelevant "where is my order"
      "YOUR ORDER SHIPS TOMORROW MORNING".
Proof.
  apply ChatbotHelperMore.isResponseRelevant_ignores_case;
    vm_compute; reflexivity.
Defined.

Lemma simulateChatbotAPI_accounting_witness :
  (LoadTest.simulateChatbotAPI Sample.no_metrics (Some "Hello") "session_1_0_5" Sample.w0).1.2
  = LoadTest.Metrics.mk [0%Z] [1%Z] 1 0.
Proof.
  destruct (LoadTestMore.simulateChatbotAPI_accounting Sample.no_metrics
              (Some "Hello") "session_1_0_5" Sample.w0)
    as ((milliseconds & Htime) & Hanswered & _ & _ & _).
  destruct Hanswered as (Hrate & Hcount & Htimeouts).
  { split; [left; reflexivity |]. split; [| reflexivity].
    exists "ok". split; [reflexivity | discriminate]. }
  vm_compute. reflexivity.
Defined.

(** The draw that is the double 0.3 starts a conversation; a draw of 0.2
    sends one message and a draw of 0.05 none. *)
Lemma iteration_requests_witness :
  let sent (draws : list Q) :=
    length (LoadTest.Metrics.responseTime
              (LoadTest.iteration Sample.no_metrics
                 (Sample.mk [] 0 draws [])).1) in
  1 <= sent [3 # 10; 0%Q; 1 # 2; 3 # 4; 1 # 2; 1 # 2] <= 5
  /\ sent [2 # 10; 1 # 2; 3 # 4; 1 # 2] = 1
  /\ sent [5 # 100; 1 # 2] = 0.
Proof.
  intros sent. subst sent. cbn beta.
  split; [| split].
  - destruct (LoadTestMore.iteration_requests Sample.no_metrics
                (Sample.mk [] 0 [3 # 10; 0%Q; 1 # 2; 3 # 4; 1 # 2; 1 # 2] []))
      as (_ & _ & Hconversation & _).
    apply Hconversation. vm_compute. discriminate.
  - destruct (LoadTestMore.iteration_requests Sample.no_metrics
                (Sample.mk [] 0 [2 # 10; 1 # 2; 3 # 4; 1 # 2] []))
      as (_ & Hone & _).
    apply Hone; vm_compute; first [reflexivity | discriminate].
  - destruct (LoadTestMore.iteration_requests Sample.no_metrics
                (Sample.mk [] 0 [5 # 100; 1 # 2] []))
      as (Hnone & _).
    rewrite Hnone; [reflexivity |]. vm_compute. reflexivity.
Defined.

(** The double nearest to 9/10 lies above it, yet its product with 100
    rounds to 90: the draw selects 'support'. *)
Lemma getRandomScenario_weights_witness :
  let w := Sample.mk [] 0 [9 # 10; 1 # 2] [] in
  (9 # 10 < (Math_random w).1)%Q
  /\ (Js.binary64 ((Math_random w).1 * 100) == 90)%Q
  /\ Selection.category (LoadTest.getRandomScenario w).1 = "support".
Proof.
  intros w.
  split; [vm_compute; reflexivity |].
  split; [apply Qeq_bool_iff; vm_compute; reflexivity |].
  destruct (LoadTestMore.getRandomScenario_weights w)
    as (_ & _ & _ & Hsupport & _).
  apply Hsupport; vm_compute; first [reflexivity | discriminate].
Defined.

(** The page shows a launcher and an open chat: the first click opens, and
    closing fails since every check finds the chat open. *)
Example openChatbot_run :
  let w := Sample.mk [Js.attr "class*" "chat-widget";
                      Js.attr "class*" "chat-open"] 10 [] [] in
  (ChatbotHelper.openChatbot w).1 = Js.Return 1%Z
  /\ (ChatbotHelper.closeChatbot w).1
     = Js.Throw (Js.Error "Failed to close chatbot: Could not close chatbot")
  /\ (ChatbotHelper.openChatbot (Sample.mk [] 10 [] [])).1
     = Js.Throw (Js.Error
                   "Failed to open chatbot after 1ms: Could not open chatbot").
Proof. repeat split; vm_compute; reflexivity. Qed.

Example isResponseRelevant_run :
  ChatbotHelper.inputKeywords "what's the price, please?"
  = ["whats"; "price"; "please"]
  /\ ChatbotHelper.isResponseRelevant "Tell me about shipping"
       "Shipping takes two days" = true
  /\ ChatbotHelper.isResponseRelevant "Tell me about shipping" "Two days" = false
  /\ ChatbotHelper.isResponseRelevant "" "Two days" = false.
Proof. repeat split; vm_compute; reflexivity. Qed.

Example simulateConversation_run :
  let w := Sample.mk [] 0 [0%Q; 31 # 100; 0%Q; 1 # 2; 9 # 10; 0%Q] [] in
  length (LoadTest.Metrics.responseTime
            (LoadTest.simulateConversation Sample.no_metrics "s" w).1) = 2.
Proof. vm_compute. reflexivity. Qed.

End MoreRuns.
